(** * Saturn node monitoring exporter: field projection and metric assembly

    A shallow embedding of [main.py].  The exporter turns JSON records
    fetched from three endpoints into Prometheus metric families.  The
    embedding follows the source class by class:

    - JSON data is the dynamically typed [value]; a subscript or a method
      call on the wrong kind of value raises the exception Python raises;
    - every metric class is a module with its [__init__] and [add]; [add]
      runs in the [Emit] monad, which records the samples appended to
      [self.samples] and the exception, if any;
    - the collectors run in the [Py] monad over an object store, so that
      object identity ([info] is also [metrics[0]]) and the absence of state
      shared between two scrapes are visible in the model.

    What belongs to the interpreter's environment, and not to the program, is
    a parameter: the local time zone ([LocalTime]) and the iteration order of
    a [frozenset] of strings ([SetOrder]). *)

From Stdlib Require Import ZArith String Ascii List.
From Stdlib Require Import PrimFloat FloatOps SpecFloat.
From Stdlib Require DecimalString.
From stdpp Require Import gmap strings list fin_maps.

Set Warnings "-inexact-float,-register-all,-clear-no-such-hyp".

Local Open Scope string_scope.
Local Open Scope list_scope.
Local Open Scope Z_scope.

(** ** Python values *)

(** What [json.loads] produces.  A JSON object becomes a [dict] with string
    keys; the program only ever looks keys up in such a dict, so a finite map
    is enough.  Floats are binary64, as in CPython.  Strings are UTF-8 byte
    strings. *)
Inductive value :=
| VNone
| VBool (b : bool)
| VInt (n : Z)
| VFloat (f : float)
| VStr (s : string)
| VList (l : list value)
| VDict (d : gmap string value).

(** The exceptions the program can meet.  [Unmodelled] is not a Python
    exception: it marks an input on which the model does not say what the
    interpreter does (the [repr] of a container, Unicode case mapping). *)
Inductive exn :=
| KeyError | TypeError | AttributeError | ValueError | IndexError
| OverflowError | Unmodelled.

Inductive result (A : Type) :=
| Ok (a : A)
| Raise (e : exn).
Arguments Ok {A} a.
Arguments Raise {A} e.

#[global] Instance result_ret : MRet result := fun A a => Ok a.
#[global] Instance result_bind : MBind result := fun A B f m =>
  match m with
  | Ok a => f a
  | Raise e => Raise e
  end.

#[global] Instance result_fmap : FMap result := fun A B f m =>
  match m with
  | Ok a => Ok (f a)
  | Raise e => Raise e
  end.

#[global] Instance exn_eq_dec : EqDecision exn.
Proof. solve_decision. Defined.

(** ** Strings *)

Definition is_ascii (a : ascii) : bool := (nat_of_ascii a <? 128)%nat.

(** The bytes 10xxxxxx continue a UTF-8 encoded code point. *)
Definition is_continuation (a : ascii) : bool :=
  ((128 <=? nat_of_ascii a) && (nat_of_ascii a <? 192))%nat.

Fixpoint all_ascii (s : string) : bool :=
  match s with
  | EmptyString => true
  | String a s' => is_ascii a && all_ascii s'
  end.

(** [s[:n]] on a [str]: the first [n] code points. *)
Fixpoint utf8_take (n : nat) (s : string) : string :=
  match s with
  | EmptyString => EmptyString
  | String a s' =>
      if is_continuation a then String a (utf8_take n s')
      else match n with
           | O => EmptyString
           | S n' => String a (utf8_take n' s')
           end
  end.

(** The code points of a string, each as a string of its own. *)
Fixpoint utf8_chars_go (cur : string) (s : string) : list string :=
  match s with
  | EmptyString => if decide (cur = "") then [] else [cur]
  | String a s' =>
      if is_continuation a then utf8_chars_go (cur +:+ String a "") s'
      else (if decide (cur = "") then [] else [cur])
             ++ utf8_chars_go (String a "") s'
  end.
Definition utf8_chars (s : string) : list string := utf8_chars_go "" s.

Definition lower_ascii (a : ascii) : ascii :=
  let n := nat_of_ascii a in
  if ((65 <=? n) && (n <=? 90))%nat then ascii_of_nat (n + 32) else a.

Fixpoint lower_string (s : string) : string :=
  match s with
  | EmptyString => EmptyString
  | String a s' => String (lower_ascii a) (lower_string s')
  end.

(** [s.lower()], for ASCII strings. *)
Definition str_lower (s : string) : result string :=
  if all_ascii s then Ok (lower_string s) else Raise Unmodelled.

(** [s.split(sep)] for a separator of one character. *)
Fixpoint str_split_go (sep : ascii) (cur : string) (s : string) : list string :=
  match s with
  | EmptyString => [cur]
  | String a s' =>
      if decide (a = sep) then cur :: str_split_go sep "" s'
      else str_split_go sep (cur +:+ String a "") s'
  end.
Definition str_split (sep : ascii) (s : string) : list string :=
  str_split_go sep "" s.

Fixpoint str_endswith_go (s suffix : string) (n : nat) : bool :=
  match n with
  | O => bool_decide (s = suffix)
  | S n' => match s with
            | EmptyString => false
            | String _ s' => str_endswith_go s' suffix n'
            end
  end.
(** [s.endswith(suffix)] *)
Definition str_endswith (s suffix : string) : bool :=
  (String.length suffix <=? String.length s)%nat
  && str_endswith_go s suffix (String.length s - String.length suffix).

(** [str(n)] for an [int]. *)
Definition str_int (n : Z) : string :=
  DecimalString.NilZero.string_of_int (Z.to_int n).

Fixpoint str_repeat (n : nat) (s : string) : string :=
  match n with
  | O => ""
  | S n' => s +:+ str_repeat n' s
  end.

(** ** Floats *)

(** [float(n)] for an [int]: the nearest binary64. *)
Definition float_of_Z (z : Z) : float :=
  SF2Prim (binary_normalize prec emax z 0 false).

(** The integer a float is equal to, if any ([1.0 == 1]). *)
Definition float_integral (f : float) : option Z :=
  match Prim2SF f with
  | S754_zero _ => Some 0
  | S754_finite s m e =>
      let n := if s then Z.neg m else Z.pos m in
      if 0 <=? e then Some (n * 2 ^ e)
      else if Z.pos m mod 2 ^ (- e) =? 0 then Some (n / 2 ^ (- e))
      else None
  | _ => None
  end.

(** [int(f)]: truncation towards zero. *)
Definition int_of_float (f : float) : result Z :=
  match Prim2SF f with
  | S754_zero _ => Ok 0
  | S754_finite s m e =>
      let n := if 0 <=? e then Z.pos m * 2 ^ e else Z.pos m / 2 ^ (- e) in
      Ok (if s then - n else n)
  | S754_infinity _ => Raise OverflowError
  | S754_nan => Raise ValueError
  end.

(** *** [repr] of a float

    CPython prints the shortest decimal string that reads back as the same
    float, and of those the one closest to it.  [m * 2^e] is the float; all
    comparisons are between integers, after scaling. *)

(** The position of the decimal point: the [k] with [10^(k-1) <= num/den < 10^k]. *)
Fixpoint decimal_point (fuel : nat) (num den : Z) (k : Z) : Z :=
  match fuel with
  | O => k
  | S fuel' =>
      let lo := if 0 <=? k - 1 then num <? 10 ^ (k - 1) * den
                else num * 10 ^ (1 - k) <? den in
      let hi := if 0 <=? k then 10 ^ k * den <=? num
                else den <=? num * 10 ^ (- k) in
      if lo then decimal_point fuel' num den (k - 1)
      else if hi then decimal_point fuel' num den (k + 1)
      else k
  end.

(** The digits [d] (an integer of [n] digits, or [10^n]) of the decimal with
    [n] significant digits that reads back as the float, if there is one. *)
Definition shortest_with (n k : Z) (m e : Z) (boundary : bool) : option Z :=
  (* the float is V/D, its rounding interval is [LO/D, HI/D] *)
  let U := if 0 <=? e - 2 then 2 ^ (e - 2) else 1 in
  let D := if 0 <=? e - 2 then 1 else 2 ^ (2 - e) in
  let V := 4 * m * U in
  let HI := (4 * m + 2) * U in
  let LO := if boundary then (4 * m - 1) * U else (4 * m - 2) * U in
  (* a candidate is d * P / Q *)
  let P := if 0 <=? k - n then 10 ^ (k - n) else 1 in
  let Q := if 0 <=? k - n then 1 else 10 ^ (n - k) in
  let inside d :=
    if Z.even m then (LO * Q <=? d * P * D) && (d * P * D <=? HI * Q)
    else (LO * Q <? d * P * D) && (d * P * D <? HI * Q) in
  let d0 := (V * Q) / (D * P) in
  let d1 := d0 + 1 in
  let dist d := Z.abs (d * P * D - V * Q) in
  match inside d0, inside d1 with
  | true, true =>
      if dist d0 <? dist d1 then Some d0
      else if dist d1 <? dist d0 then Some d1
      else Some (if Z.even d0 then d0 else d1)
  | true, false => Some d0
  | false, true => Some d1
  | false, false => None
  end.

Fixpoint shortest_digits (fuel : nat) (n k m e : Z) (boundary : bool) : Z * Z :=
  match fuel with
  | O => (0, n)
  | S fuel' =>
      match shortest_with n k m e boundary with
      | Some d => (d, n)
      | None => shortest_digits fuel' (n + 1) k m e boundary
      end
  end.

Fixpoint strip_zeros (fuel : nat) (d : Z) : Z :=
  match fuel with
  | O => d
  | S fuel' => if (d mod 10 =? 0) && negb (d =? 0) then strip_zeros fuel' (d / 10) else d
  end.

(** The digit string and the decimal-point position of a positive float. *)
Definition float_digits (m e : Z) : string * Z :=
  let num := if 0 <=? e then m * 2 ^ e else m in
  let den := if 0 <=? e then 1 else 2 ^ (- e) in
  let k := decimal_point 5 num den (((Z.log2 m + e) * 30103) / 100000 + 1) in
  let boundary := (m =? 2 ^ 52) && (-1074 <? e) in
  let '(d, n) := shortest_digits 17 1 k m e boundary in
  let decpt := if d =? 10 ^ n then k + 1 else k in
  (str_int (strip_zeros 18 d), decpt).

Definition str_drop (n : nat) (s : string) : string :=
  String.substring n (String.length s - n) s.

(** The layout [repr] uses: exponent notation when the decimal point is
    more than 16 places to the right or 4 places or more to the left. *)
Definition float_layout (digits : string) (decpt : Z) : string :=
  let nd := Z.of_nat (String.length digits) in
  if (decpt <=? -4) || (16 <? decpt) then
    let ex := decpt - 1 in
    let mant := if nd =? 1 then digits
                else String.substring 0 1 digits +:+ "." +:+ str_drop 1 digits in
    let exs := str_int (Z.abs ex) in
    mant +:+ "e" +:+ (if ex <? 0 then "-" else "+")
         +:+ (if Z.abs ex <? 10 then "0" else "") +:+ exs
  else if decpt <=? 0 then
    "0." +:+ str_repeat (Z.to_nat (- decpt)) "0" +:+ digits
  else if decpt <? nd then
    String.substring 0 (Z.to_nat decpt) digits +:+ "." +:+ str_drop (Z.to_nat decpt) digits
  else
    digits +:+ str_repeat (Z.to_nat (decpt - nd)) "0" +:+ ".0".

(** [repr(f)], which is also [str(f)]. *)
Definition float_repr (f : float) : string :=
  match Prim2SF f with
  | S754_nan => "nan"
  | S754_infinity s => if s then "-inf" else "inf"
  | S754_zero s => if s then "-0.0" else "0.0"
  | S754_finite s m e =>
      let '(digits, decpt) := float_digits (Z.pos m) e in
      (if s then "-" else "") +:+ float_layout digits decpt
  end.

(** ** Operations on values *)

(** [v[k]] for a string [k]. *)
Definition getitem (v : value) (k : string) : result value :=
  match v with
  | VDict d => match d !! k with
               | Some x => Ok x
               | None => Raise KeyError
               end
  | _ => Raise TypeError
  end.

(** [v[0]].  A dict made from JSON has no key [0]. *)
Definition getitem0 (v : value) : result value :=
  match v with
  | VList l => match l with
               | x :: _ => Ok x
               | [] => Raise IndexError
               end
  | VStr s => match utf8_chars s with
              | c :: _ => Ok (VStr c)
              | [] => Raise IndexError
              end
  | VDict _ => Raise KeyError
  | _ => Raise TypeError
  end.

(** [v.get(k)]: only a dict has the method. *)
Definition get (v : value) (k : string) : result value :=
  match v with
  | VDict d => Ok (default VNone (d !! k))
  | _ => Raise AttributeError
  end.

(** [v[:8]]: a slice of a [str] or of a list; a dict cannot be sliced
    (the slice is not hashable, a [TypeError] up to Python 3.11). *)
Definition slice8 (v : value) : result value :=
  match v with
  | VStr s => Ok (VStr (utf8_take 8 s))
  | VList l => Ok (VList (take 8 l))
  | _ => Raise TypeError
  end.

(** [v.split("_")[0]]: only a [str] has the method; the list [split]
    returns is never empty. *)
Definition split_underscore_0 (v : value) : result value :=
  match v with
  | VStr s => match str_split "_" s with
              | x :: _ => Ok (VStr x)
              | [] => Raise IndexError
              end
  | _ => Raise AttributeError
  end.

(** The truth value of [v] in [if v:] and [if not v:]. *)
Definition truthy (v : value) : bool :=
  match v with
  | VNone => false
  | VBool b => b
  | VInt n => negb (n =? 0)
  | VFloat f => negb (PrimFloat.eqb f 0)
  | VStr s => negb (bool_decide (s = ""))
  | VList l => match l with [] => false | _ => true end
  | VDict d => match map_to_list d with [] => false | _ => true end
  end.

(** [v is not None] *)
Definition is_not_None (v : value) : bool :=
  match v with
  | VNone => false
  | _ => true
  end.

(** [str(v)] *)
Definition str (v : value) : result string :=
  match v with
  | VNone => Ok "None"
  | VBool b => Ok (if b then "True" else "False")
  | VInt n => Ok (str_int n)
  | VFloat f => Ok (float_repr f)
  | VStr s => Ok s
  | VList _ | VDict _ => Raise Unmodelled
  end.

(** [for x in v]: the elements of a list, the keys of a dict, the
    characters of a [str]. *)
Definition iter (v : value) : result (list value) :=
  match v with
  | VList l => Ok l
  | VDict d => Ok (VStr <$> (map_to_list d).*1)
  | VStr s => Ok (VStr <$> utf8_chars s)
  | _ => Raise TypeError
  end.

(** *** Hashable values

    What a [set] or a [dict] compares: [True == 1 == 1.0] are one key, a list
    or a dict is not hashable. *)
Inductive key :=
| KNone
| KInt (n : Z)
| KFloat (sf : spec_float)
| KStr (s : string).

#[global] Instance spec_float_eq_dec : EqDecision spec_float.
Proof. solve_decision. Defined.
#[global] Instance key_eq_dec : EqDecision key.
Proof. solve_decision. Defined.

Definition hash_key (v : value) : result key :=
  match v with
  | VNone => Ok KNone
  | VBool b => Ok (KInt (if b then 1 else 0))
  | VInt n => Ok (KInt n)
  | VFloat f => Ok (match float_integral f with
                    | Some n => KInt n
                    | None => KFloat (Prim2SF f)
                    end)
  | VStr s => Ok (KStr s)
  | VList _ | VDict _ => Raise TypeError
  end.

(** ** [datetime] *)

(** The regular expressions [_strptime] builds from a format are matched
    with backtracking; [re_match] lists the matches of a prefix of the input
    in the order the backtracking matcher tries them. *)
Inductive re :=
| Eps
| Chr (p : ascii → bool)
| Seq (r1 r2 : re)
| Alt (r1 r2 : re).

Fixpoint re_match (r : re) (s : string) : list (string * string) :=
  match r with
  | Eps => [("", s)]
  | Chr p => match s with
             | String a s' => if p a then [(String a "", s')] else []
             | EmptyString => []
             end
  | Seq r1 r2 =>
      flat_map (fun '(m1, rest1) =>
                  (fun '(m2, rest2) => (m1 +:+ m2, rest2)) <$> re_match r2 rest1)
               (re_match r1 s)
  | Alt r1 r2 => re_match r1 s ++ re_match r2 s
  end.

(** A format is a sequence of directives (a named group each) and literal
    characters. *)
Inductive fmt_item :=
| Group (r : re)
| Lit (a : ascii).

(** The pattern is compiled with [re.IGNORECASE]. *)
Definition lit_matches (a b : ascii) : bool :=
  bool_decide (lower_ascii a = lower_ascii b).

Fixpoint fmt_match (f : list fmt_item) (s : string) : list (list string * string) :=
  match f with
  | [] => [([], s)]
  | Group r :: f' =>
      flat_map (fun '(m, rest) =>
                  (fun '(gs, rest') => (m :: gs, rest')) <$> fmt_match f' rest)
               (re_match r s)
  | Lit a :: f' =>
      match s with
      | String b s' => if lit_matches a b then fmt_match f' s' else []
      | EmptyString => []
      end
  end.

Definition is_digit (a : ascii) : bool :=
  ((48 <=? nat_of_ascii a) && (nat_of_ascii a <=? 57))%nat.
Definition in_range (lo hi : ascii) (a : ascii) : bool :=
  ((nat_of_ascii lo <=? nat_of_ascii a) && (nat_of_ascii a <=? nat_of_ascii hi))%nat.
Definition is_char (c : ascii) (a : ascii) : bool := bool_decide (a = c).

Definition re_d : re := Chr is_digit.
Definition re_opt (r : re) : re := Alt r Eps.

(** [%Y]: [\d\d\d\d] *)
Definition re_Y : re := Seq re_d (Seq re_d (Seq re_d re_d)).
(** [%m]: [1[0-2]|0[1-9]|[1-9]] *)
Definition re_m : re :=
  Alt (Seq (Chr (is_char "1")) (Chr (in_range "0" "2")))
      (Alt (Seq (Chr (is_char "0")) (Chr (in_range "1" "9")))
           (Chr (in_range "1" "9"))).
(** [%d]: [3[0-1]|[1-2]\d|0[1-9]|[1-9]| [1-9]] *)
Definition re_day : re :=
  Alt (Seq (Chr (is_char "3")) (Chr (in_range "0" "1")))
      (Alt (Seq (Chr (in_range "1" "2")) re_d)
           (Alt (Seq (Chr (is_char "0")) (Chr (in_range "1" "9")))
                (Alt (Chr (in_range "1" "9"))
                     (Seq (Chr (is_char " ")) (Chr (in_range "1" "9")))))).
(** [%H]: [2[0-3]|[0-1]\d|\d] *)
Definition re_H : re :=
  Alt (Seq (Chr (is_char "2")) (Chr (in_range "0" "3")))
      (Alt (Seq (Chr (in_range "0" "1")) re_d) re_d).
(** [%M]: [[0-5]\d|\d] *)
Definition re_M : re := Alt (Seq (Chr (in_range "0" "5")) re_d) re_d.
(** [%S]: [6[0-1]|[0-5]\d|\d] *)
Definition re_S : re :=
  Alt (Seq (Chr (is_char "6")) (Chr (in_range "0" "1")))
      (Alt (Seq (Chr (in_range "0" "5")) re_d) re_d).
(** [%f]: [[0-9]{1,6}], greedy *)
Definition re_f : re :=
  Seq re_d (re_opt (Seq re_d (re_opt (Seq re_d (re_opt (Seq re_d
    (re_opt (Seq re_d (re_opt re_d))))))))).

(** ["%Y-%m-%dT%H:%M:%S.%fZ"] *)
Definition iso_format : list fmt_item :=
  [Group re_Y; Lit "-"; Group re_m; Lit "-"; Group re_day; Lit "T";
   Group re_H; Lit ":"; Group re_M; Lit ":"; Group re_S; Lit ".";
   Group re_f; Lit "Z"].

(** [int(s)] on a group: digits, possibly after a space. *)
Fixpoint int_digits (acc : Z) (s : string) : Z :=
  match s with
  | EmptyString => acc
  | String a s' =>
      if is_digit a then int_digits (10 * acc + Z.of_nat (nat_of_ascii a - 48)) s'
      else int_digits acc s'
  end.

Module datetime.

(** A naive [datetime] ([tzinfo] is [None], [fold] is 0). *)
Record t := mk {
  year : Z; month : Z; day : Z;
  hour : Z; minute : Z; second : Z; microsecond : Z
}.

Definition _DAYS_IN_MONTH : list Z :=
  [-1; 31; 28; 31; 30; 31; 30; 31; 31; 30; 31; 30; 31].
Definition _DAYS_BEFORE_MONTH : list Z :=
  [-1; 0; 31; 59; 90; 120; 151; 181; 212; 243; 273; 304; 334].

Definition _is_leap (y : Z) : bool :=
  (y mod 4 =? 0) && (negb (y mod 100 =? 0) || (y mod 400 =? 0)).

Definition _days_before_year (y : Z) : Z :=
  let y' := y - 1 in
  y' * 365 + y' / 4 - y' / 100 + y' / 400.

Definition _days_in_month (y m : Z) : Z :=
  if (m =? 2) && _is_leap y then 29
  else nth (Z.to_nat m) _DAYS_IN_MONTH 0.

Definition _days_before_month (y m : Z) : Z :=
  nth (Z.to_nat m) _DAYS_BEFORE_MONTH 0
  + (if (2 <? m) && _is_leap y then 1 else 0).

Definition _ymd2ord (y m d : Z) : Z :=
  _days_before_year y + _days_before_month y m + d.

(** The constructor checks its fields. *)
Definition new (y m d hh mm ss us : Z) : result t :=
  if negb ((1 <=? y) && (y <=? 9999)) then Raise ValueError
  else if negb ((1 <=? m) && (m <=? 12)) then Raise ValueError
  else if negb ((1 <=? d) && (d <=? _days_in_month y m)) then Raise ValueError
  else if negb ((0 <=? hh) && (hh <=? 23)) then Raise ValueError
  else if negb ((0 <=? mm) && (mm <=? 59)) then Raise ValueError
  else if negb ((0 <=? ss) && (ss <=? 59)) then Raise ValueError
  else if negb ((0 <=? us) && (us <=? 999999)) then Raise ValueError
  else Ok (mk y m d hh mm ss us).

(** [datetime.strptime(v, "%Y-%m-%dT%H:%M:%S.%fZ")] *)
Definition strptime (v : value) : result t :=
  match v with
  | VStr s =>
      if negb (all_ascii s) then Raise Unmodelled
      else match fmt_match iso_format s with
           | ([gY; gm; gd; gH; gM; gS; gf], rest) :: _ =>
               if negb (bool_decide (rest = "")) then Raise ValueError
               else
                 let frac := gf +:+ str_repeat (6 - String.length gf) "0" in
                 new (int_digits 0 gY) (int_digits 0 gm) (int_digits 0 gd)
                     (int_digits 0 gH) (int_digits 0 gM) (int_digits 0 gS)
                     (int_digits 0 frac)
           | _ => Raise ValueError
           end
  | _ => Raise TypeError
  end.

(** [(self - datetime(1970, 1, 1)) // timedelta(0, 1)] *)
Definition seconds_since_epoch (self : t) : Z :=
  (_ymd2ord (year self) (month self) (day self) - _ymd2ord 1970 1 1) * 86400
  + hour self * 3600 + minute self * 60 + second self.

End datetime.

(** The time zone of the process: [utcoffset u] is how many seconds local
    time is ahead of UTC at the instant [u] (in seconds since the epoch), so
    that [time.localtime(u)] is the civil time [u + utcoffset u]. *)
Class LocalTime := { utcoffset : Z → Z }.

(** [self._mktime()] of a naive datetime with [fold = 0]: the instant whose
    local time is [self]. *)
Definition _mktime `{LocalTime} (self : datetime.t) : Z :=
  let max_fold_seconds := 24 * 3600 in
  let t := datetime.seconds_since_epoch self in
  let local u := u + utcoffset u in
  let a := local t - t in
  let u1 := t - a in
  let t1 := local u1 in
  let finish b :=
    let u2 := t - b in
    let t2 := local u2 in
    if t2 =? t then u2
    else if t1 =? t then u1
    else Z.max u1 u2 in
  if t1 =? t then
    let u2 := u1 + (- max_fold_seconds) in
    let b := local u2 - u2 in
    if a =? b then u1 else finish b
  else
    finish (t1 - u1).

(** [self.timestamp()] of a naive datetime. *)
Definition timestamp `{LocalTime} (self : datetime.t) : float :=
  (float_of_Z (_mktime self)
   + float_of_Z (datetime.microsecond self) / 1e6)%float.

Definition _str_to_timestamp `{LocalTime} (v : value) : result float :=
  d ← datetime.strptime v;
  let ts := timestamp d in
  (* Grafana expects Unix timestamps in milliseconds, not seconds. *)
  Ok (ts * float_of_Z 1000)%float.

(** [str(v).lower()] *)
Definition _bool_to_str (v : value) : result string :=
  s ← str v; str_lower s.

(** ** [prometheus_client] *)

Inductive mtype := info | gauge | counter.

(** A [Sample]: its name, its labels (a dict, in insertion order) and its
    value. *)
Record Sample := mkSample {
  s_name : string;
  s_labels : list (string * value);
  s_value : value
}.

(** The metric classes of the program. *)
Inductive class :=
| CNodeInfoMetric | CNodePayoutInfoMetric | CNodeVersionMetric
| CNodeWeightMetric | CNodeBiasMetric | CNodePenaltyMetric
| CNodeWeightedTTFBMetric | CNodeWeightedHitsRatioMetric
| CNodeWeightedErrorsRatioMetric | CNodeWeightedDupCacheMissRatioMetric
| CNodeLastRegistrationMetric | CNodeCreationMetric
| CNodeDiskTotalMetric | CNodeDiskUsedMetric | CNodeDiskAvailableMetric
| CNodeMemoryTotalMetric | CNodeMemoryFreeMetric | CNodeMemoryAvailableMetric
| CNodeCPUNumberMetric | CNodeCPULoadAvgMetric
| CNodeSentBytesTotalMetric
| CNodeSpeedtestUploadBandwidthMetric | CNodeSpeedtestDownloadBandwidthMetric
| CNodeSpeedtestPingLatencyMetric
| CNodeReceivedBytesTotalMetric
| CNodeEstimatedEarningsMetric | CNodeUptimeCompletionMetric
| CNodeRetrievalsMetric | CNodeBandwidthServedMetric
| CNodeResponseDurationMetric | CNodeRequestsMetric
| CNodeHealthCheckFailuresMetric
| CNodeRequirementsMinCPUCoresMetric | CNodeRequirementsMinMemoryMetric
| CNodeRequirementsMinUploadSpeedMetric
| CNodeRequirementsMinDownloadSpeedMetric
| CNodeRequirementsMinDiskMetric | CNodeRequirementsLastVersionMetric
| CNodeRequirementsMinVersionMetric.

(** A metric family object: what [Metric.__init__] sets, the class of the
    object, and the samples added so far. *)
Record Metric := mkMetric {
  cls : class;
  name : string;
  documentation : string;
  typ : mtype;
  labelnames : list string;
  samples : list Sample
}.

Definition with_samples (m : Metric) (l : list Sample) : Metric :=
  mkMetric (cls m) (name m) (documentation m) (typ m) (labelnames m) l.

(** *** The effect of a method on [self.samples]

    An [add] method only ever appends to [self.samples]; [Emit A] is the
    list of samples appended, in order, with the value returned or the
    exception raised. *)
Definition Emit (A : Type) : Type := (list Sample * result A)%type.

#[global] Instance emit_ret : MRet Emit := fun A a => ([], Ok a).
#[global] Instance emit_bind : MBind Emit := fun A B f m =>
  match m with
  | (l, Ok a) => let '(l', r) := f a in (l ++ l', r)
  | (l, Raise e) => (l, Raise e)
  end.

(** An expression without effect on the samples. *)
Definition lift {A} (r : result A) : Emit A := ([], r).

Definition emitted {A} (m : Emit A) : list Sample := m.1.
Definition outcome {A} (m : Emit A) : result A := m.2.

(** [try: body except KeyError: handler] *)
Definition try_except_KeyError {A} (body handler : Emit A) : Emit A :=
  match body with
  | (l, Raise KeyError) => let '(l', r) := handler in (l ++ l', r)
  | _ => body
  end.

(** *** Dicts in insertion order *)

(** [d[k] = v] *)
Fixpoint dict_set (k : string) (v : value) (d : list (string * value))
  : list (string * value) :=
  match d with
  | [] => [(k, v)]
  | (k', v') :: d' =>
      if decide (k = k') then (k, v) :: d' else (k', v') :: dict_set k v d'
  end.

(** [d.update(items)], also [dict(d, **items)] *)
Definition dict_update (d items : list (string * value)) : list (string * value) :=
  foldl (fun acc '(k, v) => dict_set k v acc) d items.

(** [dict(zip(labelnames, labels))] *)
Definition dict_zip (labelnames : list string) (labels : list value)
  : list (string * value) :=
  dict_update [] (zip labelnames labels).

Module GaugeMetricFamily.
Definition __init__ (c : class) (name documentation : string)
    (labels : list string) : Metric :=
  mkMetric c name documentation gauge labels [].

Definition add_metric (self : Metric) (labels : list value) (v : value)
  : Emit unit :=
  ([mkSample (name self) (dict_zip (labelnames self) labels) v], Ok tt).
End GaugeMetricFamily.

Module CounterMetricFamily.
(** Prometheus counters end in [_total]; the family name does not. *)
Definition __init__ (c : class) (name documentation : string)
    (labels : list string) : Metric :=
  let name :=
    if str_endswith name "_total"
    then String.substring 0 (String.length name - 6) name
    else name in
  mkMetric c name documentation counter labels [].

Definition add_metric (self : Metric) (labels : list value) (v : value)
  : Emit unit :=
  ([mkSample (name self +:+ "_total") (dict_zip (labelnames self) labels) v],
   Ok tt).
End CounterMetricFamily.

Module InfoMetricFamily.
Definition __init__ (c : class) (name documentation : string) : Metric :=
  mkMetric c name documentation info [] [].

(** The value of an info metric is a dict of labels; the sample's value
    is 1. *)
Definition add_metric (self : Metric) (labels : list value)
    (v : list (string * value)) : Emit unit :=
  ([mkSample (name self +:+ "_info")
             (dict_update (dict_zip (labelnames self) labels) v)
             (VInt 1)],
   Ok tt).
End InfoMetricFamily.

(** [v[k1][k2]...] *)
Definition getpath (v : value) (ks : list string) : result value :=
  foldl (fun r k => x ← r; getitem x k) (Ok v) ks.

(** ** The metric classes of [main.py] *)

Module NodeInfoMetric.
Definition __init__ : Metric :=
  InfoMetricFamily.__init__ CNodeInfoMetric
    "saturn_node" "Information about the node.".

Definition _id_short (v : value) : result value := slice8 v.

Definition add (self : Metric) (node : value) : Emit unit :=
  values ← lift (
    id ← getitem node "id";
    id_short ← (i ← getitem node "id"; _id_short i);
    state ← getitem node "state";
    core ← (c ← getitem node "core"; _bool_to_str c);
    ip_address ← getitem node "ipAddress";
    sunrise ← (c ← getitem node "sunrise"; _bool_to_str c);
    cassini ← (c ← getitem node "cassini"; _bool_to_str c);
    geoloc_region ← getpath node ["geoloc"; "region"];
    geoloc_city ← getpath node ["geoloc"; "city"];
    geoloc_country ← getpath node ["geoloc"; "country"];
    geoloc_country_code ← getpath node ["geoloc"; "countryCode"];
    Ok [("id", id);
        ("id_short", id_short);
        ("state", state);
        ("core", VStr core);
        ("ip_address", ip_address);
        ("sunrise", VStr sunrise);
        ("cassini", VStr cassini);
        ("geoloc_region", geoloc_region);
        ("geoloc_city", geoloc_city);
        ("geoloc_country", geoloc_country);
        ("geoloc_country_code", geoloc_country_code)]);
  speedtest ← lift (get node "speedtest");
  values ← (if truthy speedtest then
              lift (
                isp ← getpath node ["speedtest"; "isp"];
                location ← getpath node ["speedtest"; "server"; "location"];
                country ← getpath node ["speedtest"; "server"; "country"];
                Ok (dict_update values
                      [("sppedtest_isp", isp);
                       ("sppedtest_server_location", location);
                       ("sppedtest_server_country", country)]))
            else mret values);
  InfoMetricFamily.add_metric self [] values.

Definition add_inactive (self : Metric) (node_id : value) : Emit unit :=
  values ← lift (
    id_short ← _id_short node_id;
    Ok [("id", node_id);
        ("id_short", id_short);
        ("state", VStr "inactive")]);
  InfoMetricFamily.add_metric self [] values.
End NodeInfoMetric.

Module NodePayoutInfoMetric.
Definition __init__ : Metric :=
  InfoMetricFamily.__init__ CNodePayoutInfoMetric
    "saturn_node_payout" "Payout status of the node.".

Definition add (self : Metric) (node : value) : Emit unit :=
  values ← lift (
    id ← getitem node "nodeId";
    status ← getitem node "payoutStatus";
    Ok [("id", id); ("status", status)]);
  InfoMetricFamily.add_metric self [] values.
End NodePayoutInfoMetric.

Module NodeVersionMetric.
Definition __init__ : Metric :=
  GaugeMetricFamily.__init__ CNodeVersionMetric
    "saturn_node_version"
    "The version of the software the node is running."
    ["id"].

Definition add (self : Metric) (node : value) : Emit unit :=
  version ← lift (v ← getitem node "version"; split_underscore_0 v);
  id ← lift (getitem node "id");
  GaugeMetricFamily.add_metric self [id] version.
End NodeVersionMetric.

Module NodeWeightMetric.
Definition __init__ : Metric :=
  GaugeMetricFamily.__init__ CNodeWeightMetric
    "saturn_node_weight" "Weight of the node in the network." ["id"].

Definition add (self : Metric) (node : value) : Emit unit :=
  id ← lift (getitem node "id");
  bias ← lift (getitem node "bias");
  GaugeMetricFamily.add_metric self [id] bias.
End NodeWeightMetric.

(** [for k, v in table.items(): x = node["biases"].get(k); if x is not
    None: self.add_metric([node["id"], v], x)], the loop of the bias and of
    the penalty family. *)
Fixpoint add_kinds (self : Metric) (node : value)
    (table : list (string * string)) : Emit unit :=
  match table with
  | [] => mret tt
  | (k, v) :: table' =>
      x ← lift (b ← getitem node "biases"; get b k);
      _ ← (if is_not_None x then
             id ← lift (getitem node "id");
             GaugeMetricFamily.add_metric self [id; VStr v] x
           else mret tt);
      add_kinds self node table'
  end.

Module NodeBiasMetric.
Definition _BIASES : list (string * string) :=
  [("ageBias", "age");
   ("ttfbBias", "ttfb");
   ("randomBias", "random");
   ("uptimeBias", "uptime");
   ("speedtestBias", "speedtest")].

Definition __init__ : Metric :=
  GaugeMetricFamily.__init__ CNodeBiasMetric
    "saturn_node_bias"
    "Various bias values that affect the weight of the node in the network."
    ["id"; "kind"].

Definition add (self : Metric) (node : value) : Emit unit :=
  add_kinds self node _BIASES.
End NodeBiasMetric.

Module NodePenaltyMetric.
Definition _PENALTIES : list (string * string) :=
  [("speedPenalty", "speed");
   ("cpuLoadPenalty", "cpu_load");
   ("errorRatioPenalty", "error_ratio");
   ("oldVersionPenalty", "old_version");
   ("cacheHitRatioPenalty", "cache_hit_ratio");
   ("dupCacheMissRatioPenalty", "dup_cache_miss_ratio");
   ("healthCheckFailuresPenalty", "health_check_failures")].

Definition __init__ : Metric :=
  GaugeMetricFamily.__init__ CNodePenaltyMetric
    "saturn_node_penalty"
    "Various penalty values that affect the weight of the node in the network."
    ["id"; "kind"].

Definition add (self : Metric) (node : value) : Emit unit :=
  add_kinds self node _PENALTIES.
End NodePenaltyMetric.

Module NodeWeightedTTFBMetric.
Definition __init__ : Metric :=
  GaugeMetricFamily.__init__ CNodeWeightedTTFBMetric
    "saturn_node_weighted_ttfb_milliseconds"
    "Weighted time to first byte."
    ["id"].

Definition add (self : Metric) (node : value) : Emit unit :=
  v ← lift (b ← getitem node "biases"; get b "weightedTtfb");
  if is_not_None v then
    id ← lift (getitem node "id");
    GaugeMetricFamily.add_metric self [id] v
  else mret tt.
End NodeWeightedTTFBMetric.

Module NodeWeightedHitsRatioMetric.
Definition __init__ : Metric :=
  GaugeMetricFamily.__init__ CNodeWeightedHitsRatioMetric
    "saturn_node_weighted_hits_ratio"
    "Weighted cache hits ratio of the node."
    ["id"].

Definition add (self : Metric) (node : value) : Emit unit :=
  v ← lift (b ← getitem node "biases"; get b "weightedHitsRatio");
  if is_not_None v then
    id ← lift (getitem node "id");
    GaugeMetricFamily.add_metric self [id] v
  else mret tt.
End NodeWeightedHitsRatioMetric.

Module NodeWeightedErrorsRatioMetric.
Definition __init__ : Metric :=
  GaugeMetricFamily.__init__ CNodeWeightedErrorsRatioMetric
    "saturn_node_weighted_errors_ratio"
    "Weighted error ratio of the node."
    ["id"].

Definition add (self : Metric) (node : value) : Emit unit :=
  v ← lift (b ← getitem node "biases"; get b "weightedErrorsRatio");
  if is_not_None v then
    id ← lift (getitem node "id");
    GaugeMetricFamily.add_metric self [id] v
  else mret tt.
End NodeWeightedErrorsRatioMetric.

Module NodeWeightedDupCacheMissRatioMetric.
Definition __init__ : Metric :=
  GaugeMetricFamily.__init__ CNodeWeightedDupCacheMissRatioMetric
    "saturn_node_weighted_dup_cache_miss_ratio"
    "Weighted duplicate cache miss ratio of the node."
    ["id"].

Definition add (self : Metric) (node : value) : Emit unit :=
  v ← lift (b ← getitem node "biases"; get b "weightedDupCacheMissRatio");
  if is_not_None v then
    id ← lift (getitem node "id");
    GaugeMetricFamily.add_metric self [id] v
  else mret tt.
End NodeWeightedDupCacheMissRatioMetric.

Module NodeLastRegistrationMetric.
Definition __init__ : Metric :=
  GaugeMetricFamily.__init__ CNodeLastRegistrationMetric
    "saturn_node_last_registration_timestamp"
    "When the node was last registered."
    ["id"].

Definition add `{LocalTime} (self : Metric) (node : value) : Emit unit :=
  last_registration_ts ← lift (v ← getitem node "lastRegistration"; _str_to_timestamp v);
  id ← lift (getitem node "id");
  GaugeMetricFamily.add_metric self [id] (VFloat last_registration_ts).
End NodeLastRegistrationMetric.

Module NodeCreationMetric.
Definition __init__ : Metric :=
  GaugeMetricFamily.__init__ CNodeCreationMetric
    "saturn_node_creation_timestamp"
    "When the node was created."
    ["id"].

Definition add `{LocalTime} (self : Metric) (node : value) : Emit unit :=
  creation_ts ← lift (v ← getitem node "createdAt"; _str_to_timestamp v);
  id ← lift (getitem node "id");
  GaugeMetricFamily.add_metric self [id] (VFloat creation_ts).
End NodeCreationMetric.

Module NodeDiskTotalMetric.
Definition __init__ : Metric :=
  GaugeMetricFamily.__init__ CNodeDiskTotalMetric
    "saturn_node_disk_total_megabytes"
    "Total amount of storage on the node."
    ["id"].

Definition add (self : Metric) (node : value) : Emit unit :=
  id ← lift (getitem node "id");
  v ← lift (getpath node ["diskStats"; "totalDiskMB"]);
  GaugeMetricFamily.add_metric self [id] v.
End NodeDiskTotalMetric.

Module NodeDiskUsedMetric.
Definition __init__ : Metric :=
  GaugeMetricFamily.__init__ CNodeDiskUsedMetric
    "saturn_node_disk_used_megabytes"
    "The amount of storage used on the node."
    ["id"].

Definition add (self : Metric) (node : value) : Emit unit :=
  id ← lift (getitem node "id");
  v ← lift (getpath node ["diskStats"; "usedDiskMB"]);
  GaugeMetricFamily.add_metric self [id] v.
End NodeDiskUsedMetric.

Module NodeDiskAvailableMetric.
Definition __init__ : Metric :=
  GaugeMetricFamily.__init__ CNodeDiskAvailableMetric
    "saturn_node_disk_available_megabytes"
    "The amount of storage available on the node."
    ["id"].

Definition add (self : Metric) (node : value) : Emit unit :=
  id ← lift (getitem node "id");
  v ← lift (getpath node ["diskStats"; "availableDiskMB"]);
  GaugeMetricFamily.add_metric self [id] v.
End NodeDiskAvailableMetric.

Module NodeMemoryTotalMetric.
Definition __init__ : Metric :=
  GaugeMetricFamily.__init__ CNodeMemoryTotalMetric
    "saturn_node_memory_total_kilobytes"
    "Total amount of RAM on the node."
    ["id"].

Definition add (self : Metric) (node : value) : Emit unit :=
  id ← lift (getitem node "id");
  v ← lift (getpath node ["memoryStats"; "totalMemoryKB"]);
  GaugeMetricFamily.add_metric self [id] v.
End NodeMemoryTotalMetric.

Module NodeMemoryFreeMetric.
Definition __init__ : Metric :=
  GaugeMetricFamily.__init__ CNodeMemoryFreeMetric
    "saturn_node_memory_free_kilobytes"
    "Free amount of RAM on the node."
    ["id"].

Definition add (self : Metric) (node : value) : Emit unit :=
  id ← lift (getitem node "id");
  v ← lift (getpath node ["memoryStats"; "freeMemoryKB"]);
  GaugeMetricFamily.add_metric self [id] v.
End NodeMemoryFreeMetric.

Module NodeMemoryAvailableMetric.
Definition __init__ : Metric :=
  GaugeMetricFamily.__init__ CNodeMemoryAvailableMetric
    "saturn_node_memory_available_kilobytes"
    "The amount of RAM available on the node."
    ["id"].

Definition add (self : Metric) (node : value) : Emit unit :=
  id ← lift (getitem node "id");
  v ← lift (getpath node ["memoryStats"; "availableMemoryKB"]);
  GaugeMetricFamily.add_metric self [id] v.
End NodeMemoryAvailableMetric.

Module NodeCPUNumberMetric.
Definition __init__ : Metric :=
  GaugeMetricFamily.__init__ CNodeCPUNumberMetric
    "saturn_node_cpu_number"
    "The number of CPU cores on the node."
    ["id"].

Definition add (self : Metric) (node : value) : Emit unit :=
  id ← lift (getitem node "id");
  v ← lift (getpath node ["cpuStats"; "numCPUs"]);
  GaugeMetricFamily.add_metric self [id] v.
End NodeCPUNumberMetric.

Module NodeCPULoadAvgMetric.
Definition __init__ : Metric :=
  GaugeMetricFamily.__init__ CNodeCPULoadAvgMetric
    "saturn_node_cpu_load_avg"
    "CPU load average of the node."
    ["id"].

Definition add (self : Metric) (node : value) : Emit unit :=
  id ← lift (getitem node "id");
  v ← lift (l ← getpath node ["cpuStats"; "loadAvgs"]; getitem0 l);
  GaugeMetricFamily.add_metric self [id] v.
End NodeCPULoadAvgMetric.

Module NodeSentBytesTotalMetric.
Definition __init__ : Metric :=
  CounterMetricFamily.__init__ CNodeSentBytesTotalMetric
    "saturn_node_sent_bytes"
    "Total amount of traffic sent by the node."
    ["id"].

Definition add (self : Metric) (node : value) : Emit unit :=
  id ← lift (getitem node "id");
  v ← lift (getpath node ["nicStats"; "bytesSent"]);
  CounterMetricFamily.add_metric self [id] v.
End NodeSentBytesTotalMetric.

Module NodeSpeedtestUploadBandwidthMetric.
Definition __init__ : Metric :=
  GaugeMetricFamily.__init__ CNodeSpeedtestUploadBandwidthMetric
    "saturn_node_speedtest_upload_bandwidth"
    "Node upload bandwidth as measured by Speedtest."
    ["id"].

Definition add (self : Metric) (node : value) : Emit unit :=
  speedtest ← lift (get node "speedtest");
  if truthy speedtest then
    id ← lift (getitem node "id");
    v ← lift (getpath speedtest ["upload"; "bandwidth"]);
    GaugeMetricFamily.add_metric self [id] v
  else mret tt.
End NodeSpeedtestUploadBandwidthMetric.

Module NodeSpeedtestDownloadBandwidthMetric.
Definition __init__ : Metric :=
  GaugeMetricFamily.__init__ CNodeSpeedtestDownloadBandwidthMetric
    "saturn_node_speedtest_download_bandwidth"
    "Node download bandwidth as measured by Speedtest."
    ["id"].

Definition add (self : Metric) (node : value) : Emit unit :=
  speedtest ← lift (get node "speedtest");
  if truthy speedtest then
    id ← lift (getitem node "id");
    v ← lift (getpath speedtest ["download"; "bandwidth"]);
    GaugeMetricFamily.add_metric self [id] v
  else mret tt.
End NodeSpeedtestDownloadBandwidthMetric.

Module NodeSpeedtestPingLatencyMetric.
Definition __init__ : Metric :=
  GaugeMetricFamily.__init__ CNodeSpeedtestPingLatencyMetric
    "saturn_node_speedtest_ping_latency_milliseconds"
    "Node ping latency as measured by Speedtest."
    ["id"].

Definition add (self : Metric) (node : value) : Emit unit :=
  speedtest ← lift (get node "speedtest");
  if truthy speedtest then
    id ← lift (getitem node "id");
    v ← lift (getpath speedtest ["ping"; "latency"]);
    GaugeMetricFamily.add_metric self [id] v
  else mret tt.
End NodeSpeedtestPingLatencyMetric.

Module NodeReceivedBytesTotalMetric.
Definition __init__ : Metric :=
  CounterMetricFamily.__init__ CNodeReceivedBytesTotalMetric
    "saturn_node_received_bytes"
    "Total amount of traffic received by the node."
    ["id"].

Definition add (self : Metric) (node : value) : Emit unit :=
  id ← lift (getitem node "id");
  v ← lift (getpath node ["nicStats"; "bytesReceived"]);
  CounterMetricFamily.add_metric self [id] v.
End NodeReceivedBytesTotalMetric.

Module NodeEstimatedEarningsMetric.
Definition __init__ : Metric :=
  CounterMetricFamily.__init__ CNodeEstimatedEarningsMetric
    "saturn_node_estimated_earnings_fil"
    "Estimated earnings of the node."
    ["id"].

Definition add (self : Metric) (node : value) : Emit unit :=
  fil_amount ← lift (get node "filAmount");
  if is_not_None fil_amount then
    id ← lift (getitem node "nodeId");
    CounterMetricFamily.add_metric self [id] fil_amount
  else mret tt.
End NodeEstimatedEarningsMetric.

Module NodeUptimeCompletionMetric.
Definition __init__ : Metric :=
  GaugeMetricFamily.__init__ CNodeUptimeCompletionMetric
    "saturn_node_uptime_completion_ratio"
    "Node uptime requirement completion ratio."
    ["id"].

Definition add (self : Metric) (node : value) : Emit unit :=
  uptime_completion ← lift (get node "uptimeCompletion");
  if is_not_None uptime_completion then
    id ← lift (getitem node "nodeId");
    GaugeMetricFamily.add_metric self [id] uptime_completion
  else mret tt.
End NodeUptimeCompletionMetric.

Module NodeRetrievalsMetric.
Definition __init__ : Metric :=
  CounterMetricFamily.__init__ CNodeRetrievalsMetric
    "saturn_node_retrievals"
    "The number of retrievals served by the node."
    ["id"].

Definition add (self : Metric) (node : value) : Emit unit :=
  num_requests ← lift (get node "numRequests");
  if is_not_None num_requests then
    id ← lift (getitem node "nodeId");
    CounterMetricFamily.add_metric self [id] num_requests
  else mret tt.
End NodeRetrievalsMetric.

Module NodeBandwidthServedMetric.
Definition __init__ : Metric :=
  CounterMetricFamily.__init__ CNodeBandwidthServedMetric
    "saturn_node_bandwidth_served_bytes"
    "The amount of traffic served by the node."
    ["id"].

Definition add (self : Metric) (node : value) : Emit unit :=
  num_bytes ← lift (get node "numBytes");
  if is_not_None num_bytes then
    id ← lift (getitem node "nodeId");
    CounterMetricFamily.add_metric self [id] num_bytes
  else mret tt.
End NodeBandwidthServedMetric.

Module NodeResponseDurationMetric.
Definition __init__ : Metric :=
  GaugeMetricFamily.__init__ CNodeResponseDurationMetric
    "saturn_node_response_duration_milliseconds"
    "The time it takes by average for the node to respond to a request."
    ["id"; "quantile"].

Definition quantiles : list float := [0.01; 0.05; 0.5; 0.95; 0.99]%float.

(** The [for] loop; a [return] in the handler ends it. *)
Fixpoint add_loop (self : Metric) (node ttfb : value) (qs : list float)
  : Emit unit :=
  match qs with
  | [] => mret tt
  | q :: qs' =>
      p ← lift (int_of_float (q * float_of_Z 100)%float);
      continue ← try_except_KeyError
        (id ← lift (getitem node "id");
         v ← lift (getitem ttfb ("p" +:+ str_int p +:+ "_1h"));
         _ ← GaugeMetricFamily.add_metric self [id; VStr (float_repr q)] v;
         mret true)
        (mret false);
      if continue : bool then add_loop self node ttfb qs' else mret tt
  end.

Definition add (self : Metric) (node : value) : Emit unit :=
  ttfb ← lift (get node "ttfbStats");
  if negb (truthy ttfb) then mret tt
  else add_loop self node ttfb quantiles.
End NodeResponseDurationMetric.

Module NodeRequestsMetric.
Definition __init__ : Metric :=
  GaugeMetricFamily.__init__ CNodeRequestsMetric
    "saturn_node_requests"
    "The number of requests served by the node."
    ["id"; "result"].

Definition add (self : Metric) (node : value) : Emit unit :=
  ttfb ← lift (get node "ttfbStats");
  if negb (truthy ttfb) then mret tt
  else
    counts ← try_except_KeyError
      (lift (
         ok ← getitem ttfb "reqs_served_1h";
         hits ← getitem ttfb "hits_1h";
         errors ← getitem ttfb "errors_1h";
         slow_hits ← getitem ttfb "slow_hits_1h";
         Ok (Some (ok, hits, errors, slow_hits))))
      (mret None);
    match counts with
    | None => mret tt
    | Some (ok, hits, errors, slow_hits) =>
        id ← lift (getitem node "id");
        _ ← GaugeMetricFamily.add_metric self [id; VStr "ok"] ok;
        id ← lift (getitem node "id");
        _ ← GaugeMetricFamily.add_metric self [id; VStr "ok_hit"] hits;
        id ← lift (getitem node "id");
        _ ← GaugeMetricFamily.add_metric self [id; VStr "error"] errors;
        id ← lift (getitem node "id");
        GaugeMetricFamily.add_metric self [id; VStr "ok_slow_hit"] slow_hits
    end.
End NodeRequestsMetric.

(** A [defaultdict(int)], in insertion order.  An entry keeps the key
    object first inserted (it is what [items()] yields) next to what the
    dict compares. *)
Definition counts : Type := list (key * (value * Z)).

(** [errors[k] += 1], [k] hashed already. *)
Fixpoint counts_incr (h : key) (k : value) (errors : counts) : counts :=
  match errors with
  | [] => [(h, (k, 0 + 1))]
  | (h', (k', n)) :: errors' =>
      if decide (h = h') then (h', (k', n + 1)) :: errors'
      else (h', (k', n)) :: counts_incr h k errors'
  end.

Module NodeHealthCheckFailuresMetric.
Definition __init__ : Metric :=
  GaugeMetricFamily.__init__ CNodeHealthCheckFailuresMetric
    "saturn_node_health_check_failures"
    "The number of node health check failures."
    ["id"; "error"].

(** [for f in failures: errors[f["error"]] += 1] *)
Fixpoint count_errors (failures : list value) (errors : counts)
  : result counts :=
  match failures with
  | [] => Ok errors
  | f :: failures' =>
      k ← getitem f "error";
      h ← hash_key k;
      count_errors failures' (counts_incr h k errors)
  end.

(** [for k, v in errors.items(): self.add_metric([node["id"], k], v)] *)
Fixpoint add_errors (self : Metric) (node : value) (errors : counts)
  : Emit unit :=
  match errors with
  | [] => mret tt
  | (_, (k, v)) :: errors' =>
      id ← lift (getitem node "id");
      _ ← GaugeMetricFamily.add_metric self [id; k] (VInt v);
      add_errors self node errors'
  end.

Definition add (self : Metric) (node : value) : Emit unit :=
  failures ← lift (get node "HealthCheckFailures");
  if negb (truthy failures) then
    id ← lift (getitem node "id");
    GaugeMetricFamily.add_metric self [id] (VInt 0)
  else
    errors ← lift (fs ← iter failures; count_errors fs []);
    add_errors self node errors.
End NodeHealthCheckFailuresMetric.

Module NodeRequirementsMinCPUCoresMetric.
Definition __init__ : Metric :=
  GaugeMetricFamily.__init__ CNodeRequirementsMinCPUCoresMetric
    "saturn_node_requirements_min_cpu_cores"
    "The minimum number of CPU cores required for a node."
    [].

Definition add (self : Metric) (requirements : value) : Emit unit :=
  v ← lift (getitem requirements "minCPUCores");
  GaugeMetricFamily.add_metric self [] v.
End NodeRequirementsMinCPUCoresMetric.

Module NodeRequirementsMinMemoryMetric.
Definition __init__ : Metric :=
  GaugeMetricFamily.__init__ CNodeRequirementsMinMemoryMetric
    "saturn_node_requirements_min_memory_gigabytes"
    "The minimum amount of RAM required for a node."
    [].

Definition add (self : Metric) (requirements : value) : Emit unit :=
  v ← lift (getitem requirements "minMemoryGB");
  GaugeMetricFamily.add_metric self [] v.
End NodeRequirementsMinMemoryMetric.

Module NodeRequirementsMinUploadSpeedMetric.
Definition __init__ : Metric :=
  GaugeMetricFamily.__init__ CNodeRequirementsMinUploadSpeedMetric
    "saturn_node_requirements_min_upload_speed_mbps"
    "The minimum upload speed required for a node."
    [].

Definition add (self : Metric) (requirements : value) : Emit unit :=
  v ← lift (getitem requirements "minUploadSpeedMbps");
  GaugeMetricFamily.add_metric self [] v.
End NodeRequirementsMinUploadSpeedMetric.

Module NodeRequirementsMinDownloadSpeedMetric.
Definition __init__ : Metric :=
  GaugeMetricFamily.__init__ CNodeRequirementsMinDownloadSpeedMetric
    "saturn_node_requirements_min_download_speed_mbps"
    "The minimum download speed required for a node."
    [].

Definition add (self : Metric) (requirements : value) : Emit unit :=
  v ← lift (getitem requirements "minDownloadSpeedMbps");
  GaugeMetricFamily.add_metric self [] v.
End NodeRequirementsMinDownloadSpeedMetric.

Module NodeRequirementsMinDiskMetric.
Definition __init__ : Metric :=
  GaugeMetricFamily.__init__ CNodeRequirementsMinDiskMetric
    "saturn_node_requirements_min_disk_gigabytes"
    "The minimum amount of storage required for a node."
    [].

Definition add (self : Metric) (requirements : value) : Emit unit :=
  v ← lift (getitem requirements "minDiskGB");
  GaugeMetricFamily.add_metric self [] v.
End NodeRequirementsMinDiskMetric.

Module NodeRequirementsLastVersionMetric.
Definition __init__ : Metric :=
  GaugeMetricFamily.__init__ CNodeRequirementsLastVersionMetric
    "saturn_node_requirements_last_version"
    "The latest version of the node's software."
    [].

Definition add (self : Metric) (requirements : value) : Emit unit :=
  v ← lift (getitem requirements "lastVersion");
  GaugeMetricFamily.add_metric self [] v.
End NodeRequirementsLastVersionMetric.

Module NodeRequirementsMinVersionMetric.
Definition __init__ : Metric :=
  GaugeMetricFamily.__init__ CNodeRequirementsMinVersionMetric
    "saturn_node_requirements_min_version"
    "The minimum required version of the node's software."
    [].

Definition add (self : Metric) (requirements : value) : Emit unit :=
  v ← lift (getitem requirements "minVersion");
  GaugeMetricFamily.add_metric self [] v.
End NodeRequirementsMinVersionMetric.

(** [m.add(x)]: the method of the class of the object. *)
Definition add `{LocalTime} (self : Metric) (x : value) : Emit unit :=
  match cls self with
  | CNodeInfoMetric => NodeInfoMetric.add self x
  | CNodePayoutInfoMetric => NodePayoutInfoMetric.add self x
  | CNodeVersionMetric => NodeVersionMetric.add self x
  | CNodeWeightMetric => NodeWeightMetric.add self x
  | CNodeBiasMetric => NodeBiasMetric.add self x
  | CNodePenaltyMetric => NodePenaltyMetric.add self x
  | CNodeWeightedTTFBMetric => NodeWeightedTTFBMetric.add self x
  | CNodeWeightedHitsRatioMetric => NodeWeightedHitsRatioMetric.add self x
  | CNodeWeightedErrorsRatioMetric => NodeWeightedErrorsRatioMetric.add self x
  | CNodeWeightedDupCacheMissRatioMetric =>
      NodeWeightedDupCacheMissRatioMetric.add self x
  | CNodeLastRegistrationMetric => NodeLastRegistrationMetric.add self x
  | CNodeCreationMetric => NodeCreationMetric.add self x
  | CNodeDiskTotalMetric => NodeDiskTotalMetric.add self x
  | CNodeDiskUsedMetric => NodeDiskUsedMetric.add self x
  | CNodeDiskAvailableMetric => NodeDiskAvailableMetric.add self x
  | CNodeMemoryTotalMetric => NodeMemoryTotalMetric.add self x
  | CNodeMemoryFreeMetric => NodeMemoryFreeMetric.add self x
  | CNodeMemoryAvailableMetric => NodeMemoryAvailableMetric.add self x
  | CNodeCPUNumberMetric => NodeCPUNumberMetric.add self x
  | CNodeCPULoadAvgMetric => NodeCPULoadAvgMetric.add self x
  | CNodeSentBytesTotalMetric => NodeSentBytesTotalMetric.add self x
  | CNodeSpeedtestUploadBandwidthMetric =>
      NodeSpeedtestUploadBandwidthMetric.add self x
  | CNodeSpeedtestDownloadBandwidthMetric =>
      NodeSpeedtestDownloadBandwidthMetric.add self x
  | CNodeSpeedtestPingLatencyMetric => NodeSpeedtestPingLatencyMetric.add self x
  | CNodeReceivedBytesTotalMetric => NodeReceivedBytesTotalMetric.add self x
  | CNodeEstimatedEarningsMetric => NodeEstimatedEarningsMetric.add self x
  | CNodeUptimeCompletionMetric => NodeUptimeCompletionMetric.add self x
  | CNodeRetrievalsMetric => NodeRetrievalsMetric.add self x
  | CNodeBandwidthServedMetric => NodeBandwidthServedMetric.add self x
  | CNodeResponseDurationMetric => NodeResponseDurationMetric.add self x
  | CNodeRequestsMetric => NodeRequestsMetric.add self x
  | CNodeHealthCheckFailuresMetric => NodeHealthCheckFailuresMetric.add self x
  | CNodeRequirementsMinCPUCoresMetric =>
      NodeRequirementsMinCPUCoresMetric.add self x
  | CNodeRequirementsMinMemoryMetric =>
      NodeRequirementsMinMemoryMetric.add self x
  | CNodeRequirementsMinUploadSpeedMetric =>
      NodeRequirementsMinUploadSpeedMetric.add self x
  | CNodeRequirementsMinDownloadSpeedMetric =>
      NodeRequirementsMinDownloadSpeedMetric.add self x
  | CNodeRequirementsMinDiskMetric => NodeRequirementsMinDiskMetric.add self x
  | CNodeRequirementsLastVersionMetric =>
      NodeRequirementsLastVersionMetric.add self x
  | CNodeRequirementsMinVersionMetric =>
      NodeRequirementsMinVersionMetric.add self x
  end.

(** ** The object store *)

(** Metric family objects live in a store and are known by reference; an
    object is created at a fresh reference. *)
Abbreviation ref := nat (only parsing).
Abbreviation heap := (list Metric) (only parsing).

Definition Py (A : Type) : Type := heap → result A * heap.

#[global] Instance py_ret : MRet Py := fun A a h => (Ok a, h).
#[global] Instance py_bind : MBind Py := fun A B f m h =>
  match m h with
  | (Ok a, h') => f a h'
  | (Raise e, h') => (Raise e, h')
  end.

(** An expression that does not touch the store. *)
Definition pure {A} (r : result A) : Py A := fun h => (r, h).

(** [C()]: a new object. *)
Definition new (m : Metric) : Py ref := fun h => (Ok (length h), h ++ [m]).

Fixpoint new_all (ms : list Metric) : Py (list ref) :=
  match ms with
  | [] => mret []
  | m :: ms' => r ← new m; rs ← new_all ms'; mret (r :: rs)
  end.

(** [r.method(...)]: the samples the method emits are appended to the
    samples of the object at [r]. *)
Definition call {A} (r : ref) (method : Metric → Emit A) : Py A := fun h =>
  match h !! r with
  | Some self =>
      let '(l, res) := method self in
      (res, <[r := with_samples self (samples self ++ l)]> h)
  | None => (Raise Unmodelled, h)
  end.

(** ** The iteration order of a set

    [for i in s] visits every element of a set of strings once, in an order
    that depends on the hashes of the strings, which CPython draws at random
    when the process starts. *)
Class SetOrder := {
  set_iter : gset string → list string;
  set_iter_perm : ∀ X, set_iter X ≡ₚ elements X
}.

(** [x in s] for a set of strings: only a string can be equal to a member. *)
Definition key_in (h : key) (s : gset string) : bool :=
  match h with
  | KStr x => bool_decide (x ∈ s)
  | _ => false
  end.

(** [found.add(h)], the set kept as a list without duplicates. *)
Definition found_add (h : key) (found : list key) : list key :=
  if decide (h ∈ found) then found else found ++ [h].

(** [s - found] *)
Definition set_difference (s : gset string) (found : list key) : gset string :=
  filter (fun x => KStr x ∉ found) s.

(** [for m in metrics: m.add(node)] *)
Fixpoint add_each `{LocalTime} (metrics : list ref) (node : value) : Py unit :=
  match metrics with
  | [] => mret tt
  | m :: metrics' =>
      _ ← call m (fun self => add self node);
      add_each metrics' node
  end.

Module StatsCollector.

Record t := mk { _node_ids : gset string }.

(** Collects stats for the specified node IDs.
    If node_ids is empty then collets stats for all nodes. *)
Definition __init__ (node_ids : list string) : t :=
  mk (list_to_set node_ids).

(** The first loop, with [found] as its state. *)
Fixpoint for_nodes `{LocalTime} (self : t) (metrics : list ref)
    (stats : list value) (found : list key) : Py (list key) :=
  match stats with
  | [] => mret found
  | node :: stats' =>
      skip ← pure (
        if bool_decide (_node_ids self ≠ ∅) then
          id ← getitem node "id";
          h ← hash_key id;
          Ok (negb (key_in h (_node_ids self)))
        else Ok false);
      if skip : bool then for_nodes self metrics stats' found
      else
        h ← pure (id ← getitem node "id"; hash_key id);
        let found := found_add h found in
        _ ← add_each metrics node;
        for_nodes self metrics stats' found
  end.

(** The second loop. *)
Fixpoint for_inactive (info : ref) (ids : list string) : Py unit :=
  match ids with
  | [] => mret tt
  | i :: ids' =>
      _ ← call info (fun self => NodeInfoMetric.add_inactive self (VStr i));
      for_inactive info ids'
  end.

Definition metric_classes : list Metric :=
  [NodeVersionMetric.__init__;
   NodeWeightMetric.__init__;
   NodeBiasMetric.__init__;
   NodePenaltyMetric.__init__;
   NodeWeightedTTFBMetric.__init__;
   NodeWeightedHitsRatioMetric.__init__;
   NodeWeightedErrorsRatioMetric.__init__;
   NodeWeightedDupCacheMissRatioMetric.__init__;
   NodeLastRegistrationMetric.__init__;
   NodeCreationMetric.__init__;
   NodeDiskTotalMetric.__init__;
   NodeDiskUsedMetric.__init__;
   NodeDiskAvailableMetric.__init__;
   NodeMemoryTotalMetric.__init__;
   NodeMemoryFreeMetric.__init__;
   NodeMemoryAvailableMetric.__init__;
   NodeCPUNumberMetric.__init__;
   NodeCPULoadAvgMetric.__init__;
   NodeResponseDurationMetric.__init__;
   NodeRequestsMetric.__init__;
   NodeHealthCheckFailuresMetric.__init__;
   NodeSentBytesTotalMetric.__init__;
   NodeReceivedBytesTotalMetric.__init__;
   NodeSpeedtestUploadBandwidthMetric.__init__;
   NodeSpeedtestDownloadBandwidthMetric.__init__;
   NodeSpeedtestPingLatencyMetric.__init__].

Definition _node_metrics_from_stats `{LocalTime} `{SetOrder}
    (self : t) (stats : value) : Py (list ref) :=
  info ← new NodeInfoMetric.__init__;
  others ← new_all metric_classes;
  let metrics := info :: others in
  nodes ← pure (iter stats);
  found ← for_nodes self metrics nodes [];
  (* Every not found node considered inactive. *)
  _ ← for_inactive info (set_iter (set_difference (_node_ids self) found));
  mret metrics.

(** [collect], given the JSON document the request returned. *)
Definition collect `{LocalTime} `{SetOrder} (self : t) (stats : value)
  : Py (list ref) :=
  nodes ← pure (getitem stats "nodes");
  _node_metrics_from_stats self nodes.

End StatsCollector.

Module EarningsAndRetrievalsCollector.

Record t := mk { _node_ids : gset string; _start_ts : float }.

Fixpoint for_nodes `{LocalTime} (self : t) (metrics : list ref)
    (earnings : list value) : Py unit :=
  match earnings with
  | [] => mret tt
  | node :: earnings' =>
      skip ← pure (
        if bool_decide (_node_ids self ≠ ∅) then
          id ← getitem node "nodeId";
          h ← hash_key id;
          Ok (negb (key_in h (_node_ids self)))
        else Ok false);
      if skip : bool then for_nodes self metrics earnings'
      else
        _ ← add_each metrics node;
        for_nodes self metrics earnings'
  end.

Definition metric_classes : list Metric :=
  [NodePayoutInfoMetric.__init__;
   NodeEstimatedEarningsMetric.__init__;
   NodeUptimeCompletionMetric.__init__;
   NodeRetrievalsMetric.__init__;
   NodeBandwidthServedMetric.__init__].

Definition _node_earnings_and_retrievals_metrics `{LocalTime}
    (self : t) (earnings : value) : Py (list ref) :=
  metrics ← new_all metric_classes;
  nodes ← pure (iter earnings);
  _ ← for_nodes self metrics nodes;
  mret metrics.

End EarningsAndRetrievalsCollector.

Module RequirementsCollector.

Definition metric_classes : list Metric :=
  [NodeRequirementsMinCPUCoresMetric.__init__;
   NodeRequirementsMinMemoryMetric.__init__;
   NodeRequirementsMinUploadSpeedMetric.__init__;
   NodeRequirementsMinDownloadSpeedMetric.__init__;
   NodeRequirementsMinDiskMetric.__init__;
   NodeRequirementsLastVersionMetric.__init__;
   NodeRequirementsMinVersionMetric.__init__].

Definition _node_requirements_metrics `{LocalTime} (requirements : value)
  : Py (list ref) :=
  metrics ← new_all metric_classes;
  _ ← add_each metrics requirements;
  mret metrics.

End RequirementsCollector.

(** The objects behind the references a collector returned. *)
Definition deref (h : heap) (rs : list ref) : list (option Metric) :=
  (fun r => h !! r) <$> rs.

(** The outcome [x] of a run in a store, seen next to the objects [h]. *)
Definition beside {A} (h : heap) (x : result A * heap) : result A * heap :=
  (x.1, h ++ x.2).

(** What the stats collector does to the 27 objects it creates: the two
    loops, run in a store that holds these objects only. *)
Definition stats_objects `{LocalTime} `{SetOrder}
    (self : StatsCollector.t) (stats : value) : result unit * heap :=
  let ms := NodeInfoMetric.__init__ :: StatsCollector.metric_classes in
  match iter stats with
  | Raise e => (Raise e, ms)
  | Ok nodes =>
      match StatsCollector.for_nodes self (seq 0 27) nodes [] ms with
      | (Raise e, ms1) => (Raise e, ms1)
      | (Ok found, ms1) =>
          StatsCollector.for_inactive 0
            (set_iter (set_difference (StatsCollector._node_ids self) found))
            ms1
      end
  end.

(** What a collector returns to its caller: the objects, or the exception. *)
Definition returned (x : result (list ref) * heap) : result (list (option Metric)) :=
  deref x.2 <$> x.1.

(** ** Example data *)

(** A zone that is always [c] seconds ahead of UTC. *)
Definition fixed_offset (c : Z) : LocalTime := {| utcoffset _ := c |}.
Definition utc : LocalTime := fixed_offset 0.
Definition utc_plus_1 : LocalTime := fixed_offset 3600.

Definition elements_order : SetOrder :=
  {| set_iter := elements; set_iter_perm := fun X => reflexivity (elements X) |}.

Definition obj (l : list (string * value)) : value := VDict (list_to_map l).

(** A stats record with every field the metric classes read. *)
Definition example_node (id : string) : value :=
  obj [("id", VStr id);
       ("state", VStr "active");
       ("core", VBool false);
       ("ipAddress", VStr "192.0.2.1");
       ("sunrise", VBool true);
       ("cassini", VBool false);
       ("geoloc", obj [("region", VStr "Bavaria"); ("city", VStr "Munich");
                       ("country", VStr "Germany"); ("countryCode", VStr "DE")]);
       ("version", VStr "1.2.3_abc123");
       ("bias", VFloat 0.5);
       ("biases", obj [("ageBias", VInt 0); ("speedPenalty", VFloat 0.25);
                       ("weightedTtfb", VInt 120)]);
       ("lastRegistration", VStr "2023-01-01T00:00:00.000Z");
       ("createdAt", VStr "2022-06-01T12:30:00.250Z");
       ("diskStats", obj [("totalDiskMB", VInt 1000); ("usedDiskMB", VInt 400);
                          ("availableDiskMB", VInt 600)]);
       ("memoryStats", obj [("totalMemoryKB", VInt 64); ("freeMemoryKB", VInt 16);
                            ("availableMemoryKB", VInt 32)]);
       ("cpuStats", obj [("numCPUs", VInt 8);
                         ("loadAvgs", VList [VFloat 0.5; VFloat 0.25; VFloat 0.125])]);
       ("nicStats", obj [("bytesSent", VInt 10); ("bytesReceived", VInt 20)]);
       ("ttfbStats", obj [("p1_1h", VInt 1); ("p5_1h", VInt 5); ("p50_1h", VInt 50);
                          ("reqs_served_1h", VInt 7); ("hits_1h", VInt 6);
                          ("errors_1h", VInt 1); ("slow_hits_1h", VInt 2)]);
       ("HealthCheckFailures",
        VList [obj [("error", VStr "timeout")]; obj [("error", VStr "timeout")];
               obj [("error", VStr "dns")]])].

(** ** Specifications *)

(** The series a bias or penalty table yields for the map [b]: one for
    every entry of the table whose key has a value other than [None]. *)
Definition kind_series (name : string) (id : value) (b : gmap string value)
    (table : list (string * string)) : list Sample :=
  omap (fun '(k, v) =>
          match b !! k with
          | Some x =>
              if is_not_None x
              then Some (mkSample name [("id", id); ("kind", VStr v)] x)
              else None
          | None => None
          end) table.

(** The strings [YYYY-MM-DDTHH:MM:SS.fffZ]. *)
Definition digit_char (n : Z) : ascii := ascii_of_nat (48 + Z.to_nat n).
Definition pad2 (n : Z) : string :=
  String (digit_char (n / 10)) (String (digit_char (n mod 10)) "").
Definition pad3 (n : Z) : string := String (digit_char (n / 100)) (pad2 (n mod 100)).
Definition pad4 (n : Z) : string := String (digit_char (n / 1000)) (pad3 (n mod 1000)).

Definition iso_string (Y M D h mi s ms : Z) : string :=
  pad4 Y +:+ "-" +:+ pad2 M +:+ "-" +:+ pad2 D +:+ "T"
  +:+ pad2 h +:+ ":" +:+ pad2 mi +:+ ":" +:+ pad2 s +:+ "." +:+ pad3 ms +:+ "Z".

(** The seconds from the epoch to a civil time read as UTC. *)
Definition utc_seconds (Y M D h mi s : Z) : Z :=
  (datetime._ymd2ord Y M D - 719163) * 86400 + h * 3600 + mi * 60 + s.

(** The quantile labels and the fields they are read from. *)
Definition quantile_fields : list (string * string) :=
  [("0.01", "p1_1h"); ("0.05", "p5_1h"); ("0.5", "p50_1h");
   ("0.95", "p95_1h"); ("0.99", "p99_1h")].

(** The fields of [t] up to the first missing one. *)
Fixpoint present_prefix (t : gmap string value) (fields : list (string * string))
  : list (string * value) :=
  match fields with
  | [] => []
  | (q, f) :: fields' =>
      match t !! f with
      | Some v => (q, v) :: present_prefix t fields'
      | None => []
      end
  end.

Definition quantile_series (id : value) (qv : string * value) : Sample :=
  mkSample "saturn_node_response_duration_milliseconds"
           [("id", id); ("quantile", VStr qv.1)] qv.2.

Definition request_series (id : value) (result : string) (v : value) : Sample :=
  mkSample "saturn_node_requests" [("id", id); ("result", VStr result)] v.

(** The distinct elements of a list, in the order of their first
    occurrence. *)
Fixpoint distinct (l : list string) : list string :=
  match l with
  | [] => []
  | x :: l' => x :: filter (fun y => y ≠ x) (distinct l')
  end.

(** How many elements of [l] are [k]. *)
Definition occurrences (k : string) (l : list string) : Z :=
  Z.of_nat (length (filter (fun y => y = k) l)).

Definition failure_series (id : value) (kinds : list string) (k : string)
  : Sample :=
  mkSample "saturn_node_health_check_failures"
           [("id", id); ("error", VStr k)] (VInt (occurrences k kinds)).

(** The series of a family that reads one optional field. *)
Definition optional_series (name : string) (id : value) (field : option value)
  : list Sample :=
  match field with
  | Some x => if is_not_None x then [mkSample name [("id", id)] x] else []
  | None => []
  end.

(** The [defaultdict] after the failures of kinds [kinds] were counted, for
    the kinds [l]. *)
Definition tally (kinds l : list string) : counts :=
  (fun x => (KStr x, (VStr x, occurrences x kinds))) <$> l.

(** [NodeFilter.matches]: the allow-list is empty or contains the id of the
    record. *)
Definition matches (S : gset string) (node : value) : bool :=
  bool_decide (S = ∅)
  || match getitem node "id" with
     | Ok (VStr s) => bool_decide (s ∈ S)
     | _ => false
     end.

(** The ids, as far as they are strings, of a list of records. *)
Definition observed (nodes : list value) : list string :=
  omap (fun node => match getitem node "id" with
                    | Ok (VStr s) => Some s
                    | _ => None
                    end) nodes.

Definition inactive_series (i : string) : Sample :=
  mkSample "saturn_node_info"
           [("id", VStr i); ("id_short", VStr (utf8_take 8 i));
            ("state", VStr "inactive")]
           (VInt 1).

(** All that the records [nodes] make the object [m] emit. *)
Definition projected `{LocalTime} (m : Metric) (nodes : list value)
  : list Sample :=
  flat_map (fun node => emitted (add m node)) nodes.

(** *** The loops of the collectors on the objects they created

    The collectors only touch the objects they create; these functions are
    what the loops do to the list of those objects. *)

Definition append_samples (m : Metric) (l : list Sample) : Metric :=
  with_samples m (samples m ++ l).

Fixpoint add_list `{LocalTime} (ms : list Metric) (node : value)
  : result unit * list Metric :=
  match ms with
  | [] => (Ok tt, [])
  | m :: ms' =>
      match add m node with
      | (l, Ok _) =>
          let '(r, ms'') := add_list ms' node in
          (r, append_samples m l :: ms'')
      | (l, Raise e) => (Raise e, append_samples m l :: ms')
      end
  end.

(** ** The start of the program *)

(** The white space [str.strip()] removes, as far as it is ASCII. *)
Definition is_space (a : ascii) : bool :=
  let n := nat_of_ascii a in
  (((9 <=? n) && (n <=? 13)) || ((28 <=? n) && (n <=? 32)))%nat.

Fixpoint lstrip (s : string) : string :=
  match s with
  | EmptyString => EmptyString
  | String a s' => if is_space a then lstrip s' else s
  end.

(** Drops the white space at the end: the string is kept up to its last
    character that is not white space. *)
Fixpoint rstrip (s : string) : string :=
  match s with
  | EmptyString => EmptyString
  | String a s' =>
      match rstrip s' with
      | EmptyString => if is_space a then EmptyString else String a EmptyString
      | t => String a t
      end
  end.

(** [s.strip()], for ASCII strings. *)
Definition str_strip (s : string) : result string :=
  if all_ascii s then Ok (rstrip (lstrip s)) else Raise Unmodelled.

(** [[line.strip() for line in f]], [f] given by the lines it yields. *)
Fixpoint read_node_ids (f : list string) : result (list string) :=
  match f with
  | [] => Ok []
  | line :: f' =>
      id ← str_strip line;
      ids ← read_node_ids f';
      Ok (id :: ids)
  end.

(** ** More specifications *)

(** The number of code points of a string. *)
Fixpoint utf8_length (s : string) : nat :=
  match s with
  | EmptyString => 0
  | String a s' =>
      if is_continuation a then utf8_length s' else S (utf8_length s')
  end.

(** The characters of a string. *)
Fixpoint chars (s : string) : list ascii :=
  match s with
  | EmptyString => []
  | String a s' => a :: chars s'
  end.


(** The label names of an info series. *)
Definition info_labels : list string :=
  ["id"; "id_short"; "state"; "core"; "ip_address"; "sunrise"; "cassini";
   "geoloc_region"; "geoloc_city"; "geoloc_country"; "geoloc_country_code"].
Definition speedtest_labels : list string :=
  ["sppedtest_isp"; "sppedtest_server_location"; "sppedtest_server_country"].

(** The one series of a family labelled with the id, or the exception met
    when its value was read. *)
Definition one_series (name : string) (id : value) (v : result value)
  : Emit unit :=
  match v with
  | Ok x => ([mkSample name [("id", id)] x], Ok tt)
  | Raise e => ([], Raise e)
  end.

(** The families that read one value at a fixed place of the record, with
    the name of their series and the place. *)
Definition fixed_place_families : list (Metric * string * list string) :=
  [(NodeWeightMetric.__init__, "saturn_node_weight", ["bias"]);
   (NodeDiskTotalMetric.__init__, "saturn_node_disk_total_megabytes",
    ["diskStats"; "totalDiskMB"]);
   (NodeDiskUsedMetric.__init__, "saturn_node_disk_used_megabytes",
    ["diskStats"; "usedDiskMB"]);
   (NodeDiskAvailableMetric.__init__, "saturn_node_disk_available_megabytes",
    ["diskStats"; "availableDiskMB"]);
   (NodeMemoryTotalMetric.__init__, "saturn_node_memory_total_kilobytes",
    ["memoryStats"; "totalMemoryKB"]);
   (NodeMemoryFreeMetric.__init__, "saturn_node_memory_free_kilobytes",
    ["memoryStats"; "freeMemoryKB"]);
   (NodeMemoryAvailableMetric.__init__, "saturn_node_memory_available_kilobytes",
    ["memoryStats"; "availableMemoryKB"]);
   (NodeCPUNumberMetric.__init__, "saturn_node_cpu_number",
    ["cpuStats"; "numCPUs"]);
   (NodeSentBytesTotalMetric.__init__, "saturn_node_sent_bytes_total",
    ["nicStats"; "bytesSent"]);
   (NodeReceivedBytesTotalMetric.__init__, "saturn_node_received_bytes_total",
    ["nicStats"; "bytesReceived"])].

(** The speedtest families, with the name of their series and the place of
    their value in the speedtest sub-record. *)
Definition speedtest_families : list (Metric * string * list string) :=
  [(NodeSpeedtestUploadBandwidthMetric.__init__,
    "saturn_node_speedtest_upload_bandwidth", ["upload"; "bandwidth"]);
   (NodeSpeedtestDownloadBandwidthMetric.__init__,
    "saturn_node_speedtest_download_bandwidth", ["download"; "bandwidth"]);
   (NodeSpeedtestPingLatencyMetric.__init__,
    "saturn_node_speedtest_ping_latency_milliseconds", ["ping"; "latency"])].

(** The weighted ratio families, with the name of their series and their
    key in the bias map. *)
Definition weighted_families : list (Metric * string * string) :=
  [(NodeWeightedTTFBMetric.__init__,
    "saturn_node_weighted_ttfb_milliseconds", "weightedTtfb");
   (NodeWeightedHitsRatioMetric.__init__,
    "saturn_node_weighted_hits_ratio", "weightedHitsRatio");
   (NodeWeightedErrorsRatioMetric.__init__,
    "saturn_node_weighted_errors_ratio", "weightedErrorsRatio");
   (NodeWeightedDupCacheMissRatioMetric.__init__,
    "saturn_node_weighted_dup_cache_miss_ratio", "weightedDupCacheMissRatio")].

(** The allow-list is empty or contains what the record has at [k]. *)
Definition matches_at (k : string) (S : gset string) (node : value) : bool :=
  bool_decide (S = ∅)
  || match getitem node k with
     | Ok (VStr s) => bool_decide (s ∈ S)
     | _ => false
     end.

(** The timestamp strings without a fraction, [YYYY-MM-DDTHH:MM:SSZ]. *)
Definition iso_string_no_fraction (Y M D h mi s : Z) : string :=
  pad4 Y +:+ "-" +:+ pad2 M +:+ "-" +:+ pad2 D +:+ "T"
  +:+ pad2 h +:+ ":" +:+ pad2 mi +:+ ":" +:+ pad2 s +:+ "Z".

(** The ways to match a directive and the literal character after it: what
    the directive matched, and what is left after the literal. *)
Definition group_then_lit (r : re) (c : ascii) (s : string)
  : list (string * string) :=
  flat_map (fun '(m, rest) =>
              match rest with
              | String b s' => if lit_matches c b then [(m, s')] else []
              | EmptyString => []
              end)
           (re_match r s).

(** The two timestamp families, with the name of their series and the field
    of the record that holds their timestamp. *)
Definition timestamp_families : list (Metric * string * string) :=
  [(NodeLastRegistrationMetric.__init__,
    "saturn_node_last_registration_timestamp", "lastRegistration");
   (NodeCreationMetric.__init__,
    "saturn_node_creation_timestamp", "createdAt")].

(** The record has something hashable at [k]. *)
Definition hashable_at (k : string) (node : value) : Prop :=
  ∃ id h, getitem node k = Ok id ∧ hash_key id = Ok h.

(** Every object of [ms] takes the record without raising. *)
Definition passes `{LocalTime} (ms : list Metric) (node : value) : Prop :=
  ∀ m, m ∈ ms → outcome (add m node) = Ok tt.

(** What the earnings collector does to the five objects it creates: the
    loop, run in a store that holds these objects only. *)
Definition earnings_objects `{LocalTime}
    (self : EarningsAndRetrievalsCollector.t) (earnings : value)
  : result unit * heap :=
  let ms := EarningsAndRetrievalsCollector.metric_classes in
  match iter earnings with
  | Raise e => (Raise e, ms)
  | Ok nodes => EarningsAndRetrievalsCollector.for_nodes self (seq 0 5) nodes ms
  end.

(** A string of white space only. *)
Definition blank (s : string) : Prop := ∀ a, a ∈ chars s → is_space a = true.

(** A string without white space at its start and at its end. *)
Definition stripped (s : string) : Prop := lstrip s = s ∧ rstrip s = s.

(** The name of the series of a family: counters and info metrics have a
    suffix. *)
Definition series_name (m : Metric) : string :=
  match typ m with
  | gauge => name m
  | counter => name m +:+ "_total"
  | info => name m +:+ "_info"
  end.

(** A series with the name of the family and with the label names the
    family declared, in their order. *)
Definition well_labelled (m : Metric) (s : Sample) : Prop :=
  s_name s = series_name m ∧ (s_labels s).*1 = labelnames m.

(** Every series an expression emits, also one that raises afterwards. *)
Definition all_emitted {A} (Q : Sample → Prop) (e : Emit A) : Prop :=
  ∀ s, s ∈ emitted e → Q s.

(** The gauge and counter families of the three collectors. *)
Definition gauge_and_counter_families : list Metric :=
  StatsCollector.metric_classes
  ++ drop 1 EarningsAndRetrievalsCollector.metric_classes
  ++ RequirementsCollector.metric_classes.

(** The series without failures has the id as its only label. *)
Definition zero_failures_series (s : Sample) : Prop :=
  s_name s = "saturn_node_health_check_failures"
  ∧ (s_labels s).*1 = ["id"] ∧ s_value s = VInt 0.

(** * Proofs *)

Lemma add_kinds_spec self d id b table :
  d !! "id" = Some id →
  d !! "biases" = Some (VDict b) →
  labelnames self = ["id"; "kind"] →
  add_kinds self (VDict d) table
  = (kind_series (name self) id b table, Ok tt).
Proof.
  intros Hid Hb Hl. induction table as [|[k v] table IH]; [done|].
  simpl. rewrite Hb. simpl. unfold kind_series. simpl.
  destruct (b !! k) as [x|] eqn:Hk; simpl.
  - destruct (is_not_None x) eqn:Hx; simpl.
    + rewrite Hid. simpl. rewrite IH. simpl. rewrite Hl. reflexivity.
    + rewrite IH. reflexivity.
  - rewrite IH. reflexivity.
Qed.

Lemma elem_of_kind_series name id b table s :
  s ∈ kind_series name id b table ↔
  ∃ k v x, (k, v) ∈ table ∧ b !! k = Some x ∧ x ≠ VNone
           ∧ s = mkSample name [("id", id); ("kind", VStr v)] x.
Proof.
  unfold kind_series. rewrite list_elem_of_omap. split.
  - intros [[k v] [Hin Hs]]. exists k, v.
    destruct (b !! k) as [x|]; [|done].
    exists x. destruct x; simpl in Hs; naive_solver.
  - intros (k & v & x & Hin & Hk & Hx & ->). exists (k, v).
    split; [done|]. rewrite Hk. by destruct x.
Qed.

(** C6: for a record with an id and a bias map, the bias family emits one
    {id, kind} series for every entry of its table of 5 names whose key has
    a value in the map, and the penalty family does the same with its table
    of 7 names, reading the same map; a key that is absent is skipped, a key
    outside the table yields nothing, a value of 0 yields a series of
    value 0. *)
Theorem bias_and_penalty_series d id b :
  d !! "id" = Some id →
  d !! "biases" = Some (VDict b) →
  NodeBiasMetric.add NodeBiasMetric.__init__ (VDict d)
  = (kind_series "saturn_node_bias" id b
       [("ageBias", "age"); ("ttfbBias", "ttfb"); ("randomBias", "random");
        ("uptimeBias", "uptime"); ("speedtestBias", "speedtest")],
     Ok tt)
  ∧ NodePenaltyMetric.add NodePenaltyMetric.__init__ (VDict d)
    = (kind_series "saturn_node_penalty" id b
         [("speedPenalty", "speed"); ("cpuLoadPenalty", "cpu_load");
          ("errorRatioPenalty", "error_ratio");
          ("oldVersionPenalty", "old_version");
          ("cacheHitRatioPenalty", "cache_hit_ratio");
          ("dupCacheMissRatioPenalty", "dup_cache_miss_ratio");
          ("healthCheckFailuresPenalty", "health_check_failures")],
       Ok tt)
  ∧ (∀ name table s,
       s ∈ kind_series name id b table ↔
       ∃ k v x, (k, v) ∈ table ∧ b !! k = Some x ∧ x ≠ VNone
                ∧ s = mkSample name [("id", id); ("kind", VStr v)] x)
  ∧ (∀ name table k v,
       (k, v) ∈ table → b !! k = Some (VInt 0) →
       mkSample name [("id", id); ("kind", VStr v)] (VInt 0)
       ∈ kind_series name id b table).
Proof.
  intros Hid Hb. split_and!.
  - by apply (add_kinds_spec NodeBiasMetric.__init__).
  - by apply (add_kinds_spec NodePenaltyMetric.__init__).
  - intros name table s. exact (elem_of_kind_series name id b table s).
  - intros name table k v Hin Hk. apply elem_of_kind_series.
    by exists k, v, (VInt 0).
Qed.

Lemma bias_and_penalty_series_witness :
  NodeBiasMetric.add NodeBiasMetric.__init__
    (obj [("id", VStr "A");
          ("biases", obj [("ageBias", VInt 0); ("speedPenalty", VFloat 0.25)])])
  = (kind_series "saturn_node_bias" (VStr "A")
       (list_to_map [("ageBias", VInt 0); ("speedPenalty", VFloat 0.25)])
       NodeBiasMetric._BIASES,
     Ok tt).
Proof.
  refine (proj1 (bias_and_penalty_series _ (VStr "A") _ _ _));
    vm_compute; reflexivity.
Defined.

(** *** The latency quantiles *)

Lemma add_loop_step self d id t q qs p :
  d !! "id" = Some id →
  int_of_float (q * float_of_Z 100)%float = Ok p →
  NodeResponseDurationMetric.add_loop self (VDict d) (VDict t) (q :: qs)
  = match t !! ("p" +:+ str_int p +:+ "_1h") with
    | Some v =>
        let '(l, r) :=
          NodeResponseDurationMetric.add_loop self (VDict d) (VDict t) qs in
        (mkSample (name self)
                  (dict_zip (labelnames self) [id; VStr (float_repr q)]) v :: l,
         r)
    | None => ([], Ok tt)
    end.
Proof.
  intros Hid Hp. cbn [NodeResponseDurationMetric.add_loop].
  rewrite Hp. cbn -[float_repr str_int NodeResponseDurationMetric.add_loop].
  rewrite Hid. cbn -[float_repr str_int NodeResponseDurationMetric.add_loop].
  destruct (t !! _) as [v|]; cbn -[float_repr str_int NodeResponseDurationMetric.add_loop];
    [|done].
  by destruct (NodeResponseDurationMetric.add_loop _ _ _ _).
Qed.

Lemma quantile_loop_spec d id t :
  d !! "id" = Some id →
  NodeResponseDurationMetric.add_loop NodeResponseDurationMetric.__init__
    (VDict d) (VDict t) NodeResponseDurationMetric.quantiles
  = (quantile_series id <$> present_prefix t quantile_fields, Ok tt).
Proof.
  intros Hid. unfold NodeResponseDurationMetric.quantiles.
  rewrite (add_loop_step _ d id t _ _ 1 Hid) by (vm_compute; reflexivity).
  rewrite (add_loop_step _ d id t _ _ 5 Hid) by (vm_compute; reflexivity).
  rewrite (add_loop_step _ d id t _ _ 50 Hid) by (vm_compute; reflexivity).
  rewrite (add_loop_step _ d id t _ _ 95 Hid) by (vm_compute; reflexivity).
  rewrite (add_loop_step _ d id t _ _ 99 Hid) by (vm_compute; reflexivity).
  change (float_repr 0.01) with "0.01".
  change (float_repr 0.05) with "0.05".
  change (float_repr 0.5) with "0.5".
  change (float_repr 0.95) with "0.95".
  change (float_repr 0.99) with "0.99".
  change (str_int 1) with "1". change (str_int 5) with "5".
  change (str_int 50) with "50". change (str_int 95) with "95".
  change (str_int 99) with "99".
  cbn [present_prefix quantile_fields String.append].
  repeat (destruct (t !! _); [|reflexivity]).
  reflexivity.
Qed.

Lemma truthy_dict_empty t : truthy (VDict t) = false ↔ t = ∅.
Proof.
  simpl. rewrite <- map_to_list_empty_iff.
  by destruct (map_to_list t).
Qed.

Lemma response_duration_spec d id t :
  d !! "id" = Some id →
  d !! "ttfbStats" = Some (VDict t) →
  NodeResponseDurationMetric.add NodeResponseDurationMetric.__init__ (VDict d)
  = (quantile_series id <$> present_prefix t quantile_fields, Ok tt).
Proof.
  intros Hid Ht. unfold NodeResponseDurationMetric.add.
  cbn -[NodeResponseDurationMetric.add_loop truthy]. rewrite Ht.
  cbn -[NodeResponseDurationMetric.add_loop truthy].
  destruct (truthy (VDict t)) eqn:Htr;
    cbn -[NodeResponseDurationMetric.add_loop truthy].
  - rewrite (quantile_loop_spec d id t Hid). reflexivity.
  - apply truthy_dict_empty in Htr as ->. reflexivity.
Qed.

(** C1: when [ttfbStats] is a sub-record, the quantile family goes through
    the quantiles 0.01, 0.05, 0.5, 0.95, 0.99 in this order, reads
    [p1_1h], [p5_1h], [p50_1h], [p95_1h], [p99_1h] and stops at the first
    field that is missing; with the first three present and [p95_1h]
    missing it emits the three series 0.01, 0.05 and 0.5; without
    [ttfbStats] it emits nothing. *)
Theorem quantiles_stop_at_first_missing d :
  (∀ id t,
     d !! "id" = Some id →
     d !! "ttfbStats" = Some (VDict t) →
     NodeResponseDurationMetric.add NodeResponseDurationMetric.__init__ (VDict d)
     = (quantile_series id <$> present_prefix t quantile_fields, Ok tt))
  ∧ (∀ id t v1 v5 v50,
       d !! "id" = Some id →
       d !! "ttfbStats" = Some (VDict t) →
       t !! "p1_1h" = Some v1 → t !! "p5_1h" = Some v5 →
       t !! "p50_1h" = Some v50 → t !! "p95_1h" = None →
       NodeResponseDurationMetric.add NodeResponseDurationMetric.__init__
         (VDict d)
       = ([quantile_series id ("0.01", v1); quantile_series id ("0.05", v5);
           quantile_series id ("0.5", v50)],
          Ok tt))
  ∧ (d !! "ttfbStats" = None →
     NodeResponseDurationMetric.add NodeResponseDurationMetric.__init__ (VDict d)
     = ([], Ok tt)).
Proof.
  split_and!.
  - apply response_duration_spec.
  - intros id t v1 v5 v50 Hid Ht H1 H5 H50 H95.
    rewrite (response_duration_spec d id t Hid Ht).
    cbn [present_prefix quantile_fields]. by rewrite H1, H5, H50, H95.
  - intros Ht. unfold NodeResponseDurationMetric.add.
    cbn -[NodeResponseDurationMetric.add_loop]. by rewrite Ht.
Qed.

Lemma quantiles_stop_at_first_missing_witness :
  NodeResponseDurationMetric.add NodeResponseDurationMetric.__init__
    (obj [("id", VStr "A");
          ("ttfbStats", obj [("p1_1h", VInt 1); ("p5_1h", VInt 5);
                             ("p50_1h", VInt 50); ("p99_1h", VInt 99)])])
  = ([quantile_series (VStr "A") ("0.01", VInt 1);
      quantile_series (VStr "A") ("0.05", VInt 5);
      quantile_series (VStr "A") ("0.5", VInt 50)],
     Ok tt).
Proof.
  refine (proj1 (proj2 (quantiles_stop_at_first_missing _))
            (VStr "A")
            (list_to_map [("p1_1h", VInt 1); ("p5_1h", VInt 5);
                          ("p50_1h", VInt 50); ("p99_1h", VInt 99)])
            _ _ _ _ _ _ _ _ _);
    vm_compute; reflexivity.
Defined.

(** *** The request outcomes *)

Lemma truthy_dict_lookup t k v : t !! k = Some v → truthy (VDict t) = true.
Proof.
  intros Hk. destruct (truthy (VDict t)) eqn:Htr; [done|].
  apply truthy_dict_empty in Htr as ->. by rewrite lookup_empty in Hk.
Qed.

(** C2: when [ttfbStats] is a sub-record, the request family emits the four
    series ok, ok_hit, error, ok_slow_hit, read from [reqs_served_1h],
    [hits_1h], [errors_1h], [slow_hits_1h], if all four fields are there,
    and no series as soon as one of them is missing; without [ttfbStats] it
    emits nothing. *)
Theorem requests_all_or_nothing d :
  (∀ id t ok hits errors slow_hits,
     d !! "id" = Some id →
     d !! "ttfbStats" = Some (VDict t) →
     t !! "reqs_served_1h" = Some ok → t !! "hits_1h" = Some hits →
     t !! "errors_1h" = Some errors → t !! "slow_hits_1h" = Some slow_hits →
     NodeRequestsMetric.add NodeRequestsMetric.__init__ (VDict d)
     = ([request_series id "ok" ok; request_series id "ok_hit" hits;
         request_series id "error" errors;
         request_series id "ok_slow_hit" slow_hits],
        Ok tt))
  ∧ (∀ t,
       d !! "ttfbStats" = Some (VDict t) →
       t !! "reqs_served_1h" = None ∨ t !! "hits_1h" = None
       ∨ t !! "errors_1h" = None ∨ t !! "slow_hits_1h" = None →
       NodeRequestsMetric.add NodeRequestsMetric.__init__ (VDict d)
       = ([], Ok tt))
  ∧ (d !! "ttfbStats" = None →
     NodeRequestsMetric.add NodeRequestsMetric.__init__ (VDict d)
     = ([], Ok tt)).
Proof.
  split_and!.
  - intros id t ok hits errors slow_hits Hid Ht H1 H2 H3 H4.
    unfold NodeRequestsMetric.add. cbn -[truthy]. rewrite Ht. cbn -[truthy].
    rewrite (truthy_dict_lookup t _ _ H1). cbn.
    rewrite H1, H2, H3, H4. cbn. rewrite Hid. reflexivity.
  - intros t Ht Hmiss.
    unfold NodeRequestsMetric.add. cbn -[truthy]. rewrite Ht. cbn -[truthy].
    destruct (truthy (VDict t)); cbn; [|done].
    destruct (t !! "reqs_served_1h"); cbn; [|done].
    destruct (t !! "hits_1h"); cbn; [|done].
    destruct (t !! "errors_1h"); cbn; [|done].
    destruct (t !! "slow_hits_1h"); cbn; [|done].
    by destruct Hmiss as [?|[?|[?|?]]].
  - intros Ht. unfold NodeRequestsMetric.add. cbn. by rewrite Ht.
Qed.

Lemma requests_all_or_nothing_witness :
  NodeRequestsMetric.add NodeRequestsMetric.__init__
    (obj [("id", VStr "A");
          ("ttfbStats", obj [("reqs_served_1h", VInt 7); ("hits_1h", VInt 6);
                             ("errors_1h", VInt 1); ("slow_hits_1h", VInt 2)])])
  = ([request_series (VStr "A") "ok" (VInt 7);
      request_series (VStr "A") "ok_hit" (VInt 6);
      request_series (VStr "A") "error" (VInt 1);
      request_series (VStr "A") "ok_slow_hit" (VInt 2)],
     Ok tt)
  ∧ NodeRequestsMetric.add NodeRequestsMetric.__init__
      (obj [("id", VStr "A");
            ("ttfbStats", obj [("reqs_served_1h", VInt 7); ("hits_1h", VInt 6);
                               ("errors_1h", VInt 1)])])
    = ([], Ok tt).
Proof.
  split.
  - refine (proj1 (requests_all_or_nothing _) (VStr "A")
              (list_to_map [("reqs_served_1h", VInt 7); ("hits_1h", VInt 6);
                            ("errors_1h", VInt 1); ("slow_hits_1h", VInt 2)])
              _ _ _ _ _ _ _ _ _ _);
      vm_compute; reflexivity.
  - refine (proj1 (proj2 (requests_all_or_nothing _))
              (list_to_map [("reqs_served_1h", VInt 7); ("hits_1h", VInt 6);
                            ("errors_1h", VInt 1)]) _ _).
    + vm_compute; reflexivity.
    + right; right; right. vm_compute; reflexivity.
Defined.

(** *** The health check failures *)

Lemma elem_of_distinct l x : x ∈ distinct l ↔ x ∈ l.
Proof.
  induction l as [|y l IH]; [done|].
  simpl. rewrite !elem_of_cons, list_elem_of_filter, IH.
  destruct (decide (x = y)); naive_solver.
Qed.

Lemma NoDup_distinct l : NoDup (distinct l).
Proof.
  induction l as [|y l IH]; simpl; [constructor|].
  constructor.
  - rewrite list_elem_of_filter. naive_solver.
  - by apply NoDup_filter.
Qed.

Lemma distinct_snoc l k :
  distinct (l ++ [k]) = if decide (k ∈ l) then distinct l else distinct l ++ [k].
Proof.
  induction l as [|y l IH]; [done|].
  cbn [distinct app]. rewrite IH. destruct (decide (k ∈ l)) as [Hin|Hin].
  - rewrite decide_True by (by right). done.
  - destruct (decide (k = y)) as [->|Hne].
    + rewrite decide_True by (by left).
      rewrite filter_app, filter_cons_False, filter_nil by naive_solver.
      by rewrite app_nil_r.
    + rewrite decide_False by (rewrite elem_of_cons; naive_solver).
      by rewrite filter_app, filter_cons_True, filter_nil by done.
Qed.

Lemma occurrences_snoc x l k :
  occurrences x (l ++ [k])
  = occurrences x l + (if decide (k = x) then 1 else 0).
Proof.
  unfold occurrences. rewrite filter_app, length_app, filter_cons, filter_nil.
  destruct (decide (k = x)); simpl; lia.
Qed.

Lemma occurrences_not_in x l : x ∉ l → occurrences x l = 0.
Proof.
  intros Hx. unfold occurrences.
  replace (filter (λ y, y = x) l) with (@nil string); [done|].
  symmetry. induction l as [|y l IH]; [done|].
  rewrite filter_cons_False by (intros ->; apply Hx; by left).
  apply IH. intros ?. apply Hx. by right.
Qed.

Lemma counts_incr_fmap (f : string → Z) l k :
  NoDup l →
  counts_incr (KStr k) (VStr k) ((λ x, (KStr x, (VStr x, f x))) <$> l)
  = if decide (k ∈ l)
    then (λ x, (KStr x, (VStr x, f x + (if decide (k = x) then 1 else 0)))) <$> l
    else ((λ x, (KStr x, (VStr x, f x))) <$> l) ++ [(KStr k, (VStr k, 1))].
Proof.
  induction 1 as [|y l Hy Hl IH]; [done|].
  rewrite !fmap_cons. cbn [counts_incr].
  destruct (decide (KStr k = KStr y)) as [[= ->]|Hne].
  - rewrite decide_True by (by left). rewrite decide_True by done.
    f_equal. apply list_fmap_ext. intros _ x Hx%list_elem_of_lookup_2.
    rewrite decide_False by (by intros ->). by rewrite Z.add_0_r.
  - assert (k ≠ y) by congruence.
    rewrite IH. rewrite (decide_False (P := k = y)) by done.
    rewrite Z.add_0_r.
    destruct (decide (k ∈ l)).
    + by rewrite decide_True by (by right).
    + by rewrite decide_False by (rewrite elem_of_cons; naive_solver).
Qed.

Lemma counts_incr_tally p k :
  counts_incr (KStr k) (VStr k) (tally p (distinct p))
  = tally (p ++ [k]) (distinct (p ++ [k])).
Proof.
  unfold tally. rewrite counts_incr_fmap by apply NoDup_distinct.
  rewrite distinct_snoc.
  destruct (decide (k ∈ p)) as [Hin|Hin].
  all: [> rewrite decide_True by (by apply elem_of_distinct)
        | rewrite decide_False by (by rewrite elem_of_distinct) ].
  - apply list_fmap_ext. intros _ x _. by rewrite occurrences_snoc.
  - rewrite fmap_app. simpl. f_equal.
    + apply list_fmap_ext. intros _ x Hx%list_elem_of_lookup_2.
      rewrite occurrences_snoc. rewrite decide_False; [by rewrite Z.add_0_r|].
      intros ->. by apply Hin, elem_of_distinct.
    + rewrite occurrences_snoc, occurrences_not_in by done.
      by rewrite decide_True.
Qed.

Lemma count_errors_tally events kinds p :
  Forall2 (λ e k, ∃ ed, e = VDict ed ∧ ed !! "error" = Some (VStr k))
          events kinds →
  NodeHealthCheckFailuresMetric.count_errors events (tally p (distinct p))
  = Ok (tally (p ++ kinds) (distinct (p ++ kinds))).
Proof.
  intros H. revert p. induction H as [|e k events kinds (ed & -> & He) _ IH];
    intros p.
  - by rewrite app_nil_r.
  - simpl. rewrite He. simpl. rewrite counts_incr_tally, IH.
    by rewrite <- app_assoc.
Qed.

Lemma add_errors_tally d id kinds l :
  d !! "id" = Some id →
  NodeHealthCheckFailuresMetric.add_errors
    NodeHealthCheckFailuresMetric.__init__ (VDict d) (tally kinds l)
  = (failure_series id kinds <$> l, Ok tt).
Proof.
  intros Hid. induction l as [|k l IH]; [done|].
  simpl in *. rewrite Hid. simpl. rewrite IH. reflexivity.
Qed.

(** C3: for a record with an id, the health check family emits one series
    of value 0 with the id as its only label when the list of failures is
    absent or empty; otherwise, when every failure carries a string as its
    error kind, it emits one series {id, error} for each distinct kind, in
    the order of first occurrence, whose value is the number of failures of
    that kind. *)
Theorem health_check_failures_by_kind d id :
  d !! "id" = Some id →
  (d !! "HealthCheckFailures" = None
   ∨ d !! "HealthCheckFailures" = Some (VList []) →
   NodeHealthCheckFailuresMetric.add NodeHealthCheckFailuresMetric.__init__
     (VDict d)
   = ([mkSample "saturn_node_health_check_failures" [("id", id)] (VInt 0)],
      Ok tt))
  ∧ (∀ events kinds,
       d !! "HealthCheckFailures" = Some (VList events) →
       events ≠ [] →
       Forall2 (λ e k, ∃ ed, e = VDict ed ∧ ed !! "error" = Some (VStr k))
               events kinds →
       NodeHealthCheckFailuresMetric.add NodeHealthCheckFailuresMetric.__init__
         (VDict d)
       = (failure_series id kinds <$> distinct kinds, Ok tt)
       ∧ NoDup (distinct kinds)
       ∧ (∀ k, k ∈ distinct kinds ↔ k ∈ kinds)
       ∧ (∀ k, s_value (failure_series id kinds k)
               = VInt (Z.of_nat (length (filter (λ y, y = k) kinds))))).
Proof.
  intros Hid. split.
  - intros [Hf|Hf]; unfold NodeHealthCheckFailuresMetric.add; cbn;
      rewrite Hf; cbn; by rewrite Hid.
  - intros events kinds Hf Hne Hev. split_and!.
    + unfold NodeHealthCheckFailuresMetric.add.
      cbn -[NodeHealthCheckFailuresMetric.count_errors
              NodeHealthCheckFailuresMetric.add_errors].
      rewrite Hf.
      cbn -[NodeHealthCheckFailuresMetric.count_errors
              NodeHealthCheckFailuresMetric.add_errors].
      destruct events as [|e events]; [done|].
      cbn -[NodeHealthCheckFailuresMetric.count_errors
              NodeHealthCheckFailuresMetric.add_errors].
      change (@nil (key * (value * Z))) with (tally [] (distinct [])).
      rewrite (count_errors_tally _ kinds []) by done.
      cbn -[NodeHealthCheckFailuresMetric.add_errors tally distinct].
      by rewrite (add_errors_tally d id) by done.
    + apply NoDup_distinct.
    + apply elem_of_distinct.
    + done.
Qed.

Lemma health_check_failures_by_kind_witness :
  NodeHealthCheckFailuresMetric.add NodeHealthCheckFailuresMetric.__init__
    (obj [("id", VStr "A");
          ("HealthCheckFailures",
           VList [obj [("error", VStr "timeout")];
                  obj [("error", VStr "timeout")];
                  obj [("error", VStr "dns")]])])
  = ([mkSample "saturn_node_health_check_failures"
               [("id", VStr "A"); ("error", VStr "timeout")] (VInt 2);
      mkSample "saturn_node_health_check_failures"
               [("id", VStr "A"); ("error", VStr "dns")] (VInt 1)],
     Ok tt).
Proof.
  refine (proj1 (proj2 (health_check_failures_by_kind _ (VStr "A") _)
                   _ ["timeout"; "timeout"; "dns"] _ _ _)).
  - vm_compute; reflexivity.
  - vm_compute; reflexivity.
  - discriminate.
  - repeat constructor; eexists; (split; [reflexivity|vm_compute; reflexivity]).
Defined.

(** *** The earnings families *)

(** C7, as stated, fails for the payout family: it reads [payoutStatus]
    without a test, so a record without the field raises [KeyError]. *)
Lemma payout_status_is_required :
  NodePayoutInfoMetric.add NodePayoutInfoMetric.__init__
    (obj [("nodeId", VStr "n")])
  = ([], Raise KeyError)
  ∧ ¬ (∀ d id,
         d !! "nodeId" = Some id → d !! "payoutStatus" = None →
         NodePayoutInfoMetric.add NodePayoutInfoMetric.__init__ (VDict d)
         = ([], Ok tt)).
Proof.
  split; [vm_compute; reflexivity|].
  intros H.
  pose proof (H (list_to_map [("nodeId", VStr "n")]) (VStr "n")) as Hc.
  vm_compute in Hc. specialize (Hc eq_refl eq_refl). discriminate.
Qed.

(** C7, amended: for an earnings record with a [nodeId], each of the four
    families estimated earnings, uptime completion, retrievals and bandwidth
    served emits one series labelled with the id when its field has a value
    other than [None], and nothing, without failing, when the field is
    absent; the payout family emits one info series with the labels [id] and
    [status] when [payoutStatus] is there and raises [KeyError] when it is
    not. *)
Theorem earnings_families d id :
  d !! "nodeId" = Some id →
  NodeEstimatedEarningsMetric.add NodeEstimatedEarningsMetric.__init__ (VDict d)
  = (optional_series "saturn_node_estimated_earnings_fil_total" id
       (d !! "filAmount"), Ok tt)
  ∧ NodeUptimeCompletionMetric.add NodeUptimeCompletionMetric.__init__ (VDict d)
    = (optional_series "saturn_node_uptime_completion_ratio" id
         (d !! "uptimeCompletion"), Ok tt)
  ∧ NodeRetrievalsMetric.add NodeRetrievalsMetric.__init__ (VDict d)
    = (optional_series "saturn_node_retrievals_total" id
         (d !! "numRequests"), Ok tt)
  ∧ NodeBandwidthServedMetric.add NodeBandwidthServedMetric.__init__ (VDict d)
    = (optional_series "saturn_node_bandwidth_served_bytes_total" id
         (d !! "numBytes"), Ok tt)
  ∧ (∀ status,
       d !! "payoutStatus" = Some status →
       NodePayoutInfoMetric.add NodePayoutInfoMetric.__init__ (VDict d)
       = ([mkSample "saturn_node_payout_info"
                    [("id", id); ("status", status)] (VInt 1)],
          Ok tt))
  ∧ (d !! "payoutStatus" = None →
     NodePayoutInfoMetric.add NodePayoutInfoMetric.__init__ (VDict d)
     = ([], Raise KeyError)).
Proof.
  intros Hid. split_and!.
  - unfold NodeEstimatedEarningsMetric.add. cbn.
    destruct (d !! "filAmount") as [[]|]; cbn; by rewrite ?Hid.
  - unfold NodeUptimeCompletionMetric.add. cbn.
    destruct (d !! "uptimeCompletion") as [[]|]; cbn; by rewrite ?Hid.
  - unfold NodeRetrievalsMetric.add. cbn.
    destruct (d !! "numRequests") as [[]|]; cbn; by rewrite ?Hid.
  - unfold NodeBandwidthServedMetric.add. cbn.
    destruct (d !! "numBytes") as [[]|]; cbn; by rewrite ?Hid.
  - intros status Hs. unfold NodePayoutInfoMetric.add. cbn.
    by rewrite Hid, Hs.
  - intros Hs. unfold NodePayoutInfoMetric.add. cbn. by rewrite Hid, Hs.
Qed.

Lemma earnings_families_witness :
  NodeRetrievalsMetric.add NodeRetrievalsMetric.__init__
    (obj [("nodeId", VStr "n"); ("payoutStatus", VStr "valid");
          ("numRequests", VInt 12)])
  = ([mkSample "saturn_node_retrievals_total" [("id", VStr "n")] (VInt 12)],
     Ok tt).
Proof.
  refine (proj1 (proj2 (proj2 (earnings_families _ (VStr "n") _))));
    vm_compute; reflexivity.
Defined.

(** *** The object store *)

Lemma py_bind_run {A B} (m : Py A) (f : A → Py B) h :
  (m ≫= f) h
  = match m h with
    | (Ok a, h') => f a h'
    | (Raise e, h') => (Raise e, h')
    end.
Proof. reflexivity. Qed.

Lemma py_ret_run {A} (a : A) h : (mret a : Py A) h = (Ok a, h).
Proof. reflexivity. Qed.

Lemma new_all_spec ms h :
  new_all ms h = (Ok (seq (length h) (length ms)), h ++ ms).
Proof.
  revert h. induction ms as [|m ms IH]; intros h.
  - by rewrite app_nil_r.
  - cbn [new_all]. rewrite py_bind_run. unfold new at 1.
    rewrite py_bind_run, IH, py_ret_run.
    rewrite length_app, Nat.add_1_r, <- app_assoc. reflexivity.
Qed.

Lemma call_middle {A} (method : Metric → Emit A) h1 self h2 :
  call (length h1) method (h1 ++ self :: h2)
  = (outcome (method self),
     h1 ++ append_samples self (emitted (method self)) :: h2).
Proof.
  unfold call. rewrite list_lookup_middle by done.
  destruct (method self) as [l res]. simpl.
  f_equal. rewrite insert_app_r_alt, Nat.sub_diag by done. reflexivity.
Qed.

Lemma add_list_length `{LocalTime} ms node :
  length (add_list ms node).2 = length ms.
Proof.
  induction ms as [|m ms IH]; [done|].
  simpl. destruct (add m node) as [l [[]|e]]; [|done].
  destruct (add_list ms node). simpl in *. by rewrite IH.
Qed.

Lemma add_each_seq `{LocalTime} ms2 ms1 node :
  add_each (seq (length ms1) (length ms2)) node (ms1 ++ ms2)
  = ((add_list ms2 node).1, ms1 ++ (add_list ms2 node).2).
Proof.
  revert ms1. induction ms2 as [|m ms2 IH]; intros ms1; [done|].
  cbn [length seq add_each add_list].
  rewrite py_bind_run, call_middle.
  unfold outcome, emitted.
  destruct (add m node) as [l [[]|e]]; simpl; [|done].
  replace (ms1 ++ append_samples m l :: ms2)
    with ((ms1 ++ [append_samples m l]) ++ ms2) by (by rewrite <- app_assoc).
  replace (S (length ms1)) with (length (ms1 ++ [append_samples m l]))
    by (rewrite length_app; simpl; lia).
  rewrite IH. destruct (add_list ms2 node). simpl.
  by rewrite <- app_assoc.
Qed.

(** *** The requirements *)

Lemma requirements_run `{LocalTime} requirements h :
  RequirementsCollector._node_requirements_metrics requirements h
  = match add_list RequirementsCollector.metric_classes requirements with
    | (Ok _, ms) => (Ok (seq (length h) 7), h ++ ms)
    | (Raise e, ms) => (Raise e, h ++ ms)
    end.
Proof.
  unfold RequirementsCollector._node_requirements_metrics.
  rewrite py_bind_run, new_all_spec, py_bind_run.
  change (length RequirementsCollector.metric_classes) with 7%nat.
  rewrite (add_each_seq RequirementsCollector.metric_classes h).
  by destruct (add_list _ _) as [[[]|e] ms].
Qed.

(** C8: from a requirements record with all 7 fields, the collector returns
    7 new families with one series each, without labels, carrying the value
    of the field; when any of the 7 fields is missing the collector raises
    [KeyError] and returns no family at all. *)
Theorem requirements_all_fields_required `{LocalTime} d h :
  (∀ v1 v2 v3 v4 v5 v6 v7,
     d !! "minCPUCores" = Some v1 → d !! "minMemoryGB" = Some v2 →
     d !! "minUploadSpeedMbps" = Some v3 →
     d !! "minDownloadSpeedMbps" = Some v4 →
     d !! "minDiskGB" = Some v5 → d !! "lastVersion" = Some v6 →
     d !! "minVersion" = Some v7 →
     ∃ refs h',
       RequirementsCollector._node_requirements_metrics (VDict d) h
       = (Ok refs, h')
       ∧ deref h' refs
         = Some <$>
           [with_samples NodeRequirementsMinCPUCoresMetric.__init__
              [mkSample "saturn_node_requirements_min_cpu_cores" [] v1];
            with_samples NodeRequirementsMinMemoryMetric.__init__
              [mkSample "saturn_node_requirements_min_memory_gigabytes" [] v2];
            with_samples NodeRequirementsMinUploadSpeedMetric.__init__
              [mkSample "saturn_node_requirements_min_upload_speed_mbps" [] v3];
            with_samples NodeRequirementsMinDownloadSpeedMetric.__init__
              [mkSample "saturn_node_requirements_min_download_speed_mbps" []
                        v4];
            with_samples NodeRequirementsMinDiskMetric.__init__
              [mkSample "saturn_node_requirements_min_disk_gigabytes" [] v5];
            with_samples NodeRequirementsLastVersionMetric.__init__
              [mkSample "saturn_node_requirements_last_version" [] v6];
            with_samples NodeRequirementsMinVersionMetric.__init__
              [mkSample "saturn_node_requirements_min_version" [] v7]])
  ∧ (d !! "minCPUCores" = None ∨ d !! "minMemoryGB" = None
     ∨ d !! "minUploadSpeedMbps" = None ∨ d !! "minDownloadSpeedMbps" = None
     ∨ d !! "minDiskGB" = None ∨ d !! "lastVersion" = None
     ∨ d !! "minVersion" = None →
     (RequirementsCollector._node_requirements_metrics (VDict d) h).1
     = Raise KeyError).
Proof.
  split.
  - intros v1 v2 v3 v4 v5 v6 v7 H1 H2 H3 H4 H5 H6 H7.
    rewrite requirements_run. cbn. rewrite H1, H2, H3, H4, H5, H6, H7. cbn.
    eexists _, _. split; [reflexivity|].
    unfold deref. cbn [fmap list_fmap seq].
    rewrite !(lookup_app_r h) by lia.
    replace (length h - length h)%nat with 0%nat by lia.
    replace (S (length h) - length h)%nat with 1%nat by lia.
    replace (S (S (length h)) - length h)%nat with 2%nat by lia.
    replace (S (S (S (length h))) - length h)%nat with 3%nat by lia.
    replace (S (S (S (S (length h)))) - length h)%nat with 4%nat by lia.
    replace (S (S (S (S (S (length h))))) - length h)%nat with 5%nat by lia.
    replace (S (S (S (S (S (S (length h)))))) - length h)%nat with 6%nat by lia.
    reflexivity.
  - intros Hmiss. rewrite requirements_run. cbn.
    destruct (d !! "minCPUCores"); cbn; [|done].
    destruct (d !! "minMemoryGB"); cbn; [|done].
    destruct (d !! "minUploadSpeedMbps"); cbn; [|done].
    destruct (d !! "minDownloadSpeedMbps"); cbn; [|done].
    destruct (d !! "minDiskGB"); cbn; [|done].
    destruct (d !! "lastVersion"); cbn; [|done].
    destruct (d !! "minVersion"); cbn; [|done].
    by destruct Hmiss as [?|[?|[?|[?|[?|[?|?]]]]]].
Qed.

Lemma requirements_all_fields_required_witness :
  (∃ refs h',
     @RequirementsCollector._node_requirements_metrics utc
       (obj [("minCPUCores", VInt 6); ("minMemoryGB", VInt 32);
             ("minUploadSpeedMbps", VInt 10000);
             ("minDownloadSpeedMbps", VInt 1000); ("minDiskGB", VInt 1000);
             ("lastVersion", VStr "1.0"); ("minVersion", VStr "0.9")]) []
     = (Ok refs, h')
     ∧ fmap (M := option) samples <$> deref h' refs
       = [Some [mkSample "saturn_node_requirements_min_cpu_cores" [] (VInt 6)];
          Some [mkSample "saturn_node_requirements_min_memory_gigabytes" []
                         (VInt 32)];
          Some [mkSample "saturn_node_requirements_min_upload_speed_mbps" []
                         (VInt 10000)];
          Some [mkSample "saturn_node_requirements_min_download_speed_mbps" []
                         (VInt 1000)];
          Some [mkSample "saturn_node_requirements_min_disk_gigabytes" []
                         (VInt 1000)];
          Some [mkSample "saturn_node_requirements_last_version" []
                         (VStr "1.0")];
          Some [mkSample "saturn_node_requirements_min_version" []
                         (VStr "0.9")]])
  ∧ (@RequirementsCollector._node_requirements_metrics utc
       (obj [("minCPUCores", VInt 6); ("minMemoryGB", VInt 32);
             ("minUploadSpeedMbps", VInt 10000); ("minDiskGB", VInt 1000);
             ("lastVersion", VStr "1.0"); ("minVersion", VStr "0.9")]) []).1
    = Raise KeyError.
Proof.
  split.
  - destruct (proj1 (@requirements_all_fields_required utc
                       (list_to_map
                          [("minCPUCores", VInt 6); ("minMemoryGB", VInt 32);
                           ("minUploadSpeedMbps", VInt 10000);
                           ("minDownloadSpeedMbps", VInt 1000);
                           ("minDiskGB", VInt 1000);
                           ("lastVersion", VStr "1.0");
                           ("minVersion", VStr "0.9")]) [])
                (VInt 6) (VInt 32) (VInt 10000) (VInt 1000) (VInt 1000)
                (VStr "1.0") (VStr "0.9"))
      as (refs & h' & Hrun & Hobjs); [vm_compute; reflexivity..|].
    exists refs, h'. split; [exact Hrun|]. rewrite Hobjs. reflexivity.
  - refine (proj2 (@requirements_all_fields_required utc _ []) _).
    do 3 right. left. vm_compute; reflexivity.
Defined.

(** *** Empty sub-records *)

Lemma truthy_empty_dict : truthy (VDict ∅) = false.
Proof. reflexivity. Qed.

Lemma add_errors_delete self d k errors :
  k ≠ "id" →
  NodeHealthCheckFailuresMetric.add_errors self (VDict (delete k d)) errors
  = NodeHealthCheckFailuresMetric.add_errors self (VDict d) errors.
Proof.
  intros Hk. induction errors as [|[h [x n]] errors IH]; [done|].
  cbn [NodeHealthCheckFailuresMetric.add_errors]. rewrite IH.
  cbn. by rewrite lookup_delete_ne.
Qed.

#[local] Arguments _str_to_timestamp : simpl never.
#[local] Arguments truthy : simpl never.
#[local] Arguments float_repr : simpl never.
#[local] Arguments int_of_float : simpl never.
#[local] Arguments float_of_Z : simpl never.
#[local] Arguments str_int : simpl never.
#[local] Arguments _bool_to_str : simpl never.
#[local] Arguments slice8 : simpl never.
#[local] Arguments split_underscore_0 : simpl never.
#[local] Arguments iter : simpl never.

(** A key with an empty dict as its value, or without it: the same for the
    methods, which only test the truth value of what [get] returns. *)
Ltac without_key Hk :=
  cbn; rewrite ?lookup_delete_eq, ?Hk; rewrite ?lookup_delete_ne by done;
  rewrite ?truthy_empty_dict;
  first [ reflexivity
        | destruct (_ ≫= _); [|reflexivity];
          rewrite add_errors_delete by done; reflexivity ].

Lemma add_without_empty_speedtest `{LocalTime} d m :
  d !! "speedtest" = Some (VDict ∅) →
  m ∈ NodeInfoMetric.__init__ :: StatsCollector.metric_classes →
  add m (VDict d) = add m (VDict (delete "speedtest" d)).
Proof.
  intros Hk Hm. unfold StatsCollector.metric_classes in Hm.
  repeat (apply elem_of_cons in Hm as [->|Hm]);
    [without_key Hk..|by apply elem_of_nil in Hm].
Qed.

Lemma add_without_empty_ttfb `{LocalTime} d m :
  d !! "ttfbStats" = Some (VDict ∅) →
  m ∈ NodeInfoMetric.__init__ :: StatsCollector.metric_classes →
  add m (VDict d) = add m (VDict (delete "ttfbStats" d)).
Proof.
  intros Hk Hm. unfold StatsCollector.metric_classes in Hm.
  repeat (apply elem_of_cons in Hm as [->|Hm]);
    [without_key Hk..|by apply elem_of_nil in Hm].
Qed.

Lemma info_labels_without_speedtest d s :
  truthy (default VNone (d !! "speedtest")) = false →
  s ∈ emitted (NodeInfoMetric.add NodeInfoMetric.__init__ (VDict d)) →
  (s_labels s).*1
  = ["id"; "id_short"; "state"; "core"; "ip_address"; "sunrise"; "cassini";
     "geoloc_region"; "geoloc_city"; "geoloc_country"; "geoloc_country_code"].
Proof.
  intros Hk. unfold NodeInfoMetric.add, NodeInfoMetric._id_short, getpath.
  cbn. rewrite Hk. cbn.
  repeat (match goal with
          | |- context [d !! ?k] => destruct (d !! k); cbn
          | |- context [slice8 ?x] => destruct (slice8 x); cbn
          | |- context [_bool_to_str ?x] => destruct (_bool_to_str x); cbn
          | |- context [getitem ?x ?k] => destruct (getitem x k); cbn
          end);
    intros Hs; try (by apply elem_of_nil in Hs).
  by apply list_elem_of_singleton in Hs as ->.
Qed.

(** C10: a [speedtest] or [ttfbStats] that is an empty map counts as
    absent.  With [speedtest = {}] every family of the stats collector emits
    what it emits for the record without the key, the three speedtest
    families emit nothing and the info series carries no speedtest label;
    with [ttfbStats = {}] every family emits what it emits for the record
    without the key, and the quantile and the request family emit nothing. *)
Theorem empty_subrecord_counts_as_absent `{LocalTime} d :
  (d !! "speedtest" = Some (VDict ∅) →
   (∀ m, m ∈ NodeInfoMetric.__init__ :: StatsCollector.metric_classes →
         add m (VDict d) = add m (VDict (delete "speedtest" d)))
   ∧ NodeSpeedtestUploadBandwidthMetric.add
       NodeSpeedtestUploadBandwidthMetric.__init__ (VDict d) = ([], Ok tt)
   ∧ NodeSpeedtestDownloadBandwidthMetric.add
       NodeSpeedtestDownloadBandwidthMetric.__init__ (VDict d) = ([], Ok tt)
   ∧ NodeSpeedtestPingLatencyMetric.add
       NodeSpeedtestPingLatencyMetric.__init__ (VDict d) = ([], Ok tt)
   ∧ (∀ s, s ∈ emitted (NodeInfoMetric.add NodeInfoMetric.__init__ (VDict d)) →
           (s_labels s).*1
           = ["id"; "id_short"; "state"; "core"; "ip_address"; "sunrise";
              "cassini"; "geoloc_region"; "geoloc_city"; "geoloc_country";
              "geoloc_country_code"]))
  ∧ (d !! "ttfbStats" = Some (VDict ∅) →
     (∀ m, m ∈ NodeInfoMetric.__init__ :: StatsCollector.metric_classes →
           add m (VDict d) = add m (VDict (delete "ttfbStats" d)))
     ∧ NodeResponseDurationMetric.add
         NodeResponseDurationMetric.__init__ (VDict d) = ([], Ok tt)
     ∧ NodeRequestsMetric.add NodeRequestsMetric.__init__ (VDict d)
       = ([], Ok tt)).
Proof.
  split; intros Hk; split_and!.
  - intros m. by apply add_without_empty_speedtest.
  - cbn. by rewrite Hk.
  - cbn. by rewrite Hk.
  - cbn. by rewrite Hk.
  - intros s. apply info_labels_without_speedtest. by rewrite Hk.
  - intros m. by apply add_without_empty_ttfb.
  - cbn. by rewrite Hk.
  - cbn. by rewrite Hk.
Qed.

Lemma empty_subrecord_counts_as_absent_witness :
  NodeSpeedtestPingLatencyMetric.add NodeSpeedtestPingLatencyMetric.__init__
    (obj [("id", VStr "A"); ("speedtest", VDict ∅)])
  = ([], Ok tt)
  ∧ NodeRequestsMetric.add NodeRequestsMetric.__init__
      (obj [("id", VStr "A"); ("ttfbStats", VDict ∅)])
    = ([], Ok tt).
Proof.
  split.
  - refine (proj1 (proj2 (proj2 (proj2
              (proj1 (@empty_subrecord_counts_as_absent utc _) _))))).
    vm_compute; reflexivity.
  - refine (proj2 (proj2
              (proj2 (@empty_subrecord_counts_as_absent utc _) _))).
    vm_compute; reflexivity.
Defined.

(** *** A collector works on the objects it creates

    Run in a store [h ++ ms], the loops of a collector do what they do in
    the store [ms], next to [h]. *)

Lemma beside_bind {A B} h (m m' : Py A) (f f' : A → Py B) ms :
  m (h ++ ms) = beside h (m' ms) →
  (∀ a ms', f a (h ++ ms') = beside h (f' a ms')) →
  (m ≫= f) (h ++ ms) = beside h ((m' ≫= f') ms).
Proof.
  intros Hm Hf. rewrite !py_bind_run, Hm.
  destruct (m' ms) as [[a|e] ms']; simpl; [apply Hf|done].
Qed.

Lemma beside_pure {A} h (r : result A) ms :
  pure r (h ++ ms) = beside h (pure r ms).
Proof. done. Qed.

Lemma beside_call {A} (method : Metric → Emit A) h ms i :
  call (length h + i) method (h ++ ms) = beside h (call i method ms).
Proof.
  unfold call, beside. rewrite lookup_app_r, Nat.add_sub' by lia.
  destruct (ms !! i) as [self|]; [|done].
  destruct (method self) as [l res]. simpl.
  by rewrite insert_app_r.
Qed.

Lemma beside_add_each `{LocalTime} idxs node h ms :
  add_each ((λ i, length h + i)%nat <$> idxs) node (h ++ ms)
  = beside h (add_each idxs node ms).
Proof.
  revert ms. induction idxs as [|i idxs IH]; intros ms; [done|].
  rewrite fmap_cons. cbn [add_each].
  apply beside_bind; [apply beside_call|]. intros _ ms'. apply IH.
Qed.

Lemma beside_for_nodes `{LocalTime} self idxs stats found h ms :
  StatsCollector.for_nodes self ((λ i, length h + i)%nat <$> idxs)
    stats found (h ++ ms)
  = beside h (StatsCollector.for_nodes self idxs stats found ms).
Proof.
  revert found ms. induction stats as [|node stats IH]; intros found ms; [done|].
  cbn [StatsCollector.for_nodes].
  apply beside_bind; [apply beside_pure|]. intros [] ms1; [apply IH|].
  apply beside_bind; [apply beside_pure|]. intros k ms2.
  apply beside_bind; [apply beside_add_each|]. intros _ ms3. apply IH.
Qed.

Lemma beside_for_inactive i ids h ms :
  StatsCollector.for_inactive (length h + i) ids (h ++ ms)
  = beside h (StatsCollector.for_inactive i ids ms).
Proof.
  revert ms. induction ids as [|x ids IH]; intros ms; [done|].
  cbn [StatsCollector.for_inactive].
  apply beside_bind; [apply beside_call|]. intros _ ms'. apply IH.
Qed.

(** In a store [h], the stats collector creates its 27 objects after
    those of [h], runs its loops on them and returns their references. *)
Lemma stats_run `{LocalTime} `{SetOrder} self stats h :
  StatsCollector._node_metrics_from_stats self stats h
  = ((λ _, seq (length h) 27) <$> (stats_objects self stats).1,
     h ++ (stats_objects self stats).2).
Proof.
  unfold StatsCollector._node_metrics_from_stats, stats_objects.
  rewrite py_bind_run. unfold new at 1.
  rewrite py_bind_run, new_all_spec.
  set (others := StatsCollector.metric_classes).
  rewrite length_app. cbn [length].
  replace (length h :: seq (length h + 1) (length others))
    with ((λ i, length h + i)%nat <$> seq 0 27).
  2:{ by rewrite fmap_add_seq, Nat.add_0_r, Nat.add_1_r. }
  rewrite <- app_assoc. cbn [app].
  set (ms := NodeInfoMetric.__init__ :: others).
  rewrite py_bind_run. unfold pure at 1.
  destruct (iter stats) as [nodes|e]; [|done].
  rewrite py_bind_run, beside_for_nodes.
  destruct (StatsCollector.for_nodes _ _ _ _ _) as [[found|e] ms1];
    [|done].
  unfold beside. cbn [fst snd].
  rewrite py_bind_run.
  rewrite <- (Nat.add_0_r (length h)) at 1. rewrite beside_for_inactive.
  destruct (StatsCollector.for_inactive _ _ _) as [[[]|e] ms2]; [|done].
  unfold beside. cbn [fst snd]. rewrite py_ret_run.
  by rewrite fmap_add_seq, Nat.add_0_r.
Qed.

Lemma call_length {A} (method : Metric → Emit A) ms i :
  length (call i method ms).2 = length ms.
Proof.
  unfold call. destruct (ms !! i) as [self|]; [|done].
  destruct (method self). simpl. by rewrite length_insert.
Qed.

Lemma bind_length {A B} (m : Py A) (f : A → Py B) ms :
  length (m ms).2 = length ms →
  (∀ a ms', length (f a ms').2 = length ms') →
  length ((m ≫= f) ms).2 = length ms.
Proof.
  intros Hm Hf. rewrite py_bind_run.
  destruct (m ms) as [[a|e] ms']; simpl in *; [|done].
  by rewrite Hf.
Qed.

Lemma add_each_length `{LocalTime} idxs node ms :
  length (add_each idxs node ms).2 = length ms.
Proof.
  revert ms. induction idxs as [|i idxs IH]; intros ms; [done|].
  cbn [add_each]. apply bind_length; [apply call_length|]. intros _ ms'. apply IH.
Qed.

Lemma for_nodes_length `{LocalTime} self idxs stats found ms :
  length (StatsCollector.for_nodes self idxs stats found ms).2 = length ms.
Proof.
  revert found ms. induction stats as [|node stats IH]; intros found ms; [done|].
  cbn [StatsCollector.for_nodes].
  apply bind_length; [done|]. intros [] ms1; [apply IH|].
  apply bind_length; [done|]. intros k ms2.
  apply bind_length; [apply add_each_length|]. intros _ ms3. apply IH.
Qed.

Lemma for_inactive_length i ids ms :
  length (StatsCollector.for_inactive i ids ms).2 = length ms.
Proof.
  revert ms. induction ids as [|x ids IH]; intros ms; [done|].
  cbn [StatsCollector.for_inactive].
  apply bind_length; [apply call_length|]. intros _ ms'. apply IH.
Qed.

Lemma stats_objects_length `{LocalTime} `{SetOrder} self stats :
  length (stats_objects self stats).2 = 27%nat.
Proof.
  unfold stats_objects. destruct (iter stats) as [nodes|e]; [|done].
  pose proof (for_nodes_length self (seq 0 27) nodes []
                (NodeInfoMetric.__init__ :: StatsCollector.metric_classes))
    as Hn.
  destruct (StatsCollector.for_nodes _ _ _ _ _) as [[found|e] ms1];
    simpl in Hn; [|done].
  by rewrite for_inactive_length.
Qed.

Lemma deref_beside h ms ms' :
  deref (h ++ ms ++ ms') (seq (length h) (length ms)) = Some <$> ms.
Proof.
  unfold deref. rewrite <- (Nat.add_0_r (length h)), <- fmap_add_seq.
  rewrite <- list_fmap_compose.
  apply list_eq. intros i. rewrite !list_lookup_fmap.
  destruct (decide (i < length ms)%nat) as [Hi|Hi].
  - rewrite lookup_seq_lt by done. simpl.
    rewrite lookup_app_r, Nat.add_sub', lookup_app_l by lia.
    by destruct (lookup_lt_is_Some_2 ms i Hi) as [m ->].
  - rewrite lookup_seq_ge, (lookup_ge_None_2 ms) by lia. done.
Qed.

(** C9: the stats collector keeps no state between two runs.  Run twice on
    the same allow-list and the same input, the second run in the store the
    first one left, it returns objects equal to those of the first run,
    family by family and sample by sample, in the same order, or it raises
    the same exception; and the second run leaves the objects of the first
    as they were. *)
Theorem two_runs_return_the_same `{LocalTime} `{SetOrder} self stats h :
  let run1 := StatsCollector._node_metrics_from_stats self stats h in
  let run2 := StatsCollector._node_metrics_from_stats self stats run1.2 in
  returned run2 = returned run1
  ∧ deref run2.2 <$> run1.1 = returned run1.
Proof.
  cbn zeta. rewrite !stats_run. unfold returned. cbn [fst snd].
  pose proof (stats_objects_length self stats) as Hlen.
  destruct (stats_objects self stats) as [[[]|e] ms]; [|done].
  cbn [fst snd fmap result_fmap] in *. rewrite <- Hlen.
  pose proof (deref_beside h ms []) as H1.
  pose proof (deref_beside (h ++ ms) ms []) as H2.
  pose proof (deref_beside h ms ms) as H3.
  rewrite app_nil_r in H1, H2. rewrite app_assoc in H3.
  by rewrite H1, H2, H3.
Qed.

(** *** What the stats collector returns *)

Lemma add_errors_with_samples m l node errors :
  NodeHealthCheckFailuresMetric.add_errors (with_samples m l) node errors
  = NodeHealthCheckFailuresMetric.add_errors m node errors.
Proof.
  induction errors as [|[k [x n]] errors IH]; [done|].
  cbn [NodeHealthCheckFailuresMetric.add_errors]. by rewrite IH.
Qed.

Lemma add_with_samples `{LocalTime} m l node :
  add (with_samples m l) node = add m node.
Proof.
  destruct m as [c n doc ty ln sa]. destruct c; try reflexivity.
  unfold add, NodeHealthCheckFailuresMetric.add. cbn [cls with_samples].
  destruct (lift (get node _)) as [l0 [failures|e]]; [|done].
  cbn [mbind emit_bind]. destruct (negb _); [done|].
  destruct (lift _) as [l1 [errors|e]]; [|done].
  cbn [mbind emit_bind].
  by rewrite add_errors_with_samples.
Qed.

Lemma projected_with_samples `{LocalTime} m l nodes :
  projected (with_samples m l) nodes = projected m nodes.
Proof.
  unfold projected. induction nodes as [|node nodes IH]; [done|].
  simpl. by rewrite IH, add_with_samples.
Qed.

Lemma add_list_ok `{LocalTime} ms node ms' :
  add_list ms node = (Ok tt, ms') →
  ms' = (λ m, append_samples m (emitted (add m node))) <$> ms.
Proof.
  revert ms'. induction ms as [|m ms IH]; intros ms'; simpl.
  - by intros [= <-].
  - destruct (add m node) as [l [[]|e]]; [|done].
    destruct (add_list ms node) as [r ms''].
    intros [= -> <-]. by rewrite (IH ms'').
Qed.

Lemma append_append m l1 l2 :
  append_samples (append_samples m l1) l2 = append_samples m (l1 ++ l2).
Proof. unfold append_samples, with_samples. simpl. by rewrite app_assoc. Qed.

Lemma hash_key_str v x : hash_key v = Ok (KStr x) ↔ v = VStr x.
Proof.
  split; [|by intros ->].
  destruct v as [|b|n|f|s|l|d]; simpl; try done.
  - by destruct (float_integral f).
  - by intros [= <-].
Qed.

Lemma matches_hashed S node v k :
  getitem node "id" = Ok v → hash_key v = Ok k →
  matches S node = bool_decide (S = ∅) || key_in k S.
Proof.
  intros Hid Hk. unfold matches. rewrite Hid. f_equal.
  destruct k as [| | |x]; simpl.
  - by destruct v.
  - by destruct v.
  - by destruct v.
  - by apply hash_key_str in Hk as ->.
Qed.

Lemma observed_cons_hashed node nodes v k x :
  getitem node "id" = Ok v → hash_key v = Ok k →
  x ∈ observed (node :: nodes) ↔ k = KStr x ∨ x ∈ observed nodes.
Proof.
  intros Hid Hk. unfold observed. simpl. rewrite Hid.
  destruct v as [|b|n|f|s|l|d]; simpl in *; simplify_eq;
    rewrite ?elem_of_cons; try naive_solver.
  destruct (float_integral f); naive_solver.
Qed.

Lemma elem_of_found_add k k' found :
  k' ∈ found_add k found ↔ k' = k ∨ k' ∈ found.
Proof.
  unfold found_add. destruct (decide (k ∈ found)).
  - naive_solver.
  - rewrite elem_of_app, list_elem_of_singleton. naive_solver.
Qed.

Lemma for_nodes_ok `{LocalTime} S stats found ms found' ms' :
  StatsCollector.for_nodes (StatsCollector.mk S) (seq 0 (length ms)) stats
    found ms = (Ok found', ms') →
  let P := filter (λ node, matches S node = true) stats in
  ms' = (λ m, append_samples m (projected m P)) <$> ms
  ∧ ∀ x, KStr x ∈ found' ↔ KStr x ∈ found ∨ x ∈ observed P.
Proof.
  revert found ms. induction stats as [|node stats IH]; intros found ms.
  - intros [= <- <-]. split.
    + rewrite <- (list_fmap_id ms) at 1. apply list_fmap_ext.
      intros _ [c n doc ty ln sa] _. unfold append_samples, with_samples.
      simpl. by rewrite app_nil_r.
    + intros x. unfold observed. simpl. rewrite elem_of_nil. naive_solver.
  - cbn [StatsCollector.for_nodes]. rewrite py_bind_run. unfold pure at 1.
    cbn [StatsCollector._node_ids].
    destruct (decide (S = ∅)) as [->|HS].
    + (* no allow-list: every record is projected *)
      rewrite bool_decide_false by (by intros []).
      rewrite py_bind_run. unfold pure at 1.
      destruct (getitem node "id") as [v|e] eqn:Hid; [|done]. cbn [mbind result_bind].
      destruct (hash_key v) as [k|e] eqn:Hk; [|done].
      rewrite py_bind_run.
      rewrite (add_each_seq ms [] node). cbn [app].
      destruct (add_list ms node) as [[[]|e] ms1] eqn:Hadd; [|done].
      cbn [fst snd]. intros Hrun.
      apply add_list_ok in Hadd as ->.
      rewrite <- (length_fmap (λ m, append_samples m (emitted (add m node))))
        in Hrun.
      apply IH in Hrun as [-> Hfound].
      rewrite filter_cons_True
        by (by rewrite (matches_hashed _ _ _ _ Hid Hk), bool_decide_true).
      split.
      * rewrite <- list_fmap_compose. apply list_fmap_ext. intros _ m _.
        simpl. rewrite append_append. do 2 f_equal.
        apply projected_with_samples.
      * intros x. rewrite Hfound, elem_of_found_add.
        rewrite (observed_cons_hashed _ _ _ _ _ Hid Hk). naive_solver.
    + rewrite bool_decide_true by done.
      destruct (getitem node "id") as [v|e] eqn:Hid; [|done]. cbn [mbind result_bind].
      destruct (hash_key v) as [k|e] eqn:Hk; [|done]. cbn [mbind result_bind].
      pose proof (matches_hashed S _ _ _ Hid Hk) as Hm.
      rewrite bool_decide_false in Hm by done. cbn [orb] in Hm.
      destruct (key_in k S) eqn:Hin; cbn [negb]; cbv beta iota.
      * (* the id is in the allow-list *)
        rewrite py_bind_run. unfold pure at 1. rewrite py_bind_run.
        rewrite (add_each_seq ms [] node). cbn [app].
        destruct (add_list ms node) as [[[]|e] ms1] eqn:Hadd; [|done].
        cbn [fst snd]. intros Hrun.
        apply add_list_ok in Hadd as ->.
        rewrite <- (length_fmap (λ m, append_samples m (emitted (add m node))))
          in Hrun.
        apply IH in Hrun as [-> Hfound].
        rewrite filter_cons_True by done.
        split.
        -- rewrite <- list_fmap_compose. apply list_fmap_ext. intros _ m _.
           simpl. rewrite append_append. do 2 f_equal.
           apply projected_with_samples.
        -- intros x. rewrite Hfound, elem_of_found_add.
           rewrite (observed_cons_hashed _ _ _ _ _ Hid Hk). naive_solver.
      * (* the record is skipped *)
        intros Hrun. apply IH in Hrun.
        by rewrite filter_cons_False by (by rewrite Hm).
Qed.

Lemma for_inactive_info ids l ms :
  StatsCollector.for_inactive 0 ids (with_samples NodeInfoMetric.__init__ l :: ms)
  = (Ok tt,
     with_samples NodeInfoMetric.__init__ (l ++ (inactive_series <$> ids)) :: ms).
Proof.
  revert l. induction ids as [|i ids IH]; intros l.
  - by rewrite app_nil_r.
  - cbn [StatsCollector.for_inactive]. rewrite py_bind_run.
    pose proof (call_middle
                  (λ self, NodeInfoMetric.add_inactive self (VStr i))
                  [] (with_samples NodeInfoMetric.__init__ l) ms) as Hc.
    cbn [length app] in Hc. rewrite Hc. clear Hc.
    cbn [app outcome emitted fst snd].
    unfold append_samples. cbn [with_samples samples cls name documentation
                                  typ labelnames NodeInfoMetric.__init__
                                  InfoMetricFamily.__init__].
    change (NodeInfoMetric.add_inactive _ (VStr i))
      with ([inactive_series i], Ok tt).
    unfold outcome, emitted. cbn [fst snd].
    change (with_samples (with_samples NodeInfoMetric.__init__ l)
              (l ++ [inactive_series i]))
      with (with_samples NodeInfoMetric.__init__ (l ++ [inactive_series i])).
    rewrite (IH (l ++ [inactive_series i])).
    by rewrite <- app_assoc.
Qed.

Lemma set_difference_observed S found P :
  (∀ x, KStr x ∈ found ↔ x ∈ observed P) →
  set_difference S found = S ∖ list_to_set (observed P).
Proof.
  intros Hfound. apply set_eq. intros x. unfold set_difference.
  rewrite elem_of_filter, elem_of_difference, elem_of_list_to_set.
  specialize (Hfound x). tauto.
Qed.

Lemma matches_iff S node :
  matches S node = true ↔
  S = ∅ ∨ ∃ s, getitem node "id" = Ok (VStr s) ∧ s ∈ S.
Proof.
  unfold matches. rewrite orb_true_iff, bool_decide_eq_true.
  destruct (getitem node "id") as [[]|]; try naive_solver.
  rewrite bool_decide_eq_true. naive_solver.
Qed.

Lemma stats_objects_ok `{LocalTime} `{SetOrder} S L r ms :
  stats_objects (StatsCollector.mk S) (VList L) = (Ok r, ms) →
  let P := filter (λ node, matches S node = true) L in
  ms = with_samples NodeInfoMetric.__init__
         (projected NodeInfoMetric.__init__ P
          ++ (inactive_series
                <$> set_iter (S ∖ list_to_set (observed P))))
       :: ((λ m, append_samples m (projected m P))
             <$> StatsCollector.metric_classes).
Proof.
  intros Hrun P. unfold stats_objects in Hrun.
  change (iter (VList L)) with (Ok L) in Hrun. cbv beta iota zeta in Hrun.
  change 27%nat
    with (length (NodeInfoMetric.__init__ :: StatsCollector.metric_classes))
    in Hrun.
  destruct (StatsCollector.for_nodes _ _ _ _ _) as [[found|e] ms1] eqn:Hloop;
    [|done].
  apply for_nodes_ok in Hloop as [-> Hfound]. fold P in Hfound.
  cbn [StatsCollector._node_ids] in Hrun.
  rewrite (set_difference_observed _ _ P) in Hrun
    by (intros x; rewrite Hfound, elem_of_nil; naive_solver).
  rewrite fmap_cons in Hrun.
  change (append_samples NodeInfoMetric.__init__
            (projected NodeInfoMetric.__init__ (filter _ L)))
    with (with_samples NodeInfoMetric.__init__
            (projected NodeInfoMetric.__init__ P)) in Hrun.
  rewrite for_inactive_info in Hrun. by injection Hrun as _ <-.
Qed.

(** C5: when the stats collector returns, the records it projected are
    those of the list, in order, for which the allow-list [S] is empty or
    contains the id of the record; every family holds what these records
    made it emit; and the info family holds, after that, one more series for
    each id of [S] that is not the id of a projected record, each exactly
    once, with the labels [id], [id_short] and [state], the state being
    ["inactive"]. *)
Theorem stats_snapshot `{LocalTime} `{SetOrder} S L h refs h' :
  StatsCollector._node_metrics_from_stats (StatsCollector.mk S) (VList L) h
  = (Ok refs, h') →
  let P := filter (λ node, matches S node = true) L in
  let inactive := set_iter (S ∖ list_to_set (observed P)) in
  (∀ node, node ∈ P ↔
           node ∈ L ∧ (S = ∅ ∨ ∃ s, getitem node "id" = Ok (VStr s) ∧ s ∈ S))
  ∧ NoDup inactive
  ∧ (∀ i, i ∈ inactive ↔ i ∈ S ∧ i ∉ observed P)
  ∧ deref h' refs
    = Some (with_samples NodeInfoMetric.__init__
              (projected NodeInfoMetric.__init__ P
               ++ (inactive_series <$> inactive)))
      :: ((λ m, Some (with_samples m (projected m P)))
            <$> StatsCollector.metric_classes)
  ∧ (∀ i, inactive_series i
          = mkSample "saturn_node_info"
              [("id", VStr i); ("id_short", VStr (utf8_take 8 i));
               ("state", VStr "inactive")]
              (VInt 1)).
Proof.
  intros Hrun P inactive. split_and!.
  - intros node. unfold P. rewrite list_elem_of_filter, matches_iff. tauto.
  - unfold inactive. rewrite set_iter_perm. apply NoDup_elements.
  - intros i. unfold inactive.
    rewrite set_iter_perm, elem_of_elements, elem_of_difference,
      elem_of_list_to_set. done.
  - rewrite stats_run in Hrun.
    pose proof (stats_objects_length (StatsCollector.mk S) (VList L)) as Hlen.
    destruct (stats_objects _ _) as [[[]|e] ms] eqn:Hobj; [|done].
    cbn [fst snd fmap result_fmap] in Hrun, Hlen.
    rewrite <- Hlen in Hrun. injection Hrun as <- <-.
    pose proof (deref_beside h ms []) as Hd.
    rewrite app_nil_r in Hd. rewrite Hd.
    apply stats_objects_ok in Hobj as ->.
    by rewrite fmap_cons, <- list_fmap_compose.
  - done.
Qed.

Lemma stats_snapshot_witness :
  let S : gset string := list_to_set ["A"; "B"; "C"] in
  let L := [example_node "A"] in
  let run := @StatsCollector._node_metrics_from_stats utc elements_order
               (StatsCollector.mk S) (VList L) [] in
  let P := filter (λ node, matches S node = true) L in
  deref run.2 (seq 0 27)
  = Some (with_samples NodeInfoMetric.__init__
            (@projected utc NodeInfoMetric.__init__ P
             ++ (inactive_series
                   <$> @set_iter elements_order
                         (S ∖ list_to_set (observed P)))))
    :: ((λ m, Some (with_samples m (@projected utc m P)))
          <$> StatsCollector.metric_classes).
Proof.
  intros S L run P.
  refine (proj1 (proj2 (proj2 (proj2
            (@stats_snapshot utc elements_order S L [] (seq 0 27) run.2 _))))).
  vm_compute; reflexivity.
Defined.

(** The allow-list {A, B, C} and a stats list with A only: the info family
    holds the series of A, then one inactive series for C and one for B (the
    order is that of [elements_order]). *)
Example inactive_B_and_C :
  let run := @StatsCollector._node_metrics_from_stats utc elements_order
               (StatsCollector.__init__ ["A"; "B"; "C"])
               (VList [example_node "A"]) [] in
  samples <$> run.2 !! 0%nat
  = Some [mkSample "saturn_node_info"
            [("id", VStr "A"); ("id_short", VStr "A");
             ("state", VStr "active"); ("core", VStr "false");
             ("ip_address", VStr "192.0.2.1"); ("sunrise", VStr "true");
             ("cassini", VStr "false"); ("geoloc_region", VStr "Bavaria");
             ("geoloc_city", VStr "Munich");
             ("geoloc_country", VStr "Germany");
             ("geoloc_country_code", VStr "DE")]
            (VInt 1);
          mkSample "saturn_node_info"
            [("id", VStr "C"); ("id_short", VStr "C");
             ("state", VStr "inactive")]
            (VInt 1);
          mkSample "saturn_node_info"
            [("id", VStr "B"); ("id_short", VStr "B");
             ("state", VStr "inactive")]
            (VInt 1)].
Proof. vm_compute. reflexivity. Qed.
(** *** Timestamps *)

Lemma mktime_fixed_offset c d :
  @_mktime (fixed_offset c) d = datetime.seconds_since_epoch d - c.
Proof.
  unfold _mktime. cbn [utcoffset fixed_offset].
  set (t := datetime.seconds_since_epoch d).
  replace (t + c - t) with c by lia.
  replace (t - c + c) with t by lia.
  rewrite Z.eqb_refl.
  replace (t - c + - (24 * 3600) + c - (t - c + - (24 * 3600))) with c by lia.
  by rewrite Z.eqb_refl.
Qed.

Lemma is_digit_digit_char n : 0 ≤ n ≤ 9 → is_digit (digit_char n) = true.
Proof.
  intros Hn.
  assert (n = 0 ∨ n = 1 ∨ n = 2 ∨ n = 3 ∨ n = 4 ∨ n = 5 ∨ n = 6 ∨ n = 7
          ∨ n = 8 ∨ n = 9) as Hc by lia.
  repeat destruct Hc as [->|Hc]; try subst n; reflexivity.
Qed.

Lemma digit_char_value n :
  0 ≤ n ≤ 9 → Z.of_nat (nat_of_ascii (digit_char n) - 48) = n.
Proof.
  intros Hn.
  assert (n = 0 ∨ n = 1 ∨ n = 2 ∨ n = 3 ∨ n = 4 ∨ n = 5 ∨ n = 6 ∨ n = 7
          ∨ n = 8 ∨ n = 9) as Hc by lia.
  repeat destruct Hc as [->|Hc]; try subst n; reflexivity.
Qed.

Lemma is_ascii_digit_char n : 0 ≤ n ≤ 9 → is_ascii (digit_char n) = true.
Proof.
  intros Hn.
  assert (n = 0 ∨ n = 1 ∨ n = 2 ∨ n = 3 ∨ n = 4 ∨ n = 5 ∨ n = 6 ∨ n = 7
          ∨ n = 8 ∨ n = 9) as Hc by lia.
  repeat destruct Hc as [->|Hc]; try subst n; reflexivity.
Qed.

Lemma int_digits_pad2 acc n :
  0 ≤ n ≤ 99 → int_digits acc (pad2 n) = 100 * acc + n.
Proof.
  intros Hn. unfold pad2. cbn [int_digits].
  pose proof (Z.div_mod n 10). pose proof (Z.mod_pos_bound n 10).
  assert (0 ≤ n / 10 ≤ 9) by lia.
  assert (0 ≤ n mod 10 ≤ 9) by lia.
  rewrite !is_digit_digit_char, !digit_char_value by done.
  lia.
Qed.

Lemma int_digits_pad3 acc n :
  0 ≤ n ≤ 999 → int_digits acc (pad3 n) = 1000 * acc + n.
Proof.
  intros Hn. unfold pad3. cbn [int_digits].
  pose proof (Z.div_mod n 100). pose proof (Z.mod_pos_bound n 100).
  assert (0 ≤ n / 100 ≤ 9) by lia.
  assert (0 ≤ n mod 100 ≤ 99) by lia.
  rewrite is_digit_digit_char, digit_char_value, int_digits_pad2 by done.
  lia.
Qed.

Lemma int_digits_pad4 acc n :
  0 ≤ n ≤ 9999 → int_digits acc (pad4 n) = 10000 * acc + n.
Proof.
  intros Hn. unfold pad4. cbn [int_digits].
  pose proof (Z.div_mod n 1000). pose proof (Z.mod_pos_bound n 1000).
  assert (0 ≤ n / 1000 ≤ 9) by lia.
  assert (0 ≤ n mod 1000 ≤ 999) by lia.
  rewrite is_digit_digit_char, digit_char_value, int_digits_pad3 by done.
  lia.
Qed.

(** The value [n] of a field is one of finitely many: go through them. *)
Ltac enum_field n lo len :=
  let H := fresh "Hn" in
  assert (H : n ∈ seqZ lo len) by (apply elem_of_seqZ; lia);
  vm_compute in H;
  repeat (apply elem_of_cons in H as [->|H]);
  [..|by apply elem_of_nil in H].

Lemma fmt_group_lit r c f field rest gs rest' others tl :
  re_match r (field +:+ String c rest) = (field, String c rest) :: others →
  fmt_match f rest = (gs, rest') :: tl →
  ∃ tl', fmt_match (Group r :: Lit c :: f) (field +:+ String c rest)
         = (field :: gs, rest') :: tl'.
Proof.
  intros Hr Hf. cbn [fmt_match]. rewrite Hr. cbn [flat_map].
  unfold lit_matches. rewrite bool_decide_true by done. rewrite Hf.
  cbn [fmap list_fmap app]. by eexists.
Qed.

Lemma digits_of_pad n :
  0 ≤ n ≤ 9999 →
  0 ≤ n / 1000 ≤ 9 ∧ 0 ≤ n mod 1000 / 100 ≤ 9
  ∧ 0 ≤ n mod 1000 mod 100 / 10 ≤ 9 ∧ 0 ≤ n mod 1000 mod 100 mod 10 ≤ 9.
Proof.
  intros Hn.
  pose proof (Z.div_mod n 1000). pose proof (Z.mod_pos_bound n 1000).
  pose proof (Z.div_mod (n mod 1000) 100).
  pose proof (Z.mod_pos_bound (n mod 1000) 100).
  pose proof (Z.div_mod (n mod 1000 mod 100) 10).
  pose proof (Z.mod_pos_bound (n mod 1000 mod 100) 10).
  lia.
Qed.

Lemma digits_of_pad3 n :
  0 ≤ n ≤ 999 →
  0 ≤ n / 100 ≤ 9 ∧ 0 ≤ n mod 100 / 10 ≤ 9 ∧ 0 ≤ n mod 100 mod 10 ≤ 9.
Proof.
  intros Hn.
  pose proof (Z.div_mod n 100). pose proof (Z.mod_pos_bound n 100).
  pose proof (Z.div_mod (n mod 100) 10).
  pose proof (Z.mod_pos_bound (n mod 100) 10).
  lia.
Qed.

Lemma append_String a s t : String a s +:+ t = String a (s +:+ t).
Proof. reflexivity. Qed.

Lemma append_empty t : "" +:+ t = t.
Proof. reflexivity. Qed.

Lemma re_Y_pad4 Y rest :
  0 ≤ Y ≤ 9999 → re_match re_Y (pad4 Y +:+ rest) = [(pad4 Y, rest)].
Proof.
  intros (? & ? & ? & ?)%digits_of_pad.
  unfold re_Y, re_d, pad4, pad3, pad2.
  rewrite !append_String, append_empty. cbn [re_match].
  repeat first [ rewrite is_digit_digit_char by done
               | rewrite append_String | rewrite append_empty
               | progress cbn ].
  reflexivity.
Qed.

Lemma re_m_pad2 M rest :
  1 ≤ M ≤ 12 →
  ∃ others, re_match re_m (pad2 M +:+ String "-" rest)
            = (pad2 M, String "-" rest) :: others.
Proof. intros HM. enum_field M 1 12; vm_compute; by eexists. Qed.

Lemma re_day_pad2 D rest :
  1 ≤ D ≤ 31 →
  ∃ others, re_match re_day (pad2 D +:+ String "T" rest)
            = (pad2 D, String "T" rest) :: others.
Proof. intros HD. enum_field D 1 31; vm_compute; by eexists. Qed.

Lemma re_H_pad2 h rest :
  0 ≤ h ≤ 23 →
  ∃ others, re_match re_H (pad2 h +:+ String ":" rest)
            = (pad2 h, String ":" rest) :: others.
Proof. intros Hh. enum_field h 0 24; vm_compute; by eexists. Qed.

Lemma re_M_pad2 mi rest :
  0 ≤ mi ≤ 59 →
  ∃ others, re_match re_M (pad2 mi +:+ String ":" rest)
            = (pad2 mi, String ":" rest) :: others.
Proof. intros Hm. enum_field mi 0 60; vm_compute; by eexists. Qed.

Lemma re_S_pad2 s rest :
  0 ≤ s ≤ 59 →
  ∃ others, re_match re_S (pad2 s +:+ String "." rest)
            = (pad2 s, String "." rest) :: others.
Proof. intros Hs. enum_field s 0 60; vm_compute; by eexists. Qed.

Lemma re_f_pad3 ms rest :
  0 ≤ ms ≤ 999 →
  ∃ others, re_match re_f (pad3 ms +:+ String "Z" rest)
            = (pad3 ms, String "Z" rest) :: others.
Proof.
  intros (? & ? & ?)%digits_of_pad3.
  unfold re_f, re_opt, re_d, pad3, pad2.
  rewrite !append_String, append_empty. cbn [re_match].
  change (is_digit "Z") with false.
  repeat first [ rewrite is_digit_digit_char by done
               | rewrite append_String | rewrite append_empty
               | progress cbn ].
  by eexists.
Qed.

Lemma fmt_match_iso_string Y M D h mi s ms :
  0 ≤ Y ≤ 9999 → 1 ≤ M ≤ 12 → 1 ≤ D ≤ 31 →
  0 ≤ h ≤ 23 → 0 ≤ mi ≤ 59 → 0 ≤ s ≤ 59 → 0 ≤ ms ≤ 999 →
  ∃ tl, fmt_match iso_format (iso_string Y M D h mi s ms)
        = ([pad4 Y; pad2 M; pad2 D; pad2 h; pad2 mi; pad2 s; pad3 ms], "")
          :: tl.
Proof.
  intros HY HM HD Hh Hmi Hs Hms. unfold iso_string, iso_format.
  change "-" with (String "-" ""). change "T" with (String "T" "").
  change ":" with (String ":" ""). change "." with (String "." "").
  change "Z" with (String "Z" "").
  rewrite !append_String, !append_empty.
  destruct (re_f_pad3 ms "" Hms) as [o7 H7].
  destruct (fmt_group_lit re_f "Z" [] _ _ [] "" _ [] H7 eq_refl) as [t7 F7].
  destruct (re_S_pad2 s (pad3 ms +:+ String "Z" "") Hs) as [o6 H6].
  destruct (fmt_group_lit _ _ _ _ _ _ _ _ _ H6 F7) as [t6 F6].
  destruct (re_M_pad2 mi (pad2 s +:+ String "." (pad3 ms +:+ String "Z" ""))
              Hmi) as [o5 H5].
  destruct (fmt_group_lit _ _ _ _ _ _ _ _ _ H5 F6) as [t5 F5].
  destruct (re_H_pad2 h
              (pad2 mi +:+ String ":"
                 (pad2 s +:+ String "." (pad3 ms +:+ String "Z" ""))) Hh)
    as [o4 H4].
  destruct (fmt_group_lit _ _ _ _ _ _ _ _ _ H4 F5) as [t4 F4].
  destruct (re_day_pad2 D
              (pad2 h +:+ String ":"
                 (pad2 mi +:+ String ":"
                    (pad2 s +:+ String "." (pad3 ms +:+ String "Z" ""))))
              HD) as [o3 H3].
  destruct (fmt_group_lit _ _ _ _ _ _ _ _ _ H3 F4) as [t3 F3].
  destruct (re_m_pad2 M
              (pad2 D +:+ String "T"
                 (pad2 h +:+ String ":"
                    (pad2 mi +:+ String ":"
                       (pad2 s +:+ String "." (pad3 ms +:+ String "Z" "")))))
              HM) as [o2 H2].
  destruct (fmt_group_lit _ _ _ _ _ _ _ _ _ H2 F3) as [t2 F2].
  exact (fmt_group_lit _ _ _ _ _ _ _ _ _ (re_Y_pad4 Y _ HY) F2).
Qed.

Lemma int_digits_app acc s t :
  int_digits acc (s +:+ t) = int_digits (int_digits acc s) t.
Proof.
  revert acc. induction s as [|a s IH]; intros acc; [done|].
  rewrite append_String. cbn [int_digits]. by destruct (is_digit a).
Qed.

Lemma all_ascii_iso_string Y M D h mi s ms :
  0 ≤ Y ≤ 9999 → 0 ≤ M ≤ 99 → 0 ≤ D ≤ 99 →
  0 ≤ h ≤ 99 → 0 ≤ mi ≤ 99 → 0 ≤ s ≤ 99 → 0 ≤ ms ≤ 999 →
  all_ascii (iso_string Y M D h mi s ms) = true.
Proof.
  intros (?&?&?&?)%digits_of_pad HM HD Hh Hmi Hs (?&?&?)%digits_of_pad3.
  pose proof (Z.div_mod M 10). pose proof (Z.mod_pos_bound M 10).
  pose proof (Z.div_mod D 10). pose proof (Z.mod_pos_bound D 10).
  pose proof (Z.div_mod h 10). pose proof (Z.mod_pos_bound h 10).
  pose proof (Z.div_mod mi 10). pose proof (Z.mod_pos_bound mi 10).
  pose proof (Z.div_mod s 10). pose proof (Z.mod_pos_bound s 10).
  unfold iso_string, pad4, pad3, pad2.
  change "-" with (String "-" ""). change "T" with (String "T" "").
  change ":" with (String ":" ""). change "." with (String "." "").
  change "Z" with (String "Z" "").
  rewrite !append_String, !append_empty. cbn [all_ascii].
  rewrite !is_ascii_digit_char by lia. reflexivity.
Qed.

Lemma datetime_new_ok Y M D h mi s us :
  1 ≤ Y ≤ 9999 → 1 ≤ M ≤ 12 → 1 ≤ D ≤ datetime._days_in_month Y M →
  0 ≤ h ≤ 23 → 0 ≤ mi ≤ 59 → 0 ≤ s ≤ 59 → 0 ≤ us ≤ 999999 →
  datetime.new Y M D h mi s us = Ok (datetime.mk Y M D h mi s us).
Proof.
  intros. unfold datetime.new.
  rewrite !(proj2 (Z.leb_le _ _)) by lia. reflexivity.
Qed.

Lemma days_in_month_le Y M : datetime._days_in_month Y M ≤ 31.
Proof.
  unfold datetime._days_in_month.
  destruct (_ && _); [lia|].
  destruct (Z.to_nat M) as [|[|[|[|[|[|[|[|[|[|[|[|[|n]]]]]]]]]]]]];
    simpl; try lia.
  destruct n; simpl; lia.
Qed.

(** A string [YYYY-MM-DDTHH:MM:SS.fffZ] of a valid date and time is parsed
    into the naive datetime with these fields. *)
Lemma strptime_iso_string Y M D h mi s ms :
  1 ≤ Y ≤ 9999 → 1 ≤ M ≤ 12 → 1 ≤ D ≤ datetime._days_in_month Y M →
  0 ≤ h ≤ 23 → 0 ≤ mi ≤ 59 → 0 ≤ s ≤ 59 → 0 ≤ ms ≤ 999 →
  datetime.strptime (VStr (iso_string Y M D h mi s ms))
  = Ok (datetime.mk Y M D h mi s (ms * 1000)).
Proof.
  intros HY HM HD Hh Hmi Hs Hms.
  pose proof (days_in_month_le Y M).
  unfold datetime.strptime.
  rewrite all_ascii_iso_string by lia. cbn [negb].
  destruct (fmt_match_iso_string Y M D h mi s ms) as [tl ->]; try lia.
  rewrite bool_decide_true by done. cbn [negb].
  change (String.length (pad3 ms)) with 3%nat.
  change (str_repeat (6 - 3) "0") with "000".
  rewrite int_digits_app, int_digits_pad4, !int_digits_pad2, int_digits_pad3
    by lia.
  change (int_digits (1000 * 0 + ms) "000")
    with (10 * (10 * (10 * (1000 * 0 + ms) + 0) + 0) + 0).
  rewrite !Z.mul_0_r, !Z.add_0_l.
  rewrite datetime_new_ok by lia. do 2 f_equal. lia.
Qed.

(** In a zone [c] seconds ahead of UTC, the conversion reads the string as
    local time: the result is the epoch milliseconds of the UTC instant
    written in the string, less [c] seconds. *)
Theorem timestamp_of_iso_string c Y M D h mi s ms :
  1 ≤ Y ≤ 9999 → 1 ≤ M ≤ 12 → 1 ≤ D ≤ datetime._days_in_month Y M →
  0 ≤ h ≤ 23 → 0 ≤ mi ≤ 59 → 0 ≤ s ≤ 59 → 0 ≤ ms ≤ 999 →
  @_str_to_timestamp (fixed_offset c) (VStr (iso_string Y M D h mi s ms))
  = Ok ((float_of_Z (utc_seconds Y M D h mi s - c)
         + float_of_Z (ms * 1000) / 1e6) * float_of_Z 1000)%float.
Proof.
  intros. unfold _str_to_timestamp.
  rewrite strptime_iso_string by done. cbn [mbind result_bind].
  unfold timestamp. by rewrite mktime_fixed_offset.
Qed.

(** C4, at ["2023-01-01T00:00:00.000Z"]: the conversion gives 1672531200000
    when the local zone is UTC and 1672527600000, one hour less, when the
    local zone is one hour ahead of UTC: the result is not independent of
    the local time zone. *)
Theorem timestamp_follows_local_time :
  @_str_to_timestamp utc (VStr "2023-01-01T00:00:00.000Z")
  = Ok 1672531200000%float
  ∧ @_str_to_timestamp utc_plus_1 (VStr "2023-01-01T00:00:00.000Z")
    = Ok 1672527600000%float
  ∧ @_str_to_timestamp utc_plus_1 (VStr "2023-01-01T00:00:00.000Z")
    ≠ @_str_to_timestamp utc (VStr "2023-01-01T00:00:00.000Z").
Proof.
  split_and!; [vm_compute; reflexivity..|].
  intros Heq. apply (f_equal (fmap Prim2SF)) in Heq.
  vm_compute in Heq. discriminate.
Qed.

Example utc_seconds_2023 : utc_seconds 2023 1 1 0 0 0 = 1672531200.
Proof. reflexivity. Qed.

Lemma timestamp_of_iso_string_example :
  @_str_to_timestamp (fixed_offset (-18000))
    (VStr (iso_string 2024 2 29 23 59 59 123))
  = Ok ((float_of_Z (utc_seconds 2024 2 29 23 59 59 - -18000)
         + float_of_Z (123 * 1000) / 1e6) * float_of_Z 1000)%float.
Proof.
  apply timestamp_of_iso_string; vm_compute; split; discriminate.
Defined.
(** * More of the program *)

(** *** The version *)

Lemma str_split_go_head sep cur s :
  ∃ v tl,
    str_split_go sep cur s = (cur +:+ v) :: tl
    ∧ (sep ∉ chars v)
    ∧ (s = v ∨ ∃ rest, s = v +:+ String sep rest).
Proof.
  revert cur. induction s as [|a s IH]; intros cur.
  - exists "", []. split_and!.
    + cbn. f_equal. induction cur as [|c cur IHc]; [done|].
      by rewrite append_String, <- IHc.
    + apply not_elem_of_nil.
    + by left.
  - cbn [str_split_go]. destruct (decide (a = sep)) as [->|Hne].
    + exists "", (str_split_go sep "" s). split_and!.
      * f_equal. induction cur as [|c cur IHc]; [done|].
        by rewrite append_String, <- IHc.
      * apply not_elem_of_nil.
      * right. by exists s.
    + destruct (IH (cur +:+ String a "")) as (v & tl & Hs & Hv & Hrest).
      exists (String a v), tl. split_and!.
      * rewrite Hs. f_equal.
        clear. induction cur as [|c cur IHc]; [done|].
        by rewrite !append_String, IHc.
      * cbn [chars]. rewrite not_elem_of_cons. by split.
      * destruct Hrest as [->|[rest ->]]; [by left|right].
        exists rest. by rewrite append_String.
Qed.

(** X1: the version family reports the part of the version string before
    its first underscore: the value has no underscore, and the version is
    the value itself or the value followed by an underscore and more.  A
    version that is not a string raises [AttributeError], a record without
    version [KeyError]; nothing is emitted then. *)
Theorem version_before_underscore d id :
  d !! "id" = Some id →
  (∀ s, d !! "version" = Some (VStr s) →
        ∃ v, NodeVersionMetric.add NodeVersionMetric.__init__ (VDict d)
             = ([mkSample "saturn_node_version" [("id", id)] (VStr v)], Ok tt)
             ∧ ("_"%char ∉ chars v)
             ∧ (s = v ∨ ∃ rest, s = v +:+ String "_" rest))
  ∧ (∀ x, d !! "version" = Some x → (∀ s, x ≠ VStr s) →
          NodeVersionMetric.add NodeVersionMetric.__init__ (VDict d)
          = ([], Raise AttributeError))
  ∧ (d !! "version" = None →
     NodeVersionMetric.add NodeVersionMetric.__init__ (VDict d)
     = ([], Raise KeyError)).
Proof.
  intros Hid. split_and!.
  - intros s Hs.
    destruct (str_split_go_head "_" "" s) as (v & tl & Hsplit & Hv & Hrest).
    exists v. split_and!; [|done..].
    unfold NodeVersionMetric.add. cbn -[split_underscore_0]. rewrite Hs.
    unfold split_underscore_0, str_split. cbn [mbind result_bind].
    rewrite Hsplit. cbn. by rewrite Hid.
  - intros x Hx Hns. unfold NodeVersionMetric.add.
    cbn -[split_underscore_0]. rewrite Hx.
    unfold split_underscore_0. destruct x; try reflexivity.
    by destruct (Hns s).
  - intros Hx. unfold NodeVersionMetric.add. cbn. by rewrite Hx.
Qed.

Lemma version_before_underscore_witness :
  NodeVersionMetric.add NodeVersionMetric.__init__
    (obj [("id", VStr "A"); ("version", VInt 3)])
  = ([], Raise AttributeError).
Proof.
  refine (proj1 (proj2 (version_before_underscore _ (VStr "A") _)) (VInt 3) _ _).
  - vm_compute; reflexivity.
  - vm_compute; reflexivity.
  - discriminate.
Defined.

(** The version ["1.2.3_abc123"] is reported as ["1.2.3"]. *)
Example version_1_2_3 :
  NodeVersionMetric.add NodeVersionMetric.__init__
    (obj [("id", VStr "A"); ("version", VStr "1.2.3_abc123")])
  = ([mkSample "saturn_node_version" [("id", VStr "A")] (VStr "1.2.3")], Ok tt).
Proof. vm_compute. reflexivity. Qed.

(** *** The info family *)

Ltac step_info d :=
  repeat (match goal with
          | |- context [d !! ?k] => destruct (d !! k); cbn
          | |- context [slice8 ?x] => destruct (slice8 x); cbn
          | |- context [_bool_to_str ?x] => destruct (_bool_to_str x); cbn
          | |- context [getitem ?x ?k] => destruct (getitem x k); cbn
          end).

(** X2: the info family emits one series or none.  When [add] returns, it
    has emitted exactly one series, of value 1, whose labels are the eleven
    of the record followed, when the record has a speedtest, by the three of
    the speedtest; when [add] raises, it has emitted nothing. *)
Theorem info_series_whole_or_none d :
  let r := NodeInfoMetric.add NodeInfoMetric.__init__ (VDict d) in
  (outcome r = Ok tt →
   ∃ s, emitted r = [s]
        ∧ s_name s = "saturn_node_info" ∧ s_value s = VInt 1
        ∧ (s_labels s).*1
          = info_labels
            ++ (if truthy (default VNone (d !! "speedtest"))
                then speedtest_labels else []))
  ∧ (∀ e, outcome r = Raise e → emitted r = []).
Proof.
  unfold NodeInfoMetric.add, NodeInfoMetric._id_short, getpath. cbn.
  destruct (truthy (default VNone (d !! "speedtest"))) eqn:Hsp.
  - cbn. destruct (d !! "speedtest") as [sp|]; [|done]. cbn in Hsp.
    step_info d; split; try done; intros _; by eexists.
  - cbn. step_info d; split; try done; intros _; by eexists.
Qed.

Lemma info_series_whole_or_none_witness :
  emitted (NodeInfoMetric.add NodeInfoMetric.__init__
             (obj [("id", VStr "A"); ("state", VStr "active")]))
  = [].
Proof.
  refine (proj2 (info_series_whole_or_none _) KeyError _).
  vm_compute; reflexivity.
Defined.

(** *** The short id *)

Lemma utf8_take_prefix n s : ∃ t, s = utf8_take n s +:+ t.
Proof.
  revert n. induction s as [|a s IH]; intros n; [by exists ""|].
  cbn [utf8_take]. destruct (is_continuation a).
  - destruct (IH n) as [t Ht]. exists t. by rewrite append_String, <- Ht.
  - destruct n as [|n]; [by eexists|].
    destruct (IH n) as [t Ht]. exists t. by rewrite append_String, <- Ht.
Qed.

Lemma utf8_length_take n s :
  utf8_length (utf8_take n s) = (n `min` utf8_length s)%nat.
Proof.
  revert n. induction s as [|a s IH]; intros n; [by destruct n|].
  cbn [utf8_take utf8_length]. destruct (is_continuation a) eqn:Ha.
  - cbn [utf8_length]. by rewrite Ha, IH.
  - destruct n as [|n]; [done|].
    cbn [utf8_length]. rewrite Ha, IH. lia.
Qed.

Lemma utf8_length_ascii s : all_ascii s = true → utf8_length s = String.length s.
Proof.
  induction s as [|a s IH]; [done|].
  cbn [all_ascii utf8_length String.length].
  intros [Ha Hs]%andb_true_iff. rewrite IH by done.
  replace (is_continuation a) with false; [done|].
  unfold is_ascii, is_continuation in *.
  apply Nat.ltb_lt in Ha. symmetry. apply andb_false_iff. left.
  apply Nat.leb_gt. lia.
Qed.

Lemma all_ascii_prefix s t : all_ascii (s +:+ t) = true → all_ascii s = true.
Proof.
  induction s as [|a s IH]; [done|].
  rewrite append_String. cbn [all_ascii].
  intros [Ha Hs]%andb_true_iff. by rewrite Ha, IH.
Qed.

(** X3: the short id of a node whose id is a string is the start of the id,
    cut after 8 characters: the id is the short id followed by the rest,
    the short id has 8 characters or all of them when the id has fewer, and
    this is so on the line of an active node as on that of an inactive one,
    which [add_inactive] always emits for a string.  An id that is neither a
    string nor a list raises [TypeError]. *)
Theorem id_short_is_a_prefix s :
  ∃ short,
    NodeInfoMetric._id_short (VStr s) = Ok (VStr short)
    ∧ (∃ rest, s = short +:+ rest)
    ∧ utf8_length short = (8 `min` utf8_length s)%nat
    ∧ (all_ascii s = true →
       String.length short = (8 `min` String.length s)%nat)
    ∧ NodeInfoMetric.add_inactive NodeInfoMetric.__init__ (VStr s)
      = ([mkSample "saturn_node_info"
            [("id", VStr s); ("id_short", VStr short);
             ("state", VStr "inactive")] (VInt 1)],
         Ok tt)
    ∧ (∀ v, (∀ x, v ≠ VStr x) → (∀ l, v ≠ VList l) →
            NodeInfoMetric._id_short v = Raise TypeError).
Proof.
  exists (utf8_take 8 s). split_and!.
  - done.
  - apply utf8_take_prefix.
  - apply utf8_length_take.
  - intros Hs. destruct (utf8_take_prefix 8 s) as [t Ht].
    rewrite <- (utf8_length_ascii s), <- utf8_length_take by done.
    symmetry. apply utf8_length_ascii.
    apply (all_ascii_prefix _ t). by rewrite <- Ht.
  - done.
  - intros v Hs Hl. destruct v; try done.
    + by destruct (Hs s0).
    + by destruct (Hl l).
Qed.

Lemma id_short_is_a_prefix_witness :
  ∃ short,
    NodeInfoMetric._id_short (VStr "0123456789abcdef") = Ok (VStr short)
    ∧ String.length short = 8%nat.
Proof.
  destruct (id_short_is_a_prefix "0123456789abcdef")
    as (short & Hshort & _ & _ & Hlen & _).
  exists short. split; [exact Hshort|]. by rewrite Hlen.
Defined.

(** *** The families that read one value *)

Ltac in_table H :=
  repeat (apply elem_of_cons in H as [[= -> -> ->]|H]);
  [..|by apply elem_of_nil in H].

Lemma getpath_missing d k ks :
  d !! k = None → getpath (VDict d) (k :: ks) = Raise KeyError.
Proof.
  intros Hk. unfold getpath. cbn. rewrite Hk.
  induction ks as [|k' ks IH]; [done|]. cbn. apply IH.
Qed.

(** X4: the four weighted ratio families read their value in the bias map
    of the record, not in the record.  With an id and a bias map, each emits
    one series labelled with the id when its key has a value other than
    [None] and nothing, without failing, otherwise; a record without
    [biases] raises [KeyError], and [biases] that is not a map raises
    [AttributeError]. *)
Theorem weighted_families_read_the_bias_map `{LocalTime} d id :
  d !! "id" = Some id →
  (∀ b, d !! "biases" = Some (VDict b) →
        ∀ m name k, (m, name, k) ∈ weighted_families →
                    add m (VDict d) = (optional_series name id (b !! k), Ok tt))
  ∧ (d !! "biases" = None →
     ∀ m name k, (m, name, k) ∈ weighted_families →
                 add m (VDict d) = ([], Raise KeyError))
  ∧ (∀ x, d !! "biases" = Some x → (∀ b, x ≠ VDict b) →
          ∀ m name k, (m, name, k) ∈ weighted_families →
                      add m (VDict d) = ([], Raise AttributeError)).
Proof.
  intros Hid. split_and!.
  - intros b Hb m name k Hm. unfold weighted_families in Hm.
    in_table Hm; cbn; rewrite Hb; cbn;
      (destruct (b !! _) as [[]|]; cbn; by rewrite ?Hid).
  - intros Hb m name k Hm. unfold weighted_families in Hm.
    in_table Hm; cbn; by rewrite Hb.
  - intros x Hx Hnd m name k Hm. unfold weighted_families in Hm.
    in_table Hm; cbn; rewrite Hx; cbn;
      (destruct x; try reflexivity; by destruct (Hnd d0)).
Qed.

Lemma weighted_families_read_the_bias_map_witness :
  @add utc NodeWeightedTTFBMetric.__init__
    (obj [("id", VStr "A"); ("weightedTtfb", VInt 120);
          ("biases", obj [("weightedTtfb", VInt 0)])])
  = ([mkSample "saturn_node_weighted_ttfb_milliseconds" [("id", VStr "A")]
               (VInt 0)],
     Ok tt).
Proof.
  refine (proj1 (@weighted_families_read_the_bias_map utc _ (VStr "A") _)
            (list_to_map [("weightedTtfb", VInt 0)]) _
            NodeWeightedTTFBMetric.__init__ _ "weightedTtfb" _).
  - vm_compute; reflexivity.
  - vm_compute; reflexivity.
  - apply list_elem_of_here.
Defined.

(** X5: weight, disk, memory, CPU number and traffic: each of these ten
    families reads the id and then one value at a fixed place of the record,
    and emits exactly one series with it; when the place is missing it
    raises [KeyError] and emits nothing.  None of them ever returns without
    a series. *)
Theorem fixed_place_families_emit_or_raise `{LocalTime} d :
  (∀ id m name path,
     d !! "id" = Some id → (m, name, path) ∈ fixed_place_families →
     add m (VDict d) = one_series name id (getpath (VDict d) path))
  ∧ (∀ m name path,
       d !! "id" = None → (m, name, path) ∈ fixed_place_families →
       add m (VDict d) = ([], Raise KeyError))
  ∧ (∀ m name path,
       (m, name, path) ∈ fixed_place_families →
       outcome (add m (VDict d)) = Ok tt →
       length (emitted (add m (VDict d))) = 1%nat)
  ∧ (∀ k ks, d !! k = None → getpath (VDict d) (k :: ks) = Raise KeyError)
  ∧ (∀ k sub k', d !! k = Some (VDict sub) →
                 getpath (VDict d) [k; k']
                 = match sub !! k' with
                   | Some v => Ok v
                   | None => Raise KeyError
                   end).
Proof.
  assert (Hsome : ∀ id m name path,
            d !! "id" = Some id → (m, name, path) ∈ fixed_place_families →
            add m (VDict d) = one_series name id (getpath (VDict d) path)).
  { intros id m name path Hid Hm. unfold fixed_place_families in Hm.
    in_table Hm; cbn; rewrite Hid; cbn;
      repeat (match goal with
              | |- context [d !! ?k] => destruct (d !! k); cbn
              | |- context [getitem ?x ?k] => destruct (getitem x k); cbn
              end); reflexivity. }
  assert (Hnone : ∀ m name path,
            d !! "id" = None → (m, name, path) ∈ fixed_place_families →
            add m (VDict d) = ([], Raise KeyError)).
  { intros m name path Hid Hm. unfold fixed_place_families in Hm.
    in_table Hm; cbn; by rewrite Hid. }
  split_and!; [done|done| |apply getpath_missing|].
  - intros m name path Hm.
    destruct (d !! "id") as [id|] eqn:Hid.
    + rewrite (Hsome id m name path eq_refl Hm).
      by destruct (getpath (VDict d) path).
    + by rewrite (Hnone m name path eq_refl Hm).
  - intros k sub k' Hk. unfold getpath. cbn. by rewrite Hk.
Qed.

Lemma fixed_place_families_emit_or_raise_witness :
  @add utc NodeDiskUsedMetric.__init__
    (obj [("id", VStr "A"); ("diskStats", obj [("totalDiskMB", VInt 1000)])])
  = ([], Raise KeyError).
Proof.
  refine (eq_trans
            (proj1 (@fixed_place_families_emit_or_raise utc _) (VStr "A")
               NodeDiskUsedMetric.__init__ _ _ _ _) _).
  - vm_compute; reflexivity.
  - do 2 apply list_elem_of_further. apply list_elem_of_here.
  - vm_compute; reflexivity.
Defined.

(** X6: of the load averages only the first is reported; an empty list
    raises [IndexError], a record without load averages [KeyError], and
    nothing is emitted then. *)
Theorem cpu_load_avg_first d id c :
  d !! "id" = Some id →
  d !! "cpuStats" = Some (VDict c) →
  (∀ x l, c !! "loadAvgs" = Some (VList (x :: l)) →
          NodeCPULoadAvgMetric.add NodeCPULoadAvgMetric.__init__ (VDict d)
          = ([mkSample "saturn_node_cpu_load_avg" [("id", id)] x], Ok tt))
  ∧ (c !! "loadAvgs" = Some (VList []) →
     NodeCPULoadAvgMetric.add NodeCPULoadAvgMetric.__init__ (VDict d)
     = ([], Raise IndexError))
  ∧ (c !! "loadAvgs" = None →
     NodeCPULoadAvgMetric.add NodeCPULoadAvgMetric.__init__ (VDict d)
     = ([], Raise KeyError)).
Proof.
  intros Hid Hc.
  split_and!; [intros x l Hl|intros Hl|intros Hl];
    unfold NodeCPULoadAvgMetric.add, getpath; cbn;
    by rewrite Hid, Hc; cbn; rewrite Hl.
Qed.

Lemma cpu_load_avg_first_witness :
  NodeCPULoadAvgMetric.add NodeCPULoadAvgMetric.__init__
    (obj [("id", VStr "A"); ("cpuStats", obj [("loadAvgs", VList [])])])
  = ([], Raise IndexError).
Proof.
  refine (proj1 (proj2 (cpu_load_avg_first _ (VStr "A")
                          (list_to_map [("loadAvgs", VList [])]) _ _)) _);
    vm_compute; reflexivity.
Defined.

Lemma truthy_dict_nonempty sp : sp ≠ ∅ → truthy (VDict sp) = true.
Proof.
  intros Hne. destruct (truthy (VDict sp)) eqn:Ht; [done|].
  by apply truthy_dict_empty in Ht.
Qed.

(** X7: the three speedtest families emit nothing for a record without
    speedtest.  For a record with an id and a speedtest that is a map with
    an entry, each reads its value in the speedtest and emits one series
    with it; when the value is missing there, it raises [KeyError]: a
    speedtest that is there but incomplete is an error, not a skip. *)
Theorem speedtest_families_skip_or_raise `{LocalTime} d :
  (d !! "speedtest" = None →
   ∀ m name path, (m, name, path) ∈ speedtest_families →
                  add m (VDict d) = ([], Ok tt))
  ∧ (∀ id sp m name path,
       d !! "id" = Some id → d !! "speedtest" = Some (VDict sp) → sp ≠ ∅ →
       (m, name, path) ∈ speedtest_families →
       add m (VDict d) = one_series name id (getpath (VDict sp) path))
  ∧ (∀ id sp m name k ks,
       d !! "id" = Some id → d !! "speedtest" = Some (VDict sp) → sp ≠ ∅ →
       (m, name, k :: ks) ∈ speedtest_families → sp !! k = None →
       add m (VDict d) = ([], Raise KeyError)).
Proof.
  assert (Hsome : ∀ id sp m name path,
            d !! "id" = Some id → d !! "speedtest" = Some (VDict sp) → sp ≠ ∅ →
            (m, name, path) ∈ speedtest_families →
            add m (VDict d) = one_series name id (getpath (VDict sp) path)).
  { intros id sp m name path Hid Hsp Hne Hm. unfold speedtest_families in Hm.
    in_table Hm; cbn; rewrite Hsp; cbn;
      rewrite (truthy_dict_nonempty sp Hne); cbn; rewrite Hid; cbn;
      repeat (match goal with
              | |- context [sp !! ?k] => destruct (sp !! k); cbn
              | |- context [getitem ?x ?k] => destruct (getitem x k); cbn
              end); reflexivity. }
  split_and!; [|done|].
  - intros Hsp m name path Hm. unfold speedtest_families in Hm.
    in_table Hm; cbn; by rewrite Hsp.
  - intros id sp m name k ks Hid Hsp Hne Hm Hk.
    rewrite (Hsome id sp m name (k :: ks) Hid Hsp Hne Hm).
    by rewrite getpath_missing.
Qed.

Lemma speedtest_families_skip_or_raise_witness :
  @add utc NodeSpeedtestPingLatencyMetric.__init__
    (obj [("id", VStr "A"); ("speedtest", obj [("isp", VStr "x")])])
  = ([], Raise KeyError).
Proof.
  refine (proj2 (proj2 (@speedtest_families_skip_or_raise utc _))
            (VStr "A") (list_to_map [("isp", VStr "x")])
            NodeSpeedtestPingLatencyMetric.__init__ _ "ping" ["latency"]
            _ _ _ _ _).
  - vm_compute; reflexivity.
  - vm_compute; reflexivity.
  - intros Heq. apply (f_equal (lookup "isp")) in Heq. vm_compute in Heq.
    discriminate.
  - do 2 apply list_elem_of_further. apply list_elem_of_here.
  - vm_compute; reflexivity.
Defined.

(** *** Timestamps that are refused *)

Lemma fmt_group_then_lit r c f s :
  fmt_match (Group r :: Lit c :: f) s
  = flat_map (λ '(m, s'), (λ '(gs, r'), (m :: gs, r')) <$> fmt_match f s')
             (group_then_lit r c s).
Proof.
  cbn [fmt_match]. unfold group_then_lit.
  induction (re_match r s) as [|[m rest] l IH]; [done|].
  cbn [flat_map]. rewrite flat_map_app, <- IH. f_equal.
  destruct rest as [|b s']; [done|].
  destruct (lit_matches c b); [|done].
  cbn [flat_map]. by rewrite app_nil_r.
Qed.

(** After a two-digit field and its separator the match goes on in one way
    only: the shorter ways to match the field stop at the separator. *)
Ltac field_exact n lo len := enum_field n lo len; vm_compute; reflexivity.

Lemma group_m_exact M rest :
  1 ≤ M ≤ 12 →
  group_then_lit re_m "-" (pad2 M +:+ String "-" rest) = [(pad2 M, rest)].
Proof. intros HM. field_exact M 1 12. Qed.

Lemma group_day_exact D rest :
  1 ≤ D ≤ 31 →
  group_then_lit re_day "T" (pad2 D +:+ String "T" rest) = [(pad2 D, rest)].
Proof. intros HD. field_exact D 1 31. Qed.

Lemma group_H_exact h rest :
  0 ≤ h ≤ 23 →
  group_then_lit re_H ":" (pad2 h +:+ String ":" rest) = [(pad2 h, rest)].
Proof. intros Hh. field_exact h 0 24. Qed.

Lemma group_M_exact mi rest :
  0 ≤ mi ≤ 59 →
  group_then_lit re_M ":" (pad2 mi +:+ String ":" rest) = [(pad2 mi, rest)].
Proof. intros Hm. field_exact mi 0 60. Qed.

Lemma group_S_no_fraction s rest :
  0 ≤ s ≤ 59 →
  group_then_lit re_S "." (pad2 s +:+ String "Z" rest) = [].
Proof. intros Hs. field_exact s 0 60. Qed.

Lemma group_Y_exact Y rest :
  0 ≤ Y ≤ 9999 →
  group_then_lit re_Y "-" (pad4 Y +:+ String "-" rest) = [(pad4 Y, rest)].
Proof.
  intros HY. unfold group_then_lit. by rewrite re_Y_pad4.
Qed.

Lemma fmt_match_no_fraction Y M D h mi s :
  0 ≤ Y ≤ 9999 → 1 ≤ M ≤ 12 → 1 ≤ D ≤ 31 →
  0 ≤ h ≤ 23 → 0 ≤ mi ≤ 59 → 0 ≤ s ≤ 59 →
  fmt_match iso_format (iso_string_no_fraction Y M D h mi s) = [].
Proof.
  intros HY HM HD Hh Hmi Hs. unfold iso_string_no_fraction, iso_format.
  change "-" with (String "-" ""). change "T" with (String "T" "").
  change ":" with (String ":" ""). change "Z" with (String "Z" "").
  rewrite !append_String, !append_empty.
  rewrite fmt_group_then_lit, group_Y_exact by done.
  cbn [flat_map]. rewrite app_nil_r.
  rewrite fmt_group_then_lit, group_m_exact by done.
  cbn [flat_map]. rewrite app_nil_r.
  rewrite fmt_group_then_lit, group_day_exact by done.
  cbn [flat_map]. rewrite app_nil_r.
  rewrite fmt_group_then_lit, group_H_exact by done.
  cbn [flat_map]. rewrite app_nil_r.
  rewrite fmt_group_then_lit, group_M_exact by done.
  cbn [flat_map]. rewrite app_nil_r.
  rewrite fmt_group_then_lit, group_S_no_fraction by done.
  reflexivity.
Qed.

Lemma fmt_match_iso_string_then Y M D h mi s ms rest :
  0 ≤ Y ≤ 9999 → 1 ≤ M ≤ 12 → 1 ≤ D ≤ 31 →
  0 ≤ h ≤ 23 → 0 ≤ mi ≤ 59 → 0 ≤ s ≤ 59 → 0 ≤ ms ≤ 999 →
  ∃ tl, fmt_match iso_format (iso_string Y M D h mi s ms +:+ rest)
        = ([pad4 Y; pad2 M; pad2 D; pad2 h; pad2 mi; pad2 s; pad3 ms], rest)
          :: tl.
Proof.
  intros HY HM HD Hh Hmi Hs Hms. unfold iso_string, iso_format.
  change "-" with (String "-" ""). change "T" with (String "T" "").
  change ":" with (String ":" ""). change "." with (String "." "").
  change "Z" with (String "Z" "").
  assert (Happ : ∀ a b c, (a +:+ b) +:+ c = a +:+ (b +:+ c)).
  { intros a b c. induction a as [|x a IH]; [done|].
    by rewrite !append_String, IH. }
  rewrite !Happ, !append_String, !append_empty.
  destruct (re_f_pad3 ms rest Hms) as [o7 H7].
  destruct (fmt_group_lit re_f "Z" [] _ _ [] rest _ [] H7 eq_refl) as [t7 F7].
  destruct (re_S_pad2 s (pad3 ms +:+ String "Z" rest) Hs) as [o6 H6].
  destruct (fmt_group_lit _ _ _ _ _ _ _ _ _ H6 F7) as [t6 F6].
  destruct (re_M_pad2 mi (pad2 s +:+ String "." (pad3 ms +:+ String "Z" rest))
              Hmi) as [o5 H5].
  destruct (fmt_group_lit _ _ _ _ _ _ _ _ _ H5 F6) as [t5 F5].
  destruct (re_H_pad2 h
              (pad2 mi +:+ String ":"
                 (pad2 s +:+ String "." (pad3 ms +:+ String "Z" rest))) Hh)
    as [o4 H4].
  destruct (fmt_group_lit _ _ _ _ _ _ _ _ _ H4 F5) as [t4 F4].
  destruct (re_day_pad2 D
              (pad2 h +:+ String ":"
                 (pad2 mi +:+ String ":"
                    (pad2 s +:+ String "." (pad3 ms +:+ String "Z" rest))))
              HD) as [o3 H3].
  destruct (fmt_group_lit _ _ _ _ _ _ _ _ _ H3 F4) as [t3 F3].
  destruct (re_m_pad2 M
              (pad2 D +:+ String "T"
                 (pad2 h +:+ String ":"
                    (pad2 mi +:+ String ":"
                       (pad2 s +:+ String "." (pad3 ms +:+ String "Z" rest)))))
              HM) as [o2 H2].
  destruct (fmt_group_lit _ _ _ _ _ _ _ _ _ H2 F3) as [t2 F2].
  exact (fmt_group_lit _ _ _ _ _ _ _ _ _ (re_Y_pad4 Y _ HY) F2).
Qed.

Lemma all_ascii_app s t :
  all_ascii (s +:+ t) = all_ascii s && all_ascii t.
Proof.
  induction s as [|a s IH]; [done|].
  rewrite append_String. cbn [all_ascii]. by rewrite IH, andb_assoc.
Qed.

Lemma all_ascii_pad2 n : 0 ≤ n ≤ 99 → all_ascii (pad2 n) = true.
Proof.
  intros Hn. pose proof (Z.div_mod n 10). pose proof (Z.mod_pos_bound n 10).
  unfold pad2. cbn [all_ascii]. by rewrite !is_ascii_digit_char by lia.
Qed.

Lemma all_ascii_pad4 n : 0 ≤ n ≤ 9999 → all_ascii (pad4 n) = true.
Proof.
  intros (?&?&?&?)%digits_of_pad.
  unfold pad4, pad3, pad2. cbn [all_ascii].
  by rewrite !is_ascii_digit_char by lia.
Qed.

Lemma all_ascii_no_fraction Y M D h mi s :
  0 ≤ Y ≤ 9999 → 0 ≤ M ≤ 99 → 0 ≤ D ≤ 99 →
  0 ≤ h ≤ 99 → 0 ≤ mi ≤ 99 → 0 ≤ s ≤ 99 →
  all_ascii (iso_string_no_fraction Y M D h mi s) = true.
Proof.
  intros. unfold iso_string_no_fraction.
  rewrite !all_ascii_app, all_ascii_pad4, !all_ascii_pad2 by done.
  reflexivity.
Qed.

Lemma days_in_month_ge Y M : 1 ≤ M ≤ 12 → 28 ≤ datetime._days_in_month Y M.
Proof.
  intros HM. unfold datetime._days_in_month.
  destruct (_ && _); [lia|].
  assert (HM' : (1 ≤ Z.to_nat M ≤ 12)%nat) by lia.
  destruct (Z.to_nat M) as [|[|[|[|[|[|[|[|[|[|[|[|[|n]]]]]]]]]]]]];
    simpl; lia.
Qed.

(** X8: the conversion refuses what is not a timestamp of the format, in
    any time zone: a value that is not a string raises [TypeError]; a
    string of the format with a day the month does not have, a string of
    the format followed by more characters, and a timestamp without the
    fraction of a second each raise [ValueError]. *)
Theorem malformed_timestamp_is_refused `{LocalTime} :
  (∀ v, (∀ s, v ≠ VStr s) → _str_to_timestamp v = Raise TypeError)
  ∧ (∀ Y M D h mi s ms,
       1 ≤ Y ≤ 9999 → 1 ≤ M ≤ 12 → datetime._days_in_month Y M < D ≤ 31 →
       0 ≤ h ≤ 23 → 0 ≤ mi ≤ 59 → 0 ≤ s ≤ 59 → 0 ≤ ms ≤ 999 →
       _str_to_timestamp (VStr (iso_string Y M D h mi s ms))
       = Raise ValueError)
  ∧ (∀ Y M D h mi s ms more,
       0 ≤ Y ≤ 9999 → 1 ≤ M ≤ 12 → 1 ≤ D ≤ 31 →
       0 ≤ h ≤ 23 → 0 ≤ mi ≤ 59 → 0 ≤ s ≤ 59 → 0 ≤ ms ≤ 999 →
       more ≠ "" → all_ascii more = true →
       _str_to_timestamp (VStr (iso_string Y M D h mi s ms +:+ more))
       = Raise ValueError)
  ∧ (∀ Y M D h mi s,
       0 ≤ Y ≤ 9999 → 1 ≤ M ≤ 12 → 1 ≤ D ≤ 31 →
       0 ≤ h ≤ 23 → 0 ≤ mi ≤ 59 → 0 ≤ s ≤ 59 →
       _str_to_timestamp (VStr (iso_string_no_fraction Y M D h mi s))
       = Raise ValueError).
Proof.
  split_and!.
  - intros v Hv. unfold _str_to_timestamp, datetime.strptime.
    destruct v; try reflexivity. by destruct (Hv s).
  - intros Y M D h mi s ms HY HM HD Hh Hmi Hs Hms.
    pose proof (days_in_month_ge Y M HM).
    unfold _str_to_timestamp, datetime.strptime.
    rewrite all_ascii_iso_string by lia. cbn [negb].
    destruct (fmt_match_iso_string Y M D h mi s ms) as [tl ->]; try lia.
    rewrite bool_decide_true by done. cbn [negb].
    change (String.length (pad3 ms)) with 3%nat.
    change (str_repeat (6 - 3) "0") with "000".
    rewrite int_digits_app, int_digits_pad4, !int_digits_pad2, int_digits_pad3
      by lia.
    rewrite !Z.mul_0_r, !Z.add_0_l.
    unfold datetime.new.
    rewrite !(proj2 (Z.leb_le _ _)) by lia. cbn [andb negb].
    rewrite (proj2 (Z.leb_gt _ _)) by lia. reflexivity.
  - intros Y M D h mi s ms more HY HM HD Hh Hmi Hs Hms Hmore Hascii.
    unfold _str_to_timestamp, datetime.strptime.
    rewrite all_ascii_app, all_ascii_iso_string, Hascii by lia. cbn [negb andb].
    destruct (fmt_match_iso_string_then Y M D h mi s ms more) as [tl ->];
      try lia.
    by rewrite bool_decide_false.
  - intros Y M D h mi s HY HM HD Hh Hmi Hs.
    unfold _str_to_timestamp, datetime.strptime.
    rewrite all_ascii_no_fraction by lia. cbn [negb].
    by rewrite fmt_match_no_fraction.
Qed.

Lemma malformed_timestamp_is_refused_witness :
  @_str_to_timestamp utc (VStr (iso_string 2023 2 30 0 0 0 0))
  = Raise ValueError
  ∧ @_str_to_timestamp utc (VStr (iso_string 2023 1 1 0 0 0 0 +:+ " "))
    = Raise ValueError
  ∧ @_str_to_timestamp utc (VStr (iso_string_no_fraction 2023 1 1 0 0 0))
    = Raise ValueError.
Proof.
  split_and!.
  - apply (proj1 (proj2 (@malformed_timestamp_is_refused utc)));
      vm_compute; easy.
  - apply (proj1 (proj2 (proj2 (@malformed_timestamp_is_refused utc))));
      vm_compute; easy.
  - apply (proj2 (proj2 (proj2 (@malformed_timestamp_is_refused utc))));
      vm_compute; easy.
Defined.

(** *** The timestamp families *)

(** X9: registration and creation time: each of the two families converts
    its field before it reads the id.  A missing field raises [KeyError]; a
    field the conversion refuses raises what the conversion raised, also for
    a record without id; nothing is emitted in either case.  A field the
    conversion accepts gives one series with the converted number, which
    for a well-formed timestamp in a zone [c] seconds ahead of UTC is the
    epoch milliseconds of the instant written, less [c] seconds. *)
Theorem timestamp_families_convert_first `{LocalTime} d m name field :
  (m, name, field) ∈ timestamp_families →
  (d !! field = None → add m (VDict d) = ([], Raise KeyError))
  ∧ (∀ v e, d !! field = Some v → _str_to_timestamp v = Raise e →
            add m (VDict d) = ([], Raise e))
  ∧ (∀ v ts, d !! field = Some v → _str_to_timestamp v = Ok ts →
             add m (VDict d)
             = match d !! "id" with
               | Some id => ([mkSample name [("id", id)] (VFloat ts)], Ok tt)
               | None => ([], Raise KeyError)
               end).
Proof.
  intros Hm. unfold timestamp_families in Hm.
  split_and!.
  - intros Hf. in_table Hm; cbn; by rewrite Hf.
  - intros v e Hf Hv. in_table Hm; cbn; rewrite Hf; cbn; by rewrite Hv.
  - intros v ts Hf Hv.
    in_table Hm; cbn; rewrite Hf; cbn; rewrite Hv; cbn;
      by destruct (d !! "id").
Qed.

Lemma timestamp_families_convert_first_witness :
  @add utc NodeCreationMetric.__init__
    (VDict {[ "createdAt" := VStr "2023-02-30T00:00:00.000Z" ]})
  = ([], Raise ValueError).
Proof.
  refine (proj1 (proj2 (@timestamp_families_convert_first utc
            {[ "createdAt" := VStr "2023-02-30T00:00:00.000Z" ]}
            NodeCreationMetric.__init__ "saturn_node_creation_timestamp"
            "createdAt" _)) _ _ _ _).
  - apply list_elem_of_further, list_elem_of_here.
  - vm_compute; reflexivity.
  - vm_compute; reflexivity.
Defined.



(** *** Flags as labels *)










(** *** The earnings collector *)

Lemma matches_at_hashed k0 S node v k :
  getitem node k0 = Ok v → hash_key v = Ok k →
  matches_at k0 S node = bool_decide (S = ∅) || key_in k S.
Proof.
  intros Hid Hk. unfold matches_at. rewrite Hid. f_equal.
  destruct k as [| | |x]; simpl.
  - by destruct v.
  - by destruct v.
  - by destruct v.
  - by apply hash_key_str in Hk as ->.
Qed.

Lemma matches_at_hashable k0 S node :
  S ≠ ∅ → matches_at k0 S node = true → hashable_at k0 node.
Proof.
  intros HS. unfold matches_at, hashable_at.
  rewrite bool_decide_false by done. cbn [orb].
  destruct (getitem node k0) as [[| | | |s| |]|]; try done.
  intros _. by exists (VStr s), (KStr s).
Qed.

Lemma add_list_passes `{LocalTime} ms node :
  (add_list ms node).1 = Ok tt ↔ passes ms node.
Proof.
  unfold passes. induction ms as [|m ms IH]; cbn [add_list].
  - split; [|done]. by intros _ m ?%elem_of_nil.
  - unfold outcome at 1. destruct (add m node) as [l [[]|e]] eqn:Hm.
    + destruct (add_list ms node) as [r ms']. cbn [fst] in *.
      rewrite IH. split.
      * intros Hms m' [->|?]%elem_of_cons; [by rewrite Hm|by apply Hms].
      * intros Hms m' ?. apply Hms, elem_of_cons. by right.
    + cbn [fst]. split; [done|]. intros Hms.
      specialize (Hms m (list_elem_of_here _ _)). by rewrite Hm in Hms.
Qed.

Lemma passes_append_samples `{LocalTime} (f : Metric → list Sample) ms node :
  passes ((λ m, append_samples m (f m)) <$> ms) node ↔ passes ms node.
Proof.
  unfold passes. split.
  - intros Hms m Hm.
    specialize (Hms _ (list_elem_of_fmap_2 _ _ _ Hm)).
    unfold append_samples in Hms. by rewrite add_with_samples in Hms.
  - intros Hms m' (m&->&Hm)%list_elem_of_fmap.
    unfold append_samples. rewrite add_with_samples. by apply Hms.
Qed.

Lemma append_samples_nil (ms : list Metric) :
  ms = (λ m, append_samples m []) <$> ms.
Proof.
  rewrite <- (list_fmap_id ms) at 1. apply list_fmap_ext.
  intros _ [c n doc ty ln sa] _. unfold append_samples, with_samples.
  simpl. by rewrite app_nil_r.
Qed.

(** The loop of the earnings collector on the objects it is given: it ends
    without an exception exactly when every record can be tested against
    the allow-list and every record that is let through is taken by every
    object, and then each object has gained what these records make it
    emit. *)
Lemma earnings_for_nodes_spec `{LocalTime} S ts L ms ms' :
  EarningsAndRetrievalsCollector.for_nodes
    (EarningsAndRetrievalsCollector.mk S ts) (seq 0 (length ms)) L ms
  = (Ok tt, ms')
  ↔ (∀ node, node ∈ L →
       (S ≠ ∅ → hashable_at "nodeId" node)
       ∧ (matches_at "nodeId" S node = true → passes ms node))
    ∧ ms' = (λ m, append_samples m
                    (projected m
                       (filter (λ node, matches_at "nodeId" S node = true) L)))
            <$> ms.
Proof.
  revert ms ms'. induction L as [|node L IH]; intros ms ms'.
  - cbn [EarningsAndRetrievalsCollector.for_nodes]. rewrite py_ret_run.
    rewrite filter_nil. change (projected _ []) with (@nil Sample).
    rewrite <- append_samples_nil. split.
    + intros [= <-]. split; [|done]. by intros node ?%elem_of_nil.
    + by intros [_ ->].
  - cbn [EarningsAndRetrievalsCollector.for_nodes]. rewrite py_bind_run.
    unfold pure at 1. cbn [EarningsAndRetrievalsCollector._node_ids].
    assert (Hstep : ∀ (Q : value → Prop),
              (∀ n, n ∈ node :: L → Q n) ↔ Q node ∧ ∀ n, n ∈ L → Q n).
    { intros Q. split.
      - intros HQ. split; [apply HQ, list_elem_of_here|].
        intros n ?. by apply HQ, list_elem_of_further.
      - intros [? HQ] n [->|?]%elem_of_cons; [done|by apply HQ]. }
    rewrite Hstep. clear Hstep.
    assert (Htaken : matches_at "nodeId" S node = true →
              (add_each (seq 0 (length ms)) node ≫=
                 λ _, EarningsAndRetrievalsCollector.for_nodes
                        (EarningsAndRetrievalsCollector.mk S ts)
                        (seq 0 (length ms)) L) ms = (Ok tt, ms')
              ↔ (passes ms node
                 ∧ ∀ n, n ∈ L →
                     (S ≠ ∅ → hashable_at "nodeId" n)
                     ∧ (matches_at "nodeId" S n = true → passes ms n))
                ∧ ms' = (λ m, append_samples m
                           (projected m
                              (filter (λ n, matches_at "nodeId" S n = true)
                                 (node :: L)))) <$> ms).
    { intros Hm. rewrite py_bind_run.
      rewrite (add_each_seq ms [] node). cbn [app].
      rewrite <- add_list_passes.
      destruct (add_list ms node) as [[[]|e] ms1] eqn:Hadd; cbn [fst snd].
      - apply add_list_ok in Hadd as ->.
        rewrite <- (length_fmap (λ m, append_samples m (emitted (add m node)))
                     ms) at 1.
        rewrite IH. rewrite filter_cons_True by done.
        rewrite <- list_fmap_compose.
        assert (Heq : (λ m, append_samples m
                         (projected m
                            (node :: filter
                               (λ n, matches_at "nodeId" S n = true) L)))
                      <$> ms
                      = ((λ m, append_samples m
                            (projected m
                               (filter (λ n, matches_at "nodeId" S n = true)
                                  L)))
                         ∘ (λ m, append_samples m (emitted (add m node))))
                        <$> ms).
        { apply list_fmap_ext. intros _ m _. simpl.
          rewrite append_append. do 2 f_equal.
          symmetry. apply projected_with_samples. }
        rewrite Heq.
        setoid_rewrite passes_append_samples. tauto.
      - split; [done|]. by intros [[? _] _]. }
    destruct (decide (S = ∅)) as [->|HS].
    + rewrite bool_decide_false by (by intros []).
      cbv beta iota.
      assert (Hm : matches_at "nodeId" ∅ node = true)
        by (unfold matches_at; by rewrite bool_decide_true).
      rewrite (Htaken Hm). clear Htaken. intuition.
    + rewrite bool_decide_true by done.
      destruct (getitem node "nodeId") as [v|e] eqn:Hid;
        cbn [mbind result_bind].
      2:{ split; [done|]. intros [[[Hh _] _] _].
          destruct (Hh HS) as (id&k&Hid'&_). by rewrite Hid in Hid'. }
      destruct (hash_key v) as [k|e] eqn:Hk; cbn [mbind result_bind].
      2:{ split; [done|]. intros [[[Hh _] _] _].
          destruct (Hh HS) as (id&k&Hid'&Hk'). rewrite Hid in Hid'.
          injection Hid' as <-. by rewrite Hk in Hk'. }
      assert (Hh : hashable_at "nodeId" node) by (by exists v, k).
      pose proof (matches_at_hashed "nodeId" S _ _ _ Hid Hk) as Hm.
      rewrite bool_decide_false in Hm by done. cbn [orb] in Hm.
      destruct (key_in k S) eqn:Hin; cbn [negb]; cbv beta iota.
      * rewrite (Htaken Hm). clear Htaken. intuition.
      * rewrite IH. rewrite filter_cons_False by (by rewrite Hm).
        rewrite Hm. intuition discriminate.
Qed.

Lemma beside_earnings_for_nodes `{LocalTime} self idxs earnings h ms :
  EarningsAndRetrievalsCollector.for_nodes self
    ((λ i, length h + i)%nat <$> idxs) earnings (h ++ ms)
  = beside h (EarningsAndRetrievalsCollector.for_nodes self idxs earnings ms).
Proof.
  revert ms. induction earnings as [|node earnings IH]; intros ms; [done|].
  cbn [EarningsAndRetrievalsCollector.for_nodes].
  apply beside_bind; [apply beside_pure|]. intros [] ms1; [apply IH|].
  apply beside_bind; [apply beside_add_each|]. intros _ ms3. apply IH.
Qed.

Lemma earnings_run `{LocalTime} self earnings h :
  EarningsAndRetrievalsCollector._node_earnings_and_retrievals_metrics
    self earnings h
  = ((λ _, seq (length h) 5) <$> (earnings_objects self earnings).1,
     h ++ (earnings_objects self earnings).2).
Proof.
  unfold EarningsAndRetrievalsCollector._node_earnings_and_retrievals_metrics,
    earnings_objects.
  rewrite py_bind_run, new_all_spec.
  set (ms := EarningsAndRetrievalsCollector.metric_classes).
  change (length ms) with 5%nat.
  rewrite py_bind_run. unfold pure at 1.
  destruct (iter earnings) as [nodes|e]; [|done].
  rewrite py_bind_run.
  rewrite <- (Nat.add_0_r (length h)), <- fmap_add_seq.
  rewrite beside_earnings_for_nodes.
  destruct (EarningsAndRetrievalsCollector.for_nodes _ _ _ _)
    as [[[]|e] ms1]; [|done].
  unfold beside. cbn [fst snd]. rewrite py_ret_run.
  by rewrite fmap_add_seq, Nat.add_0_r.
Qed.

Ltac in_list H :=
  repeat (apply elem_of_cons in H as [->|H]);
  [..|by apply elem_of_nil in H].

Lemma earnings_record_passes `{LocalTime} node :
  passes EarningsAndRetrievalsCollector.metric_classes node
  ↔ ∃ d id status,
      node = VDict d ∧ d !! "nodeId" = Some id
      ∧ d !! "payoutStatus" = Some status.
Proof.
  unfold passes. split.
  - intros Hms.
    specialize (Hms NodePayoutInfoMetric.__init__ (list_elem_of_here _ _)).
    destruct node as [| | | | | |d]; try done.
    cbn in Hms.
    destruct (d !! "nodeId") as [id|] eqn:Hid; [|done].
    destruct (d !! "payoutStatus") as [status|] eqn:Hst; [|done].
    by exists d, id, status.
  - intros (d&id&status&->&Hid&Hst) m Hm.
    unfold EarningsAndRetrievalsCollector.metric_classes in Hm.
    in_list Hm; cbn; rewrite ?Hid, ?Hst; cbn;
      repeat (match goal with
              | |- context [d !! ?k] => destruct (d !! k) as [[]|]; cbn
              end); rewrite ?Hid; reflexivity.
Qed.

(** X12: what the earnings collector returns.  When it returns, it returns
    the five objects it created, and each of them holds exactly what the
    records that are let through make it emit, in the order of the
    response: every record when the allow-list is empty, else the records
    whose [nodeId] is a string of the list.  Every record let through then
    has a [nodeId] and a [payoutStatus]; no series is made up for an id of
    the list that has no record. *)
Theorem earnings_snapshot `{LocalTime} S ts L h refs h' :
  EarningsAndRetrievalsCollector._node_earnings_and_retrievals_metrics
    (EarningsAndRetrievalsCollector.mk S ts) (VList L) h = (Ok refs, h') →
  let P := filter (λ node, matches_at "nodeId" S node = true) L in
  refs = seq (length h) 5
  ∧ deref h' refs
    = (λ m, Some (with_samples m (projected m P)))
        <$> EarningsAndRetrievalsCollector.metric_classes
  ∧ (∀ node, node ∈ P ↔
             node ∈ L
             ∧ (S = ∅ ∨ ∃ s, getitem node "nodeId" = Ok (VStr s) ∧ s ∈ S))
  ∧ (∀ node, node ∈ P →
             ∃ d id status, node = VDict d ∧ d !! "nodeId" = Some id
                            ∧ d !! "payoutStatus" = Some status).
Proof.
  intros Hrun P. subst P. rewrite earnings_run in Hrun.
  unfold earnings_objects in Hrun.
  change (iter (VList L)) with (Ok L) in Hrun. cbv beta iota in Hrun.
  destruct (EarningsAndRetrievalsCollector.for_nodes _ _ _ _)
    as [[[]|e] ms] eqn:Hloop; [|done].
  cbn [fst snd fmap result_fmap] in Hrun. injection Hrun as <- <-.
  apply (earnings_for_nodes_spec S ts L
           EarningsAndRetrievalsCollector.metric_classes) in Hloop
    as [Hall ->].
  split_and!.
  - done.
  - pose proof (deref_beside h
                  ((λ m, append_samples m
                           (projected m
                              (filter
                                 (λ node, matches_at "nodeId" S node = true)
                                 L)))
                     <$> EarningsAndRetrievalsCollector.metric_classes) [])
      as Hd.
    rewrite app_nil_r in Hd. rewrite length_fmap in Hd.
    change (length EarningsAndRetrievalsCollector.metric_classes)
      with 5%nat in Hd.
    etransitivity; [exact Hd|]. by rewrite <- list_fmap_compose.
  - intros node. rewrite list_elem_of_filter.
    change (matches_at "nodeId" S node) with
      (bool_decide (S = ∅)
       || match getitem node "nodeId" with
          | Ok (VStr s) => bool_decide (s ∈ S)
          | _ => false
          end).
    rewrite orb_true_iff, bool_decide_eq_true.
    split.
    + intros [[?|Hm] HL]; (split; [done|]); [by left|right].
      destruct (getitem node "nodeId") as [[| | | |s| |]|]; try done.
      exists s. split; [done|]. by apply bool_decide_eq_true in Hm.
    + intros [HL [?|(s&Hs&?)]]; (split; [|done]); [by left|right].
      rewrite Hs. by apply bool_decide_eq_true.
  - intros node [Hm HL]%list_elem_of_filter.
    apply earnings_record_passes. by apply Hall.
Qed.

Lemma earnings_snapshot_witness :
  let S : gset string := {[ "A" ]} in
  let L := [obj [("nodeId", VStr "A"); ("payoutStatus", VStr "valid");
                 ("filAmount", VFloat 1.5)];
            obj [("nodeId", VStr "B")]] in
  let run := @EarningsAndRetrievalsCollector._node_earnings_and_retrievals_metrics
               utc (EarningsAndRetrievalsCollector.mk S 0) (VList L) [] in
  deref run.2 (seq 0 5)
  = (λ m, Some (with_samples m
                  (@projected utc m
                     (filter (λ node, matches_at "nodeId" S node = true) L))))
      <$> EarningsAndRetrievalsCollector.metric_classes.
Proof.
  intros S L run.
  refine (proj1 (proj2
            (@earnings_snapshot utc S 0 L [] (seq 0 5) run.2 _))).
  vm_compute; reflexivity.
Defined.

(** X13: when the earnings collector returns.  It returns its objects
    exactly when every record of the response can be tested against the
    allow-list (with a list, the record has a hashable [nodeId]) and every
    record that is let through is a JSON object with a [nodeId] and a
    [payoutStatus].  One record without payout status among those let
    through makes the whole scrape raise. *)
Theorem earnings_scrape_returns_iff `{LocalTime} S ts L h :
  (∃ refs h',
     EarningsAndRetrievalsCollector._node_earnings_and_retrievals_metrics
       (EarningsAndRetrievalsCollector.mk S ts) (VList L) h = (Ok refs, h'))
  ↔ ∀ node, node ∈ L →
      (S ≠ ∅ → hashable_at "nodeId" node)
      ∧ (matches_at "nodeId" S node = true →
         ∃ d id status, node = VDict d ∧ d !! "nodeId" = Some id
                        ∧ d !! "payoutStatus" = Some status).
Proof.
  rewrite earnings_run. unfold earnings_objects.
  change (iter (VList L)) with (Ok L). cbv beta iota.
  setoid_rewrite <- earnings_record_passes.
  pose proof (earnings_for_nodes_spec S ts L
                EarningsAndRetrievalsCollector.metric_classes) as Hspec.
  change (length EarningsAndRetrievalsCollector.metric_classes)
    with 5%nat in Hspec.
  destruct (EarningsAndRetrievalsCollector.for_nodes _ _ _ _)
    as [[[]|e] ms] eqn:Hloop.
  - split; [|by eexists _, _]. intros _. by apply (Hspec ms).
  - split; [by intros (?&?&?)|]. intros Hall.
    assert (Hno : (Raise e, ms)
                  = (Ok tt,
                     (λ m, append_samples m
                             (projected m
                                (filter
                                   (λ node,
                                      matches_at "nodeId" S node = true) L)))
                       <$> EarningsAndRetrievalsCollector.metric_classes))
      by (by apply Hspec).
    discriminate Hno.
Qed.

(** *** The store *)

Lemma earnings_for_nodes_length `{LocalTime} self idxs earnings ms :
  length (EarningsAndRetrievalsCollector.for_nodes self idxs earnings ms).2
  = length ms.
Proof.
  revert ms. induction earnings as [|node earnings IH]; intros ms; [done|].
  cbn [EarningsAndRetrievalsCollector.for_nodes].
  apply bind_length; [done|]. intros [] ms1; [apply IH|].
  apply bind_length; [apply add_each_length|]. intros _ ms3. apply IH.
Qed.

Lemma earnings_objects_length `{LocalTime} self earnings :
  length (earnings_objects self earnings).2 = 5%nat.
Proof.
  unfold earnings_objects. destruct (iter earnings) as [nodes|e]; [|done].
  by rewrite earnings_for_nodes_length.
Qed.

(** X14: the collectors touch only the objects they create.  Whatever
    objects the store holds when a collector runs, they are the same
    afterwards, the new objects come after them, and what the collector
    returns (its objects or its exception) is what it returns in an empty
    store. *)
Theorem collectors_touch_only_their_objects `{LocalTime} `{SetOrder} h :
  (∀ self stats,
     let run := StatsCollector._node_metrics_from_stats self stats in
     (run h).2 = h ++ (run []).2 ∧ returned (run h) = returned (run []))
  ∧ (∀ self earnings,
       let run :=
         EarningsAndRetrievalsCollector._node_earnings_and_retrievals_metrics
           self earnings in
       (run h).2 = h ++ (run []).2 ∧ returned (run h) = returned (run []))
  ∧ (∀ requirements,
       let run :=
         RequirementsCollector._node_requirements_metrics requirements in
       (run h).2 = h ++ (run []).2 ∧ returned (run h) = returned (run [])).
Proof.
  split_and!.
  - intros self stats. cbn zeta. rewrite !stats_run. unfold returned.
    cbn [fst snd app]. split; [done|].
    pose proof (stats_objects_length self stats) as Hlen.
    destruct (stats_objects self stats) as [[[]|e] ms]; [|done].
    cbn [fst snd fmap result_fmap length] in *. rewrite <- Hlen.
    pose proof (deref_beside h ms []) as H1.
    pose proof (deref_beside [] ms []) as H2.
    rewrite app_nil_r in H1, H2. cbn [app length] in H2.
    by rewrite H1, H2.
  - intros self earnings. cbn zeta. rewrite !earnings_run. unfold returned.
    cbn [fst snd app]. split; [done|].
    pose proof (earnings_objects_length self earnings) as Hlen.
    destruct (earnings_objects self earnings) as [[[]|e] ms]; [|done].
    cbn [fst snd fmap result_fmap length] in *. rewrite <- Hlen.
    pose proof (deref_beside h ms []) as H1.
    pose proof (deref_beside [] ms []) as H2.
    rewrite app_nil_r in H1, H2. cbn [app length] in H2.
    by rewrite H1, H2.
  - intros requirements. cbn zeta. rewrite !requirements_run.
    unfold returned.
    pose proof (add_list_length RequirementsCollector.metric_classes
                  requirements) as Hlen.
    change (length RequirementsCollector.metric_classes) with 7%nat in Hlen.
    destruct (add_list _ _) as [[[]|e] ms]; [|done].
    cbn [fst snd fmap result_fmap length app] in *. split; [done|].
    rewrite <- Hlen.
    pose proof (deref_beside h ms []) as H1.
    pose proof (deref_beside [] ms []) as H2.
    rewrite app_nil_r in H1, H2. cbn [app length] in H2.
    by rewrite H1, H2.
Qed.

(** *** When the stats collector returns *)

Lemma stats_for_nodes_returns `{LocalTime} S L found ms :
  (∃ found' ms',
     StatsCollector.for_nodes (StatsCollector.mk S) (seq 0 (length ms)) L
       found ms = (Ok found', ms'))
  ↔ ∀ node, node ∈ L →
      hashable_at "id" node ∧ (matches S node = true → passes ms node).
Proof.
  revert found ms. induction L as [|node L IH]; intros found ms.
  - cbn [StatsCollector.for_nodes]. rewrite py_ret_run. split.
    + by intros _ node ?%elem_of_nil.
    + intros _. by eexists _, _.
  - assert (Hstep : ∀ (Q : value → Prop),
              (∀ n, n ∈ node :: L → Q n) ↔ Q node ∧ ∀ n, n ∈ L → Q n).
    { intros Q. split.
      - intros HQ. split; [apply HQ, list_elem_of_here|].
        intros n ?. by apply HQ, list_elem_of_further.
      - intros [? HQ] n [->|?]%elem_of_cons; [done|by apply HQ]. }
    rewrite Hstep. clear Hstep.
    cbn [StatsCollector.for_nodes]. rewrite py_bind_run. unfold pure at 1.
    cbn [StatsCollector._node_ids].
    assert (Htaken : ∀ k,
              (∃ found' ms',
                 (add_each (seq 0 (length ms)) node ≫=
                    λ _, StatsCollector.for_nodes (StatsCollector.mk S)
                           (seq 0 (length ms)) L (found_add k found)) ms
                 = (Ok found', ms'))
              ↔ passes ms node
                ∧ ∀ n, n ∈ L →
                    hashable_at "id" n
                    ∧ (matches S n = true → passes ms n)).
    { intros k. rewrite py_bind_run.
      rewrite (add_each_seq ms [] node). cbn [app].
      rewrite <- add_list_passes.
      destruct (add_list ms node) as [[[]|e] ms1] eqn:Hadd; cbn [fst snd].
      - apply add_list_ok in Hadd as ->.
        rewrite <- (length_fmap (λ m, append_samples m (emitted (add m node)))
                     ms).
        rewrite IH. setoid_rewrite passes_append_samples. tauto.
      - split; [by intros (?&?&?)|]. by intros [? _]. }
    destruct (getitem node "id") as [v|e] eqn:Hid.
    2:{ assert (Hno : ¬ hashable_at "id" node).
        { intros (id&k&Hid'&_). by rewrite Hid in Hid'. }
        destruct (bool_decide (S ≠ ∅)); cbn [mbind result_bind].
        - split; [by intros (?&?&?)|]. by intros [[? _] _].
        - cbv beta iota. rewrite py_bind_run. unfold pure at 1.
          cbn [mbind result_bind].
          split; [by intros (?&?&?)|]. by intros [[? _] _]. }
    cbn [mbind result_bind].
    destruct (hash_key v) as [k|e] eqn:Hk.
    2:{ assert (Hno : ¬ hashable_at "id" node).
        { intros (id&k&Hid'&Hk'). rewrite Hid in Hid'.
          injection Hid' as <-. by rewrite Hk in Hk'. }
        destruct (bool_decide (S ≠ ∅)); cbn [mbind result_bind].
        - split; [by intros (?&?&?)|]. by intros [[? _] _].
        - cbv beta iota. rewrite py_bind_run. unfold pure at 1.
          cbn [mbind result_bind].
          split; [by intros (?&?&?)|]. by intros [[? _] _]. }
    assert (Hh : hashable_at "id" node) by (by exists v, k).
    pose proof (matches_hashed S _ _ _ Hid Hk) as Hm.
    cbn [mbind result_bind].
    destruct (decide (S = ∅)) as [->|HS].
    + rewrite bool_decide_false by (by intros []).
      cbv beta iota. rewrite py_bind_run. unfold pure at 1.
      rewrite (Htaken k). rewrite bool_decide_true in Hm by done.
      cbn [orb] in Hm. rewrite Hm. intuition.
    + rewrite bool_decide_true by done.
      rewrite bool_decide_false in Hm by done. cbn [orb] in Hm.
      destruct (key_in k S) eqn:Hin; cbn [negb]; cbv beta iota.
      * rewrite py_bind_run. unfold pure at 1.
        rewrite (Htaken k). rewrite Hm. intuition.
      * rewrite IH, Hm. intuition discriminate.
Qed.

(** X15: when the stats collector returns.  It returns its objects exactly
    when every record of the response, also one the allow-list leaves out,
    has a hashable [id], and every record that is let through is taken
    without an exception by each of the 27 families.  The series for the
    inactive nodes never make it raise. *)
Theorem stats_scrape_returns_iff `{LocalTime} `{SetOrder} S L h :
  (∃ refs h',
     StatsCollector._node_metrics_from_stats (StatsCollector.mk S) (VList L) h
     = (Ok refs, h'))
  ↔ ∀ node, node ∈ L →
      hashable_at "id" node
      ∧ (matches S node = true →
         passes (NodeInfoMetric.__init__ :: StatsCollector.metric_classes)
           node).
Proof.
  rewrite stats_run.
  rewrite <- (stats_for_nodes_returns S L []
                (NodeInfoMetric.__init__ :: StatsCollector.metric_classes)).
  unfold stats_objects.
  change (iter (VList L)) with (Ok L). cbv beta iota zeta.
  change (length (NodeInfoMetric.__init__ :: StatsCollector.metric_classes))
    with 27%nat.
  destruct (StatsCollector.for_nodes _ _ _ _ _) as [[found|e] ms1] eqn:Hloop.
  - split; [intros _; by eexists _, _|]. intros _.
    change 27%nat
      with (length (NodeInfoMetric.__init__ :: StatsCollector.metric_classes))
      in Hloop.
    apply for_nodes_ok in Hloop as [-> _].
    rewrite fmap_cons.
    change (append_samples NodeInfoMetric.__init__ ?l)
      with (with_samples NodeInfoMetric.__init__ l).
    rewrite for_inactive_info. cbn [fst snd fmap result_fmap].
    by eexists _, _.
  - cbn [fst snd fmap result_fmap].
    split; by intros (?&?&?).
Qed.

(** *** The allow-list as it is given *)

(** X16: the stats collector made from a list of ids.  The list is turned
    into a set: when the collector returns, the records let through are
    those whose id is a string of the list, and the inactive series are
    one for each id of the list that no such record has, once also for an
    id that is listed twice.  With the empty list every record is let
    through and there is no inactive series. *)
Theorem stats_collector_of_id_list `{LocalTime} `{SetOrder} ids L h refs h' :
  StatsCollector._node_metrics_from_stats (StatsCollector.__init__ ids)
    (VList L) h = (Ok refs, h') →
  let P := filter (λ node, matches (list_to_set ids) node = true) L in
  ∃ inactive,
    inactive ≡ₚ remove_dups (filter (λ i, i ∉ observed P) ids)
    ∧ deref h' refs
      = Some (with_samples NodeInfoMetric.__init__
                (projected NodeInfoMetric.__init__ P
                 ++ (inactive_series <$> inactive)))
        :: ((λ m, Some (with_samples m (projected m P)))
              <$> StatsCollector.metric_classes)
    ∧ (ids = [] → P = L ∧ inactive = []).
Proof.
  intros Hrun P. unfold StatsCollector.__init__ in Hrun.
  set (S := list_to_set ids : gset string) in *.
  exists (set_iter (S ∖ list_to_set (observed P))).
  assert (Hperm : set_iter (S ∖ list_to_set (observed P))
                  ≡ₚ remove_dups (filter (λ i, i ∉ observed P) ids)).
  { rewrite set_iter_perm. apply NoDup_Permutation.
    - apply NoDup_elements.
    - apply NoDup_remove_dups.
    - intros i. rewrite elem_of_elements, elem_of_difference,
        elem_of_remove_dups, list_elem_of_filter.
      unfold S. rewrite !elem_of_list_to_set. tauto. }
  split_and!; [done| |].
  - rewrite stats_run in Hrun.
    pose proof (stats_objects_length (StatsCollector.mk S) (VList L)) as Hlen.
    destruct (stats_objects _ _) as [[[]|e] ms] eqn:Hobj; [|done].
    cbn [fst snd fmap result_fmap] in Hrun, Hlen.
    rewrite <- Hlen in Hrun. injection Hrun as <- <-.
    pose proof (deref_beside h ms []) as Hd.
    rewrite app_nil_r in Hd. rewrite Hd.
    apply stats_objects_ok in Hobj as ->.
    by rewrite fmap_cons, <- list_fmap_compose.
  - intros ->. split.
    + unfold P. clear. induction L as [|node L IH]; [done|].
      rewrite filter_cons_True; [by rewrite IH|].
      unfold matches. by rewrite bool_decide_true.
    + apply Permutation_nil_r. by rewrite Hperm.
Qed.

Lemma stats_collector_of_id_list_witness :
  let ids := ["B"; "A"; "B"] in
  let L := [example_node "A"] in
  let run := @StatsCollector._node_metrics_from_stats utc elements_order
               (StatsCollector.__init__ ids) (VList L) [] in
  ∃ inactive,
    inactive ≡ₚ ["B"]
    ∧ (deref run.2 (seq 0 27)) !! 0%nat
      = Some (Some (with_samples NodeInfoMetric.__init__
                      (@projected utc NodeInfoMetric.__init__ L
                       ++ (inactive_series <$> inactive)))).
Proof.
  intros ids L run.
  destruct (@stats_collector_of_id_list utc elements_order ids L []
              (seq 0 27) run.2) as (inactive&Hperm&Hd&_);
    [vm_compute; reflexivity|].
  exists inactive. split.
  - etransitivity; [exact Hperm|]. vm_compute. reflexivity.
  - rewrite Hd. reflexivity.
Defined.

(** *** The file of node ids *)

Lemma blank_empty : blank "".
Proof. by intros a ?%elem_of_nil. Qed.

Lemma blank_String a s : blank (String a s) ↔ is_space a = true ∧ blank s.
Proof.
  unfold blank. cbn [chars]. split.
  - intros Hs. split; [apply Hs, list_elem_of_here|].
    intros b ?. by apply Hs, list_elem_of_further.
  - intros [? Hs] b [->|?]%elem_of_cons; [done|by apply Hs].
Qed.

Lemma lstrip_spec s : ∃ l, s = l +:+ lstrip s ∧ blank l.
Proof.
  induction s as [|a s (l&Hs&Hl)]; [exists ""; split; [done|apply blank_empty]|].
  cbn [lstrip]. destruct (is_space a) eqn:Ha.
  - exists (String a l). rewrite append_String, <- Hs.
    split; [done|]. by apply blank_String.
  - exists "". split; [done|apply blank_empty].
Qed.

Lemma rstrip_String a s :
  rstrip (String a s)
  = match rstrip s with
    | EmptyString => if is_space a then EmptyString else String a EmptyString
    | t => String a t
    end.
Proof. reflexivity. Qed.

Lemma rstrip_spec s : ∃ r, s = rstrip s +:+ r ∧ blank r.
Proof.
  induction s as [|a s (r&Hs&Hr)]; [exists ""; split; [done|apply blank_empty]|].
  rewrite rstrip_String. destruct (rstrip s) as [|b t] eqn:Ht.
  - rewrite append_empty in Hs. subst s.
    destruct (is_space a) eqn:Ha.
    + exists (String a r). split; [done|]. by apply blank_String.
    + exists r. by rewrite append_String, append_empty.
  - exists r. by rewrite append_String, <- Hs.
Qed.

Lemma rstrip_idemp s : rstrip (rstrip s) = rstrip s.
Proof.
  induction s as [|a s IH]; [done|].
  rewrite rstrip_String. destruct (rstrip s) as [|b t] eqn:Ht.
  - destruct (is_space a) eqn:Ha; [done|]. cbn [rstrip]. by rewrite Ha.
  - by rewrite rstrip_String, IH.
Qed.

Lemma lstrip_rstrip_lstrip s : lstrip (rstrip (lstrip s)) = rstrip (lstrip s).
Proof.
  induction s as [|a s IH]; [done|].
  cbn [lstrip]. destruct (is_space a) eqn:Ha; [done|].
  rewrite rstrip_String.
  destruct (rstrip s); rewrite ?Ha; cbn [lstrip]; by rewrite Ha.
Qed.

Lemma str_strip_spec s t :
  str_strip s = Ok t →
  (∃ l r, s = l +:+ t +:+ r ∧ blank l ∧ blank r)
  ∧ stripped t ∧ str_strip t = Ok t.
Proof.
  unfold str_strip. destruct (all_ascii s) eqn:Hascii; [|done].
  intros [= <-].
  destruct (lstrip_spec s) as (l&Hl&Hbl).
  destruct (rstrip_spec (lstrip s)) as (r&Hr&Hbr).
  assert (Hst : stripped (rstrip (lstrip s))).
  { split; [apply lstrip_rstrip_lstrip|apply rstrip_idemp]. }
  split_and!.
  - exists l, r. by rewrite <- Hr.
  - done.
  - rewrite Hl, Hr, !all_ascii_app in Hascii.
    apply andb_true_iff in Hascii as [_ [-> _]%andb_true_iff].
    destruct Hst as [-> ->]. done.
Qed.

Lemma str_strip_blank s :
  all_ascii s = true → blank s → str_strip s = Ok "".
Proof.
  unfold str_strip. intros -> Hs. f_equal.
  induction s as [|a s IH]; [done|].
  apply blank_String in Hs as [Ha Hs]. cbn [lstrip]. rewrite Ha. by apply IH.
Qed.

(** X17: the node ids read from the file.  When the lines of the file are
    ASCII, the ids are the lines in their order, one id for every line,
    each without the white space at its start and its end (the line is the
    id between two runs of white space, and the id is left as it is when
    it is stripped again).  A line of white space only gives the empty id,
    and a file that has a line, were it blank, gives a collector whose
    allow-list is not empty. *)
Theorem node_ids_are_stripped_lines f ids :
  read_node_ids f = Ok ids →
  length ids = length f
  ∧ (∀ i line id,
       f !! i = Some line → ids !! i = Some id →
       (∃ l r, line = l +:+ id +:+ r ∧ blank l ∧ blank r)
       ∧ stripped id ∧ str_strip id = Ok id)
  ∧ (∀ i line, f !! i = Some line → blank line → ids !! i = Some "")
  ∧ (f ≠ [] → StatsCollector._node_ids (StatsCollector.__init__ ids) ≠ ∅).
Proof.
  revert ids. induction f as [|line f IH]; intros ids.
  - intros [= <-]. split_and!; done.
  - cbn [read_node_ids].
    destruct (str_strip line) as [id|e] eqn:Hline; [|done].
    cbn [mbind result_bind].
    destruct (read_node_ids f) as [ids'|e] eqn:Hf; [|done].
    cbn [mbind result_bind]. intros [= <-].
    destruct (IH ids' eq_refl) as (Hlen&Hids&Hblank&_).
    split_and!.
    + cbn [length]. by rewrite Hlen.
    + intros [|i] line' id'; cbn.
      * intros [= <-] [= <-]. by apply str_strip_spec.
      * apply Hids.
    + intros [|i] line'; cbn.
      * intros [= <-] Hb. f_equal.
        unfold str_strip in Hline.
        destruct (all_ascii line) eqn:Hascii; [|done].
        pose proof (str_strip_blank line Hascii Hb) as Hline'.
        unfold str_strip in Hline'. rewrite Hascii in Hline'.
        congruence.
      * apply Hblank.
    + intros _. unfold StatsCollector.__init__.
      cbn [StatsCollector._node_ids list_to_set].
      intros Hempty. apply (not_elem_of_empty (C := gset string) id).
      rewrite <- Hempty. set_solver.
Qed.

Lemma node_ids_are_stripped_lines_witness :
  length ["abc"; ""] = length [" abc" +:+ String "010" ""; String "010" ""]
  ∧ ["abc"; ""] !! 1%nat = Some "".
Proof.
  pose proof (node_ids_are_stripped_lines
                [" abc" +:+ String "010" ""; String "010" ""] ["abc"; ""]
                eq_refl) as (Hlen&_&Hblank&_).
  split; [exact Hlen|].
  apply (Hblank 1%nat (String "010" "") eq_refl).
  intros a [->|[]%elem_of_nil]%elem_of_cons. reflexivity.
Defined.

(** The file is read to its end when its lines are ASCII. *)
Lemma read_node_ids_total f :
  (∀ line, line ∈ f → all_ascii line = true) →
  ∃ ids, read_node_ids f = Ok ids.
Proof.
  induction f as [|line f IH]; intros Hf; [by exists []|].
  destruct IH as [ids Hids].
  { intros l ?. by apply Hf, list_elem_of_further. }
  cbn [read_node_ids]. unfold str_strip.
  rewrite (Hf line (list_elem_of_here _ _)). cbn [mbind result_bind].
  rewrite Hids. by eexists.
Qed.

(** *** The labels of the series *)

Lemma dict_set_fresh k v d :
  k ∉ d.*1 → dict_set k v d = d ++ [(k, v)].
Proof.
  induction d as [|[k' v'] d IH]; [done|].
  cbn [fmap list_fmap fst]. intros Hk. cbn [dict_set].
  rewrite decide_False by (intros ->; apply Hk, list_elem_of_here).
  rewrite IH; [done|]. intros ?. by apply Hk, list_elem_of_further.
Qed.

Lemma dict_update_fresh d names labels :
  NoDup (d.*1 ++ names) →
  dict_update d (zip names labels) = d ++ zip names labels.
Proof.
  unfold dict_update. revert d labels.
  induction names as [|k names IH]; intros d labels Hnd.
  - cbn. by rewrite app_nil_r.
  - destruct labels as [|v labels]; [cbn; by rewrite app_nil_r|].
    cbn [zip zip_with foldl].
    apply NoDup_app in Hnd as Hparts. destruct Hparts as (Hd&Hdn&Hn).
    rewrite dict_set_fresh.
    2:{ intros Hk. apply (Hdn k Hk), list_elem_of_here. }
    rewrite IH.
    + by rewrite <- app_assoc.
    + rewrite fmap_app. cbn [fmap list_fmap fst].
      by rewrite <- app_assoc.
Qed.

(** With as many labels as names, [dict(zip(names, labels))] has the names
    as its keys, in their order. *)
Lemma dict_zip_keys names labels :
  NoDup names → length labels = length names →
  (dict_zip names labels).*1 = names.
Proof.
  intros Hnd Hlen. unfold dict_zip.
  rewrite dict_update_fresh by done. cbn [app].
  by rewrite fst_zip by lia.
Qed.

Lemma all_emitted_ret {A} Q (a : A) : all_emitted Q (mret a).
Proof. by intros s ?%elem_of_nil. Qed.

Lemma all_emitted_lift {A} Q (r : result A) : all_emitted Q (lift r).
Proof. by intros s ?%elem_of_nil. Qed.

Lemma all_emitted_bind {A B} Q (m : Emit A) (f : A → Emit B) :
  all_emitted Q m → (∀ a, all_emitted Q (f a)) → all_emitted Q (m ≫= f).
Proof.
  unfold all_emitted, emitted. destruct m as [l [a|e]]; cbn.
  - intros Hm Hf s. specialize (Hf a). destruct (f a) as [l' r]. cbn in *.
    intros [?|?]%elem_of_app; auto.
  - intros Hm _ s. apply Hm.
Qed.

Lemma all_emitted_try {A} Q (body handler : Emit A) :
  all_emitted Q body → all_emitted Q handler →
  all_emitted Q (try_except_KeyError body handler).
Proof.
  unfold all_emitted, emitted, try_except_KeyError.
  destruct body as [l [a|[]]]; cbn; try done.
  destruct handler as [l' r]. cbn.
  intros Hb Hh s [?|?]%elem_of_app; auto.
Qed.

Lemma all_emitted_gauge self labels v :
  typ self = gauge → NoDup (labelnames self) →
  length labels = length (labelnames self) →
  all_emitted (well_labelled self)
    (GaugeMetricFamily.add_metric self labels v).
Proof.
  intros Hty Hnd Hlen s [->|[]%elem_of_nil]%elem_of_cons.
  unfold well_labelled, series_name. rewrite Hty. cbn [s_name s_labels].
  by rewrite dict_zip_keys.
Qed.

Lemma all_emitted_counter self labels v :
  typ self = counter → NoDup (labelnames self) →
  length labels = length (labelnames self) →
  all_emitted (well_labelled self)
    (CounterMetricFamily.add_metric self labels v).
Proof.
  intros Hty Hnd Hlen s [->|[]%elem_of_nil]%elem_of_cons.
  unfold well_labelled, series_name. rewrite Hty. cbn [s_name s_labels].
  by rewrite dict_zip_keys.
Qed.

Lemma all_emitted_weaken {A} (Q Q' : Sample → Prop) (e : Emit A) :
  (∀ s, Q s → Q' s) → all_emitted Q e → all_emitted Q' e.
Proof. intros HQ He s Hs. by apply HQ, He. Qed.

(** One step of the walk through a method body. *)
Ltac emitted_step :=
  lazymatch goal with
  | |- all_emitted _ (mret _) => apply all_emitted_ret
  | |- all_emitted _ (lift _) => apply all_emitted_lift
  | |- all_emitted _ (_ ≫= _) => apply all_emitted_bind; [|intros ?]
  | |- all_emitted _ (try_except_KeyError _ _) => apply all_emitted_try
  | |- all_emitted _ (GaugeMetricFamily.add_metric _ _ _) =>
      apply all_emitted_gauge;
      [reflexivity
      |apply (bool_decide_unpack _); vm_compute; exact I
      |reflexivity]
  | |- all_emitted _ (CounterMetricFamily.add_metric _ _ _) =>
      apply all_emitted_counter;
      [reflexivity
      |apply (bool_decide_unpack _); vm_compute; exact I
      |reflexivity]
  | |- all_emitted _ (if ?b then _ else _) => destruct b
  | |- all_emitted _ (match ?x with _ => _ end) => destruct x
  end.

Lemma add_kinds_labels self node table :
  typ self = gauge → labelnames self = ["id"; "kind"] →
  all_emitted (well_labelled self) (add_kinds self node table).
Proof.
  intros Hty Hl. induction table as [|[k v] table IH]; cbn [add_kinds].
  - apply all_emitted_ret.
  - apply all_emitted_bind; [apply all_emitted_lift|]. intros x.
    apply all_emitted_bind; [|intros _; apply IH].
    destruct (is_not_None x); [|apply all_emitted_ret].
    apply all_emitted_bind; [apply all_emitted_lift|]. intros id.
    apply all_emitted_gauge; [done| |by rewrite Hl].
    rewrite Hl. apply (bool_decide_unpack _). vm_compute. exact I.
Qed.

Lemma response_duration_loop_labels self node ttfb qs :
  typ self = gauge → labelnames self = ["id"; "quantile"] →
  all_emitted (well_labelled self)
    (NodeResponseDurationMetric.add_loop self node ttfb qs).
Proof.
  intros Hty Hl.
  induction qs as [|q qs IH]; cbn [NodeResponseDurationMetric.add_loop].
  - apply all_emitted_ret.
  - apply all_emitted_bind; [apply all_emitted_lift|]. intros p.
    apply all_emitted_bind.
    + apply all_emitted_try; [|apply all_emitted_ret].
      apply all_emitted_bind; [apply all_emitted_lift|]. intros id.
      apply all_emitted_bind; [apply all_emitted_lift|]. intros v.
      apply all_emitted_bind; [|intros _; apply all_emitted_ret].
      apply all_emitted_gauge; [done| |by rewrite Hl].
      rewrite Hl. apply (bool_decide_unpack _). vm_compute. exact I.
    + intros []; [apply IH|apply all_emitted_ret].
Qed.

Lemma add_errors_labels self node errors :
  typ self = gauge → labelnames self = ["id"; "error"] →
  all_emitted (well_labelled self)
    (NodeHealthCheckFailuresMetric.add_errors self node errors).
Proof.
  intros Hty Hl.
  induction errors as [|[h [k v]] errors IH];
    cbn [NodeHealthCheckFailuresMetric.add_errors].
  - apply all_emitted_ret.
  - apply all_emitted_bind; [apply all_emitted_lift|]. intros id.
    apply all_emitted_bind; [|intros _; apply IH].
    apply all_emitted_gauge; [done| |by rewrite Hl].
    rewrite Hl. apply (bool_decide_unpack _). vm_compute. exact I.
Qed.

Lemma health_check_failures_labels node :
  all_emitted
    (λ s, well_labelled NodeHealthCheckFailuresMetric.__init__ s
          ∨ zero_failures_series s)
    (NodeHealthCheckFailuresMetric.add NodeHealthCheckFailuresMetric.__init__
       node).
Proof.
  unfold NodeHealthCheckFailuresMetric.add.
  apply all_emitted_bind; [apply all_emitted_lift|]. intros failures.
  destruct (negb (truthy failures)).
  - apply all_emitted_bind; [apply all_emitted_lift|]. intros id.
    intros s [->|[]%elem_of_nil]%elem_of_cons. right.
    unfold zero_failures_series. by vm_compute.
  - apply all_emitted_bind; [apply all_emitted_lift|]. intros errors.
    eapply all_emitted_weaken; [|by apply add_errors_labels].
    intros s ?. by left.
Qed.

Ltac emitted_walk :=
  repeat first
    [ apply add_kinds_labels; reflexivity
    | apply response_duration_loop_labels; reflexivity
    | emitted_step ].

(** X18: the labels of the series.  Whatever the record, every series that
    a gauge or counter family emits for it, also before an exception, has
    the series name of the family and exactly the label names the family
    declared, in their order.  There is one exception: the series that the
    health check family emits for a node without failures has the id as its
    only label. *)
Theorem series_carry_the_declared_labels `{LocalTime} m node s :
  m ∈ gauge_and_counter_families →
  s ∈ emitted (add m node) →
  well_labelled m s
  ∨ (m = NodeHealthCheckFailuresMetric.__init__ ∧ zero_failures_series s).
Proof.
  intros Hm. revert s.
  change (all_emitted
            (λ s, well_labelled m s
                  ∨ (m = NodeHealthCheckFailuresMetric.__init__
                     ∧ zero_failures_series s))
            (add m node)).
  unfold gauge_and_counter_families, StatsCollector.metric_classes,
    EarningsAndRetrievalsCollector.metric_classes,
    RequirementsCollector.metric_classes in Hm.
  cbn [app drop] in Hm.
  in_list Hm;
    (unfold add;
     match goal with
     | |- context [cls ?m] =>
         let c := eval vm_compute in (cls m) in change (cls m) with c
     end;
     cbv beta iota;
     first
       [ eapply all_emitted_weaken; [|apply health_check_failures_labels];
         intros s [?|?]; [by left|by right]
       | eapply all_emitted_weaken; [intros s Hs; left; exact Hs|];
         lazymatch goal with
         | |- all_emitted _ (?f _ _ _) => unfold f
         | |- all_emitted _ (?f _ _) => unfold f
         end;
         emitted_walk ]).
Qed.

Lemma series_carry_the_declared_labels_witness :
  let s := mkSample "saturn_node_weight" [("id", VStr "A")] (VFloat 0.5) in
  well_labelled NodeWeightMetric.__init__ s
  ∨ (NodeWeightMetric.__init__ = NodeHealthCheckFailuresMetric.__init__
     ∧ zero_failures_series s).
Proof.
  apply (@series_carry_the_declared_labels utc NodeWeightMetric.__init__
           (example_node "A")).
  - apply list_elem_of_further, list_elem_of_here.
  - vm_compute. apply list_elem_of_here.
Defined.

(** The exception is real: a record with an id and without failures gives a
    series of the health check family without the label [error]. *)
Example zero_failures_series_lacks_a_label :
  ∃ s, s ∈ emitted (NodeHealthCheckFailuresMetric.add
                      NodeHealthCheckFailuresMetric.__init__
                      (obj [("id", VStr "A")]))
       ∧ ¬ well_labelled NodeHealthCheckFailuresMetric.__init__ s.
Proof.
  eexists. split; [vm_compute; apply list_elem_of_here|].
  by intros [_ ?].
Qed.
